(** * The record-linkage and derivation pipeline of [app/etl.py]

    A shallow embedding of [run_transformations]: the five survey extracts
    are recoded, linked on the subject identifier by four one-to-one left
    joins, extended with the albumin-to-creatinine ratio (ACR) and the
    estimated filtration rate (eGFR) with their stages, and reconciled
    (exclusion of the "I-" identifiers, sentinel fill of the text columns,
    median fill of the numeric columns).

    Numbers are binary64 floats (the kernel's primitive floats), as in a
    pandas [float64] column: a missing number is NaN.  Every coded or
    measured column of the five extracts is taken to be such a column.
    A text cell is an [option string], [None] being the missing value
    ([NaN] / [pd.NA]).  A Python [str] is held as its UTF-8 encoding, so
    that the white space [str.strip()] removes is made of characters of
    one, two or three bytes.  An identifier cell is an integer, a string
    or the missing value.

    The C library's [pow], which Python's [**] ends in, is a parameter of
    the embedding ([PlatformPow]); the cases that CPython settles before
    calling it are written out in [float_pow]. *)

From Stdlib Require Import ZArith List String Ascii Bool Floats Lia.
From Stdlib Require Import DecimalString Finite.
Import ListNotations.

Set Warnings "-inexact-float".
Local Open Scope string_scope.

(* ================================================================== *)
(** * Python strings *)

Module Py.

(** A [str] is held as its UTF-8 encoding.  The characters that
    [str.strip()] removes are those [str.isspace()] accepts: U+0009 to
    U+000D, U+001C to U+001F, U+0020, U+0085, U+00A0, U+1680, U+2000 to
    U+200A, U+2028, U+2029, U+202F, U+205F and U+3000, of one, two or
    three bytes. *)

(** One byte: TAB..CR, FS..US and the space. *)
Definition is_space (c : ascii) : bool :=
  let n := nat_of_ascii c in
  ((9 <=? n) && (n <=? 13) || (28 <=? n) && (n <=? 31) || (n =? 32))%nat.

(** Two bytes: U+0085 (C2 85) and U+00A0 (C2 A0). *)
Definition is_space2 (c1 c2 : ascii) : bool :=
  let n1 := nat_of_ascii c1 in
  let n2 := nat_of_ascii c2 in
  ((n1 =? 194) && ((n2 =? 133) || (n2 =? 160)))%nat.

(** Three bytes: U+1680 (E1 9A 80), U+2000..U+200A (E2 80 80..8A),
    U+2028 and U+2029 (E2 80 A8, E2 80 A9), U+202F (E2 80 AF),
    U+205F (E2 81 9F) and U+3000 (E3 80 80). *)
Definition is_space3 (c1 c2 c3 : ascii) : bool :=
  let n1 := nat_of_ascii c1 in
  let n2 := nat_of_ascii c2 in
  let n3 := nat_of_ascii c3 in
  ((n1 =? 225) && (n2 =? 154) && (n3 =? 128)
   || (n1 =? 226) && (n2 =? 128)
      && ((128 <=? n3) && (n3 <=? 138) || (n3 =? 168) || (n3 =? 169)
          || (n3 =? 175))
   || (n1 =? 226) && (n2 =? 129) && (n3 =? 159)
   || (n1 =? 227) && (n2 =? 128) && (n3 =? 128))%nat.

Section Strip.

(** Which sequences of one, two and three bytes are removed. *)
Variable s1 : ascii -> bool.
Variable s2 : ascii -> ascii -> bool.
Variable s3 : ascii -> ascii -> ascii -> bool.

(** The bytes left once the leading characters accepted by [s1], [s2]
    or [s3] are removed. *)
Fixpoint lstrip_with (l : list ascii) : list ascii :=
  match l with
  | [] => []
  | c1 :: l1 =>
      if s1 c1 then lstrip_with l1
      else
        match l1 with
        | [] => l
        | c2 :: l2 =>
            if s2 c1 c2 then lstrip_with l2
            else
              match l2 with
              | [] => l
              | c3 :: l3 => if s3 c1 c2 c3 then lstrip_with l3 else l
              end
        end
  end.

(** Whether [l] starts with a character that is removed. *)
Definition starts_with_space (l : list ascii) : bool :=
  match l with
  | [] => false
  | c1 :: l1 =>
      s1 c1 ||
      match l1 with
      | [] => false
      | c2 :: l2 =>
          s2 c1 c2 ||
          match l2 with
          | [] => false
          | c3 :: _ => s3 c1 c2 c3
          end
      end
  end.

End Strip.

(** [s.lstrip()] on the bytes of [s]. *)
Definition lstrip_chars (l : list ascii) : list ascii :=
  lstrip_with is_space is_space2 is_space3 l.

(** [s.rstrip()]: the same from the right, each character being read
    from its last byte to its first. *)
Definition rstrip_chars (l : list ascii) : list ascii :=
  rev (lstrip_with is_space
         (fun c2 c1 => is_space2 c1 c2)
         (fun c3 c2 c1 => is_space3 c1 c2 c3)
         (rev l)).

(** [s.strip()] *)
Definition strip (s : string) : string :=
  string_of_list_ascii
    (rstrip_chars (lstrip_chars (list_ascii_of_string s))).

(** [s.startswith(p)] *)
Definition startswith (s p : string) : bool := String.prefix p s.

(** [str(n)] for an [int]. *)
Definition str_of_int (n : Z) : string :=
  NilZero.string_of_int (Z.to_int n).

(** U+00A0, the no-break space. *)
Definition no_break_space : string :=
  String (ascii_of_nat 194) (String (ascii_of_nat 160) EmptyString).

End Py.

(* ================================================================== *)
(** * binary64 arithmetic as numpy and CPython use it *)

Module F.

Local Open Scope float_scope.

Definition two52 : float := 4503599627370496.
Definition two53 : float := 9007199254740992.

(** C's [rint] under the default rounding mode (to nearest, ties to
    even), the sign of the argument kept. *)
Definition rint (x : float) : float :=
  let a := abs x in
  if a <? two52
  then (let r := (a + two52) - two52 in if get_sign x then - r else r)
  else x.

(** [numpy.round(x, 1)]: multiply by ten, [rint], divide by ten. *)
Definition round1 (x : float) : float := rint (x * 10) / 10.

(** C's [floor]. *)
Definition floor (x : float) : float :=
  let r := rint x in if x <? r then r - 1 else r.

(** CPython's [DOUBLE_IS_ODD_INTEGER(x)]: [fmod(fabs(x), 2.0) == 1.0]. *)
Definition is_odd_integer (x : float) : bool :=
  let a := abs x in
  (a <? two53) && (rint a =? a) && negb (rint (a / 2) =? a / 2).

(** Comparisons written as in the source. *)
Definition gtb (x y : float) : bool := y <? x.
Definition geb (x y : float) : bool := y <=? x.

End F.

Notation "x >? y" := (F.gtb x y) (at level 70, no associativity) : float_scope.
Notation "x >=? y" := (F.geb x y) (at level 70, no associativity) : float_scope.

(* ================================================================== *)
(** * Failures and the error monad *)

(** Which side pandas reports in its [MergeError] of a
    [validate="one_to_one"] merge. *)
Inductive MergeSide := NotUniqueBoth | NotUniqueLeft | NotUniqueRight.

(** The right-hand table of each of the four merges, in source order. *)
Inductive MergeStep := StepResponse | StepQuestionnaire | StepMortality | StepDietary.

(** What can stop [run_transformations].  [ComplexPower] is not an
    exception: Python turns a negative float under a fractional exponent
    into a [complex]; the embedding stops there. *)
Inductive Failure :=
| MergeError (step : MergeStep) (side : MergeSide)
| ZeroDivisionError
| OverflowError
| ComplexPower.

Inductive result (A : Type) : Type :=
| Ok (a : A)
| Raise (e : Failure).
Arguments Ok {A} a.
Arguments Raise {A} e.

Definition bind {A B} (m : result A) (k : A -> result B) : result B :=
  match m with
  | Ok a => k a
  | Raise e => Raise e
  end.

Declare Scope result_scope.
Delimit Scope result_scope with result.
Notation "x <- m ;; k" := (bind m (fun x => k))
  (at level 61, m at next level, right associativity) : result_scope.

(** Row-wise evaluation in source order: the first failure wins. *)
Fixpoint mapM {A B} (f : A -> result B) (l : list A) : result (list B) :=
  match l with
  | [] => Ok []
  | a :: l' =>
      (b <- f a ;; bs <- mapM f l' ;; Ok (b :: bs))%result
  end.

(* ================================================================== *)
(** * Python's arithmetic on floats *)

(** The C library's [pow], a parameter of the embedding. *)
Definition PlatformPow := float -> float -> option float.

Section PythonFloat.

Local Open Scope float_scope.

(** The last step of CPython's [float_pow]: the C library's
    [pow(iv, iw)] on a finite [iv > 0], [iv <> 1] and a finite nonzero
    [iw]; [None] stands for the range error that the [errno] check
    turns into [OverflowError]. *)
Variable platform_pow : PlatformPow.

(** [iv ** iw] on two floats, CPython's [float_pow] case by case. *)
Definition float_pow (iv iw : float) : result float :=
  if iw =? 0 then Ok 1
  else if is_nan iv then Ok iv
  else if is_nan iw then Ok (if iv =? 1 then 1 else iw)
  else if is_infinity iw then
    let av := abs iv in
    if av =? 1 then Ok 1
    else if Bool.eqb (0 <? iw) (1 <? av) then Ok (abs iw)
    else Ok 0
  else if is_infinity iv then
    let odd := F.is_odd_integer iw in
    if 0 <? iw then Ok (if odd then iv else abs iv)
    else Ok (if odd then (if get_sign iv then -0 else 0) else 0)
  else if iv =? 0 then
    if iw <? 0 then Raise ZeroDivisionError
    else Ok (if F.is_odd_integer iw then iv else 0)
  else if (iv <? 0) && negb (iw =? F.floor iw) then Raise ComplexPower
  else
    let negate_result := (iv <? 0) && F.is_odd_integer iw in
    let av := if iv <? 0 then - iv else iv in
    if av =? 1 then Ok (if negate_result then -1 else 1)
    else match platform_pow av iw with
         | Some ix => Ok (if negate_result then - ix else ix)
         | None => Raise OverflowError
         end.

(** [min(a, b)] and [max(a, b)]: the first argument is kept unless the
    second is strictly smaller (greater). *)
Definition py_min (a b : float) : float := if b <? a then b else a.
Definition py_max (a b : float) : float := if b >? a then b else a.

End PythonFloat.

(* ================================================================== *)
(** * Data model *)

(** The numeric ([float64]) columns of the analytic table.  The source
    writes [edad_años], [peso(kg)], [altura(cm)],
    [creatinina_urinaria(g/L)], [albumina_urinaria(mg/L)],
    [creatinina_serica(mg/dL)] and [TAS-1] .. [TAD-4]. *)
Inductive NumCol :=
| edad_anos | unidad_muestral_psu | estrato_muestral
| peso_muestral_entrevista | peso_muestral_examen
| peso_kg | altura_cm | IMC
| creatinina_urinaria | albumina_urinaria | ACR
| TAS_1 | TAD_1 | TAS_2 | TAD_2 | TAS_3 | TAD_3
| eGFR | creatinina_serica | TAS_4 | TAD_4.

(** The text ([object] / [string]) columns. *)
Inductive TxtCol :=
| id | sexo | grupo_etnico | DM | categoria_ACR | mortalidad | HTA
| estado_civil | categoria_eGFR | IC | EC | ACV | nivel_educativo | CA
| pais_nacimiento | actividad_fisica_moderada | actividad_fisica_vigorosa
| consumo_alcohol | causa_muerte.

Scheme Equality for NumCol.
Scheme Equality for TxtCol.

Inductive Col := N (c : NumCol) | T (c : TxtCol).

Definition Col_beq (a b : Col) : bool :=
  match a, b with
  | N x, N y => NumCol_beq x y
  | T x, T y => TxtCol_beq x y
  | _, _ => false
  end.

(** A row of a frame: one cell per column; a column the frame does not
    have (yet) reads as missing. *)
Record Row := mkRow { num : NumCol -> float; txt : TxtCol -> option string }.

Definition DataFrame := list Row.

Definition set_num (r : Row) (c : NumCol) (v : float) : Row :=
  mkRow (fun c' => if NumCol_beq c' c then v else num r c') (txt r).

Definition set_txt (r : Row) (c : TxtCol) (v : option string) : Row :=
  mkRow (num r) (fun c' => if TxtCol_beq c' c then v else txt r c').

(** A cell of the identifier column as [read_csv] leaves it: an integer,
    a string, or the missing value of an [object] column. *)
Inductive IdCell := IdInt (n : Z) | IdStr (s : string) | IdNaN.

(** The five extracts, with the columns of [C_DEMOGRAPHIC], [C_RESPONSE],
    [C_QUEST], [C_MORT] and [C_DIET]. *)
Module Demographic.
Record row := mk {
  SEQN_new : IdCell;
  RIDRETH1 : float; DMDEDUC2 : float; DMDMARTL : float; DMDBORN4 : float;
  WTMEC2YR : float; WTINT2YR : float; SDMVPSU : float; SDMVSTRA : float }.
End Demographic.

Module Response.
Record row := mk {
  SEQN_new : IdCell;
  LBXSCR : float; URXUMA : float; URXUCR : float;
  BMXWT : float; BMXHT : float; BMXBMI : float;
  BPXSY1 : float; BPXSY2 : float; BPXSY3 : float; BPXSY4 : float;
  BPXDI1 : float; BPXDI2 : float; BPXDI3 : float; BPXDI4 : float }.
End Response.

Module Questionnaire.
Record row := mk {
  SEQN_new : IdCell;
  DIQ010 : float; BPQ020 : float; MCQ160B : float; MCQ160C : float;
  MCQ160F : float; MCQ160M : float; ALQ101 : float; PAQ650 : float;
  PAQ665 : float }.
End Questionnaire.

Module Mortality.
Record row := mk {
  SEQN_new : IdCell; MORTSTAT : float; UCOD_LEADING : float }.
End Mortality.

Module Dietary.
Record row := mk {
  SEQN_new : IdCell; RIDAGEYR : float; RIAGENDR : float }.
End Dietary.

(** The argument [dfs] of [run_transformations]. *)
Record Inputs := mkInputs {
  demographic : list Demographic.row;
  dietary : list Dietary.row;
  response : list Response.row;
  questionnaire : list Questionnaire.row;
  mortality : list Mortality.row }.

(* ================================================================== *)
(** * Field normalizer: recode tables *)

Section Recode.

Local Open Scope float_scope.

(** [Series.replace(d)] on one numeric cell: every key is compared with
    the cell as it was before the call. *)
Definition replace (d : list (float * float)) (v : float) : float :=
  match find (fun kv => v =? fst kv) d with
  | Some kv => snd kv
  | None => v
  end.

(** A recode table: integer code to label. *)
Definition RecodeMap := list (float * string).

(** [Series.map(d)] on one cell: a code absent from [d] (or a missing
    code) becomes a missing label. *)
Definition map_codes (d : RecodeMap) (v : float) : option string :=
  option_map snd (find (fun kv => v =? fst kv) d).

Definition reco : list (TxtCol * RecodeMap) :=
  [ (grupo_etnico,
     [(1, "Mexicano-Americano"); (2, "Otros hispanos");
      (3, "Blanco no hispano"); (4, "Negro no hispano");
      (5, "Otra raza, incluida la multirracial")]);
    (nivel_educativo,
     [(1, "Menos de 9° grado"); (2, "9-11º (incluye 12º sin diploma)");
      (3, "Graduado secundaria / GED");
      (4, "Algún título universitario o AA");
      (5, "Graduado universitario o superior");
      (7, "Negado"); (9, "No sé")]);
    (estado_civil,
     [(1, "Casado/Viviendo con pareja"); (2, "Viudo/Divorciado/Separado");
      (3, "Nunca casado"); (77, "Negado"); (99, "No sé")]);
    (pais_nacimiento,
     [(1, "EE. UU./Washington"); (2, "México"); (3, "Otro país");
      (7, "Negado"); (9, "No sé")]) ]%string.

Definition si_no_negado_nose : RecodeMap :=
  [(1, "Sí"); (2, "No"); (7, "Negado"); (9, "No sé")]%string.
Definition si_no_nose : RecodeMap :=
  [(1, "Sí"); (2, "No"); (9, "No sé")]%string.

Definition reco_2 : list (TxtCol * RecodeMap) :=
  [ (DM, [(1, "Sí"); (2, "No"); (3, "Frontera"); (7, "Negado");
          (9, "No sé")]%string);
    (HTA, si_no_nose);
    (IC, si_no_negado_nose);
    (EC, si_no_negado_nose);
    (ACV, si_no_negado_nose);
    (CA, si_no_negado_nose);
    (consumo_alcohol, si_no_nose);
    (actividad_fisica_moderada, si_no_negado_nose);
    (actividad_fisica_vigorosa, si_no_negado_nose) ].

Definition reco_3 : list (TxtCol * RecodeMap) :=
  [ (mortalidad, [(0, "Vivo"); (1, "Muerto")]);
    (causa_muerte,
     [(1, "Enf. corazón"); (2, "Neoplasmas"); (3, "Enf. resp. crónicas");
      (4, "Accidentes"); (5, "Enf. cerebrovasculares"); (6, "Alzheimer");
      (7, "Diabetes"); (8, "Influenza/neumonía");
      (9, "Nefritis/síndrome nefrótico/nefrosis");
      (10, "Otras causas")]) ]%string.

Definition reco_4 : list (TxtCol * RecodeMap) :=
  [ (sexo, [(1, "Hombre"); (2, "Mujer")]%string) ].

(** The table a recode dictionary holds for a column. *)
Definition table_of (r : list (TxtCol * RecodeMap)) (c : TxtCol) : RecodeMap :=
  match find (fun p => TxtCol_beq (fst p) c) r with
  | Some p => snd p
  | None => []
  end.

(** Line 85: the marital status codes, two [replace] calls in a row. *)
Definition estado_civil_codes (v : float) : float :=
  replace [(12, 3)] (replace [(6, 1); (5, 12); (3, 2); (4, 2)] v).

End Recode.

(* ================================================================== *)
(** * Key linker: identifiers *)

(** [astype(str)] on an identifier cell. *)
Definition astype_str (c : IdCell) : string :=
  match c with
  | IdInt n => Py.str_of_int n
  | IdStr s => s
  | IdNaN => "nan"
  end.

(** Line 119: [d["id"].astype(str).str.strip()]. *)
Definition clean_id (c : IdCell) : string := Py.strip (astype_str c).

(** The renamed, recoded frames with their cleaned identifier
    (lines 66-82, 85-87, 112-115 and 118-119). *)
Definition df_demographic (t : list Demographic.row) : DataFrame :=
  map (fun r =>
    mkRow
      (fun c => match c with
                | peso_muestral_examen => F.round1 (Demographic.WTMEC2YR r)
                | peso_muestral_entrevista => F.round1 (Demographic.WTINT2YR r)
                | unidad_muestral_psu => Demographic.SDMVPSU r
                | estrato_muestral => Demographic.SDMVSTRA r
                | _ => nan
                end)
      (fun c => match c with
                | id => Some (clean_id (Demographic.SEQN_new r))
                | grupo_etnico =>
                    map_codes (table_of reco grupo_etnico) (Demographic.RIDRETH1 r)
                | nivel_educativo =>
                    map_codes (table_of reco nivel_educativo) (Demographic.DMDEDUC2 r)
                | estado_civil =>
                    map_codes (table_of reco estado_civil)
                      (estado_civil_codes (Demographic.DMDMARTL r))
                | pais_nacimiento =>
                    map_codes (table_of reco pais_nacimiento) (Demographic.DMDBORN4 r)
                | _ => None
                end)) t.

Definition df_response (t : list Response.row) : DataFrame :=
  map (fun r =>
    mkRow
      (fun c => match c with
                | creatinina_serica => Response.LBXSCR r
                | albumina_urinaria => Response.URXUMA r
                | creatinina_urinaria => Response.URXUCR r
                | peso_kg => Response.BMXWT r
                | altura_cm => Response.BMXHT r
                | IMC => Response.BMXBMI r
                | TAS_1 => Response.BPXSY1 r
                | TAS_2 => Response.BPXSY2 r
                | TAS_3 => Response.BPXSY3 r
                | TAS_4 => Response.BPXSY4 r
                | TAD_1 => Response.BPXDI1 r
                | TAD_2 => Response.BPXDI2 r
                | TAD_3 => Response.BPXDI3 r
                | TAD_4 => Response.BPXDI4 r
                | _ => nan
                end)
      (fun c => match c with
                | id => Some (clean_id (Response.SEQN_new r))
                | _ => None
                end)) t.

Definition df_questionnaire (t : list Questionnaire.row) : DataFrame :=
  map (fun r =>
    mkRow
      (fun _ => nan)
      (fun c => match c with
                | id => Some (clean_id (Questionnaire.SEQN_new r))
                | DM => map_codes (table_of reco_2 DM) (Questionnaire.DIQ010 r)
                | HTA => map_codes (table_of reco_2 HTA) (Questionnaire.BPQ020 r)
                | IC => map_codes (table_of reco_2 IC) (Questionnaire.MCQ160B r)
                | EC => map_codes (table_of reco_2 EC) (Questionnaire.MCQ160C r)
                | ACV => map_codes (table_of reco_2 ACV) (Questionnaire.MCQ160F r)
                | CA => map_codes (table_of reco_2 CA) (Questionnaire.MCQ160M r)
                | consumo_alcohol =>
                    map_codes (table_of reco_2 consumo_alcohol) (Questionnaire.ALQ101 r)
                | actividad_fisica_moderada =>
                    map_codes (table_of reco_2 actividad_fisica_moderada)
                      (Questionnaire.PAQ650 r)
                | actividad_fisica_vigorosa =>
                    map_codes (table_of reco_2 actividad_fisica_vigorosa)
                      (Questionnaire.PAQ665 r)
                | _ => None
                end)) t.

Definition df_mortality (t : list Mortality.row) : DataFrame :=
  map (fun r =>
    mkRow
      (fun _ => nan)
      (fun c => match c with
                | id => Some (clean_id (Mortality.SEQN_new r))
                | mortalidad =>
                    map_codes (table_of reco_3 mortalidad) (Mortality.MORTSTAT r)
                | causa_muerte =>
                    map_codes (table_of reco_3 causa_muerte) (Mortality.UCOD_LEADING r)
                | _ => None
                end)) t.

(** The dietary frame before [drop_duplicates]. *)
Definition df_dietary (t : list Dietary.row) : DataFrame :=
  map (fun r =>
    mkRow
      (fun c => match c with
                | edad_anos => Dietary.RIDAGEYR r
                | _ => nan
                end)
      (fun c => match c with
                | id => Some (clean_id (Dietary.SEQN_new r))
                | sexo => map_codes (table_of reco_4 sexo) (Dietary.RIAGENDR r)
                | _ => None
                end)) t.

(** The columns of each frame after the renames. *)
Definition demographic_columns : list Col :=
  [T id; T grupo_etnico; T nivel_educativo; T estado_civil; T pais_nacimiento;
   N peso_muestral_examen; N peso_muestral_entrevista;
   N unidad_muestral_psu; N estrato_muestral].
Definition response_columns : list Col :=
  [T id; N creatinina_serica; N albumina_urinaria; N creatinina_urinaria;
   N peso_kg; N altura_cm; N IMC; N TAS_1; N TAS_2; N TAS_3; N TAS_4;
   N TAD_1; N TAD_2; N TAD_3; N TAD_4].
Definition questionnaire_columns : list Col :=
  [T id; T DM; T HTA; T IC; T EC; T ACV; T CA; T consumo_alcohol;
   T actividad_fisica_moderada; T actividad_fisica_vigorosa].
Definition mortality_columns : list Col :=
  [T id; T mortalidad; T causa_muerte].
Definition dietary_columns : list Col :=
  [T id; N edad_anos; T sexo].

(* ================================================================== *)
(** * Key linker: deduplication and the one-to-one left joins *)

Definition key (r : Row) : option string := txt r id.

Definition key_eqb (a b : option string) : bool :=
  match a, b with
  | Some x, Some y => String.eqb x y
  | None, None => true
  | _, _ => false
  end.

Definition mem_key (k : option string) (ks : list (option string)) : bool :=
  existsb (key_eqb k) ks.

(** Line 120: [drop_duplicates(subset="id", keep="first")]; [seen] holds
    the identifiers already met. *)
Fixpoint drop_duplicates_from (seen : list (option string)) (t : DataFrame)
  : DataFrame :=
  match t with
  | [] => []
  | r :: t' =>
      if mem_key (key r) seen then drop_duplicates_from seen t'
      else r :: drop_duplicates_from (key r :: seen) t'
  end.

Definition drop_duplicates (t : DataFrame) : DataFrame :=
  drop_duplicates_from [] t.

(** [Index.is_unique] on the merge keys. *)
Fixpoint is_unique (ks : list (option string)) : bool :=
  match ks with
  | [] => true
  | k :: ks' => negb (mem_key k ks') && is_unique ks'
  end.

Definition mem_col (c : Col) (cols : list Col) : bool :=
  existsb (Col_beq c) cols.

(** One row of a left join: the left row, with the columns of the right
    frame (the key apart) read from the matching right row, or missing
    when there is none. *)
Definition merge_row (right_columns : list Col) (l : Row) (m : option Row) : Row :=
  mkRow
    (fun c =>
       if mem_col (N c) right_columns
       then match m with Some r => num r c | None => nan end
       else num l c)
    (fun c =>
       if TxtCol_beq c id then txt l c
       else if mem_col (T c) right_columns
       then match m with Some r => txt r c | None => None end
       else txt l c).

(** [left.merge(right, on="id", how="left")]: the left rows in order, each
    once per matching right row, or once with missing values. *)
Definition left_join (right_columns : list Col) (L R : DataFrame) : DataFrame :=
  flat_map
    (fun l =>
       match filter (fun r => key_eqb (key r) (key l)) R with
       | [] => [merge_row right_columns l None]
       | ms => map (fun r => merge_row right_columns l (Some r)) ms
       end) L.

(** [validate="one_to_one"]: the keys of both sides are checked before
    anything is joined. *)
Definition merge (step : MergeStep) (right_columns : list Col)
  (L R : DataFrame) : result DataFrame :=
  match is_unique (map key L), is_unique (map key R) with
  | false, false => Raise (MergeError step NotUniqueBoth)
  | false, true => Raise (MergeError step NotUniqueLeft)
  | true, false => Raise (MergeError step NotUniqueRight)
  | true, true => Ok (left_join right_columns L R)
  end.

(** Lines 120-129. *)
Definition df_merge (dfs : Inputs) : result DataFrame :=
  let dem := df_demographic (demographic dfs) in
  let res := df_response (response dfs) in
  let que := df_questionnaire (questionnaire dfs) in
  let mor := df_mortality (mortality dfs) in
  let die := drop_duplicates (df_dietary (dietary dfs)) in
  (m1 <- merge StepResponse response_columns dem res ;;
   m2 <- merge StepQuestionnaire questionnaire_columns m1 que ;;
   m3 <- merge StepMortality mortality_columns m2 mor ;;
   merge StepDietary dietary_columns m3 die)%result.

(* ================================================================== *)
(** * Derivation engine *)

(** [df[c] = f(df)], [df.loc[mask, c] = v]. *)
Definition assign_num (c : NumCol) (f : Row -> float) (t : DataFrame) : DataFrame :=
  map (fun r => set_num r c (f r)) t.

Definition assign_txt (c : TxtCol) (f : Row -> option string) (t : DataFrame)
  : DataFrame :=
  map (fun r => set_txt r c (f r)) t.

Definition loc_assign (mask : Row -> bool) (c : TxtCol) (v : string)
  (t : DataFrame) : DataFrame :=
  map (fun r => if mask r then set_txt r c (Some v) else r) t.

Section Derivation.

Local Open Scope float_scope.

(** Lines 132-133. *)
Definition derive_ACR (t : DataFrame) : DataFrame :=
  let t := assign_num creatinina_urinaria
             (fun r => F.round1 (num r creatinina_urinaria * 0.01)) t in
  assign_num ACR
    (fun r => F.round1 (num r albumina_urinaria / num r creatinina_urinaria)) t.

(** Lines 135-138. *)
Definition derive_categoria_ACR (t : DataFrame) : DataFrame :=
  let t := assign_txt categoria_ACR (fun _ => None) t in
  let t := loc_assign (fun r => num r ACR <? 30) categoria_ACR "A1" t in
  let t := loc_assign (fun r => (num r ACR >=? 30) && (num r ACR <=? 300))
             categoria_ACR "A2" t in
  loc_assign (fun r => num r ACR >? 300) categoria_ACR "A3" t.

Variable platform_pow : PlatformPow.

(** Lines 140-145.  The row-wise [apply] of line 148 hands the cells of a
    row of mixed types over as Python floats, so that [**] is Python's. *)
Definition calc_egfr (creat age : float) (gender : option string)
  : result float :=
  match
    (if key_eqb gender (Some "Mujer") then Some (0.7, -0.241, 1.012)
     else if key_eqb gender (Some "Hombre") then Some (0.9, -0.302, 1.0)
     else None)
  with
  | None => Ok nan
  | Some (kappa, alpha, factor) =>
      let rate := creat / kappa in
      (p1 <- float_pow platform_pow (py_min rate 1) alpha ;;
       p2 <- float_pow platform_pow (py_max rate 1) (-1.200) ;;
       p3 <- float_pow platform_pow 0.9938 age ;;
       Ok (142 * p1 * p2 * p3 * factor))%result
  end.

(** Lines 147-150: the row-wise [apply], then [round(1)]. *)
Definition derive_eGFR (t : DataFrame) : result DataFrame :=
  mapM (fun x =>
          (e <- calc_egfr (num x creatinina_serica) (num x edad_anos)
                 (txt x sexo) ;;
           Ok (set_num x eGFR (F.round1 e)))%result) t.

(** Lines 152-158. *)
Definition derive_categoria_eGFR (t : DataFrame) : DataFrame :=
  let t := assign_txt categoria_eGFR (fun _ => None) t in
  let t := loc_assign (fun r => num r eGFR >=? 90) categoria_eGFR "G1" t in
  let t := loc_assign (fun r => (num r eGFR >=? 60) && (num r eGFR <? 90))
             categoria_eGFR "G2" t in
  let t := loc_assign (fun r => (num r eGFR >=? 45) && (num r eGFR <? 60))
             categoria_eGFR "G3a" t in
  let t := loc_assign (fun r => (num r eGFR >=? 30) && (num r eGFR <? 45))
             categoria_eGFR "G3b" t in
  let t := loc_assign (fun r => (num r eGFR >=? 15) && (num r eGFR <? 30))
             categoria_eGFR "G4" t in
  loc_assign (fun r => num r eGFR <? 15) categoria_eGFR "G5" t.

(** Lines 132-158. *)
Definition derive (t : DataFrame) : result DataFrame :=
  (t' <- derive_eGFR (derive_categoria_ACR (derive_ACR t)) ;;
   Ok (derive_categoria_eGFR t'))%result.

End Derivation.

(* ================================================================== *)
(** * Reconciler *)

(** Lines 160-168. *)
Definition columns_merge : list Col :=
  [T id; N edad_anos; T sexo; T grupo_etnico; N unidad_muestral_psu;
   N estrato_muestral; N peso_muestral_entrevista; N peso_muestral_examen;
   T DM; N peso_kg; N altura_cm; N IMC; N creatinina_urinaria;
   N albumina_urinaria; N ACR; T categoria_ACR; T mortalidad;
   N TAS_1; N TAD_1; N TAS_2; N TAD_2; N TAS_3; N TAD_3; T HTA;
   T estado_civil; N eGFR; T categoria_eGFR; N creatinina_serica;
   T IC; T EC; T ACV; T nivel_educativo; T CA; T pais_nacimiento;
   T actividad_fisica_moderada; T actividad_fisica_vigorosa;
   T consumo_alcohol; T causa_muerte; N TAS_4; N TAD_4].

(** The columns of the merged frame once the scores and stages are added. *)
Definition df_merge_columns : list Col :=
  demographic_columns ++ tl response_columns ++ tl questionnaire_columns
  ++ tl mortality_columns ++ tl dietary_columns
  ++ [N ACR; T categoria_ACR; N eGFR; T categoria_eGFR].

(** Line 171. *)
Definition cols_existentes : list Col :=
  filter (fun c => mem_col c df_merge_columns) columns_merge.

(** Lines 174-175: [select_dtypes]. *)
Definition float_columns : list NumCol :=
  flat_map (fun c => match c with N x => [x] | T _ => [] end) cols_existentes.
Definition str_columns : list TxtCol :=
  flat_map (fun c => match c with T x => [x] | N _ => [] end) cols_existentes.

(** Line 170: the rows whose identifier starts with "I-" are dropped. *)
Definition excluded (r : Row) : bool :=
  Py.startswith (match txt r id with Some s => s | None => "nan" end) "I-".

Definition exclude (t : DataFrame) : DataFrame :=
  filter (fun r => negb (excluded r)) t.

(** Line 172: [df_merge[cols_existentes]]. *)
Definition project (cols : list Col) (t : DataFrame) : DataFrame :=
  map (fun r =>
         mkRow (fun c => if mem_col (N c) cols then num r c else nan)
               (fun c => if mem_col (T c) cols then txt r c else None)) t.

Definition mem_txt (c : TxtCol) (l : list TxtCol) : bool :=
  existsb (TxtCol_beq c) l.

(** Lines 179-192: the label written into a missing cell of a text
    column. *)
Definition sentinel (col : TxtCol) : string :=
  if mem_txt col [mortalidad; estado_civil; sexo; pais_nacimiento]
  then "No definido"
  else if TxtCol_beq col grupo_etnico then "Sin etnia"
  else if mem_txt col [DM; HTA; IC; EC; ACV; CA] then "Sin diagnostico"
  else if TxtCol_beq col causa_muerte then "Sin causa"
  else if TxtCol_beq col categoria_ACR then "A1(por media)"
  else if TxtCol_beq col categoria_eGFR then "G1(por media)"
  else "Sin categoria".

(** Line 178: [astype("string").str.strip().replace({"": pd.NA})]. *)
Definition strip_blank (v : option string) : option string :=
  match v with
  | None => None
  | Some s => let s' := Py.strip s in if String.eqb s' "" then None else Some s'
  end.

(** [Series.fillna(value)] on a text cell. *)
Definition fillna_txt (v : option string) (value : string) : option string :=
  match v with
  | Some s => Some s
  | None => Some value
  end.

(** Lines 177-192: the loop over [str_columns]. *)
Definition fill_str_column (t : DataFrame) (col : TxtCol) : DataFrame :=
  assign_txt col (fun r => fillna_txt (strip_blank (txt r col)) (sentinel col)) t.

Definition fill_str_columns (t : DataFrame) : DataFrame :=
  fold_left fill_str_column str_columns t.

Section Median.

Local Open Scope float_scope.

Fixpoint insert_sorted (x : float) (l : list float) : list float :=
  match l with
  | [] => [x]
  | y :: l' => if x <=? y then x :: l else y :: insert_sorted x l'
  end.

Definition sort (l : list float) : list float :=
  fold_right insert_sorted [] l.

(** [Series.median()]: missing values are skipped; the middle value of
    the sorted rest, or the mean of the two middle values; missing when
    nothing is left. *)
Definition median (xs : list float) : float :=
  let vs := sort (filter (fun x => negb (is_nan x)) xs) in
  let n := List.length vs in
  if (n =? 0)%nat then nan
  else if Nat.odd n then nth (n / 2) vs nan
  else (nth (n / 2 - 1) vs nan + nth (n / 2) vs nan) / 2.

(** [Series.fillna(value)] on a numeric cell. *)
Definition fillna_num (v value : float) : float :=
  if is_nan v then value else v.

(** Line 194: [df_merge[float_columns].median().round(1)]. *)
Definition median_ (t : DataFrame) (col : NumCol) : float :=
  F.round1 (median (map (fun r => num r col) t)).

(** Lines 195-196: every fill uses the medians of the frame as it was
    at line 194. *)
Definition fill_float_columns (t : DataFrame) : DataFrame :=
  let m := median_ t in
  fold_left
    (fun t' col => assign_num col (fun r => fillna_num (num r col) (m col)) t')
    float_columns t.

End Median.

(** Lines 170-198. *)
Definition reconcile (t : DataFrame) : DataFrame :=
  fill_float_columns (fill_str_columns (project cols_existentes (exclude t))).

(* ================================================================== *)
(** * The pipeline *)

Section Pipeline.

Variable platform_pow : PlatformPow.

Definition run_transformations (dfs : Inputs) : result DataFrame :=
  (m <- df_merge dfs ;;
   d <- derive platform_pow m ;;
   Ok (reconcile d))%result.

End Pipeline.

(* ================================================================== *)
(** * Notions used in the statements *)

Section Specification.

Local Open Scope float_scope.

(** The three tiers of the ratio score, as the specification words
    them. *)
Definition tier_ACR (x : float) : option string :=
  if x <? 30 then Some "A1"
  else if (30 <=? x) && (x <=? 300) then Some "A2"
  else if 300 <? x then Some "A3"
  else None.

(** The six stages of the filtration score, as the specification words
    them. *)
Definition tier_eGFR (x : float) : option string :=
  if 90 <=? x then Some "G1"
  else if (60 <=? x) && (x <? 90) then Some "G2"
  else if (45 <=? x) && (x <? 60) then Some "G3a"
  else if (30 <=? x) && (x <? 45) then Some "G3b"
  else if (15 <=? x) && (x <? 30) then Some "G4"
  else if x <? 15 then Some "G5"
  else None.

End Specification.

(** The normalized identifiers of each extract, in row order. *)
Definition ids_demographic (dfs : Inputs) : list string :=
  map (fun r => clean_id (Demographic.SEQN_new r)) (demographic dfs).

Definition ids_response (dfs : Inputs) : list string :=
  map (fun r => clean_id (Response.SEQN_new r)) (response dfs).

Definition ids_questionnaire (dfs : Inputs) : list string :=
  map (fun r => clean_id (Questionnaire.SEQN_new r)) (questionnaire dfs).

Definition ids_mortality (dfs : Inputs) : list string :=
  map (fun r => clean_id (Mortality.SEQN_new r)) (mortality dfs).

Definition ids_dietary (dfs : Inputs) : list string :=
  map (fun r => clean_id (Dietary.SEQN_new r)) (dietary dfs).

(** The first row of a frame under a key. *)
Definition lookup (R : DataFrame) (k : option string) : option Row :=
  find (fun r => key_eqb (key r) k) R.

(** One anchor row with the columns of its four partners. *)
Definition linked_row (dfs : Inputs) (l : Row) : Row :=
  merge_row dietary_columns
    (merge_row mortality_columns
       (merge_row questionnaire_columns
          (merge_row response_columns l
             (lookup (df_response (response dfs)) (key l)))
          (lookup (df_questionnaire (questionnaire dfs)) (key l)))
       (lookup (df_mortality (mortality dfs)) (key l)))
    (lookup (drop_duplicates (df_dietary (dietary dfs))) (key l)).

(** One pass of the loops of lines 177-192 and 195-196, and the
    projection of line 172, on one row. *)
Definition fill_str_row (r : Row) (col : TxtCol) : Row :=
  set_txt r col (fillna_txt (strip_blank (txt r col)) (sentinel col)).

Definition fill_float_row (m : NumCol -> float) (r : Row) (col : NumCol) : Row :=
  set_num r col (fillna_num (num r col) (m col)).

Definition project_row (cols : list Col) (r : Row) : Row :=
  mkRow (fun c => if mem_col (N c) cols then num r c else nan)
        (fun c => if mem_col (T c) cols then txt r c else None).

(** The frame at line 158: linked and derived, not yet reconciled. *)
Definition derived (platform_pow : PlatformPow)
  (dfs : Inputs) : result DataFrame :=
  (m <- df_merge dfs ;; derive platform_pow m)%result.

(** A platform [pow] whose every call is a range error: the concrete
    runs below never reach it. *)
Definition no_platform_pow : PlatformPow :=
  fun _ _ => None.

(** The identifier a retained anchor row carries in the result. *)
Definition written_id (i : string) : string :=
  if String.eqb i "" then "Sin categoria" else i.

(** The normalized demographic identifiers that line 170 retains. *)
Definition kept_ids (dfs : Inputs) : list string :=
  filter (fun i => negb (Py.startswith i "I-")) (ids_demographic dfs).

(** A demographic extract of one subject whose identifier is blank; the
    other extracts hold the records of a subject "C-1". *)
Definition blank_id_inputs : Inputs :=
  mkInputs
    [Demographic.mk (IdStr " ") 3 4 1 1 25000.5 24000.5 1 120]%float
    [Dietary.mk (IdStr "C-1") 34 1]%float
    [Response.mk (IdStr "C-1") 0.9 12.5 150 70.5 170 24.4 120 118 122 nan 80 78 82 nan]%float
    [Questionnaire.mk (IdStr "C-1") 2 1 2 2 2 2 1 2 2]%float
    [Mortality.mk (IdStr "C-1") 0 nan]%float.

(** The table a run returns (empty when it raises). *)
Definition returned (r : result DataFrame) : DataFrame :=
  match r with
  | Ok t => t
  | Raise _ => []
  end.

(** Three subjects, the second one of the excluded sub-cohort; none of
    them has a dietary record (the only one is that of a subject "C-9"),
    and the third has no examination either. *)
Definition cohort_inputs : Inputs :=
  mkInputs
    [Demographic.mk (IdStr "C-1") 3 4 1 1 25000.56 24000.44 1 120;
     Demographic.mk (IdStr " I-7 ") 1 2 5 2 18000.5 17000.5 2 121;
     Demographic.mk (IdStr "C-2") 4 5 6 1 30000.25 29000.75 1 122]%float
    [Dietary.mk (IdStr "C-9") 34 1]%float
    [Response.mk (IdStr "C-1") 0.9 12.5 150 70.5 170 24.4 120 118 122 nan 80 78 82 nan;
     Response.mk (IdStr "I-7") 1.1 400 90 80 165 29.4 140 138 nan nan 90 88 nan nan]%float
    [Questionnaire.mk (IdStr "C-1") 2 1 2 2 2 2 1 2 2;
     Questionnaire.mk (IdStr "C-2") 1 1 2 2 2 9 2 1 2]%float
    [Mortality.mk (IdStr "C-1") 0 nan;
     Mortality.mk (IdStr "C-2") 1 1]%float.

(** The cohort again, the identifier of the excluded subject being
    written between no-break spaces. *)
Definition padded_cohort_inputs : Inputs :=
  mkInputs
    [Demographic.mk (IdStr "C-1") 3 4 1 1 25000.56 24000.44 1 120;
     Demographic.mk (IdStr (Py.no_break_space ++ "I-7" ++ Py.no_break_space))
       1 2 5 2 18000.5 17000.5 2 121;
     Demographic.mk (IdStr "C-2") 4 5 6 1 30000.25 29000.75 1 122]%float
    (dietary cohort_inputs) (response cohort_inputs)
    (questionnaire cohort_inputs) (mortality cohort_inputs).

(** Two demographic rows whose identifiers are equal once normalized:
    the second one ends with a no-break space. *)
Definition duplicate_inputs : Inputs :=
  mkInputs
    [Demographic.mk (IdStr "5") 3 4 1 1 25000.5 24000.5 1 120;
     Demographic.mk (IdStr ("5" ++ Py.no_break_space)) 1 2 5 2 18000.5 17000.5 2 121]%float
    [Dietary.mk (IdInt 5) 50 2]%float
    [Response.mk (IdInt 5) 0.9 12.5 150 70.5 170 24.4 120 118 122 nan 80 78 82 nan]%float
    [Questionnaire.mk (IdInt 5) 2 1 2 2 2 2 1 2 2]%float
    [Mortality.mk (IdInt 5) 0 nan]%float.

(** One subject with every record but the dietary one (the only dietary
    record is that of a subject 9); the fourth blood-pressure reading was
    not taken. *)
Definition single_subject_inputs : Inputs :=
  mkInputs
    [Demographic.mk (IdInt 1) 3 4 1 1 25000.56 24000.44 1 120]%float
    [Dietary.mk (IdInt 9) 34 1]%float
    [Response.mk (IdInt 1) 0.9 12.5 150 70.5 170 24.4 120 118 122 nan 80 78 82 nan]%float
    [Questionnaire.mk (IdInt 1) 2 1 2 2 2 2 1 2 2]%float
    [Mortality.mk (IdInt 1) 0 nan]%float.

(** The frame the fills start from: after the exclusion and the
    projection (lines 170-172). *)
Definition prefill (d : DataFrame) : DataFrame :=
  project cols_existentes (exclude d).

(** [b] is [a] but for the numeric columns [ks] and the text columns
    [cs]. *)
Definition same_but (ks : list NumCol) (cs : list TxtCol) (a b : Row) : Prop :=
  (forall k, ~ In k ks -> num b k = num a k) /\
  (forall c, ~ In c cs -> txt b c = txt a c).

(** The scores and stages of a derived row, from the linked row. *)
Definition derive_rel (pw : PlatformPow) (r r' : Row) : Prop :=
  num r' creatinina_urinaria = F.round1 (num r creatinina_urinaria * 0.01)%float
  /\ num r' ACR
     = F.round1 (num r albumina_urinaria / num r' creatinina_urinaria)%float
  /\ txt r' categoria_ACR = tier_ACR (num r' ACR)
  /\ (exists e,
         calc_egfr pw (num r creatinina_serica) (num r edad_anos) (txt r sexo)
         = Ok e
         /\ num r' eGFR = F.round1 e)
  /\ txt r' categoria_eGFR = tier_eGFR (num r' eGFR)
  /\ same_but [creatinina_urinaria; ACR; eGFR] [categoria_ACR; categoria_eGFR] r r'.

(** A urine sample so dilute that its creatinine rescales to zero. *)
Definition dilute_urine_row : Row :=
  mkRow (fun c => match c with
                  | albumina_urinaria => 12.5
                  | creatinina_urinaria => 3
                  | _ => nan
                  end)%float
        (fun _ => None).

(** A woman of 50 whose serum creatinine was recorded as 0. *)
Definition zero_creatinine_inputs : Inputs :=
  mkInputs
    [Demographic.mk (IdInt 1) 3 4 1 1 25000.56 24000.44 1 120]%float
    [Dietary.mk (IdInt 1) 50 2]%float
    [Response.mk (IdInt 1) 0 12.5 150 70.5 170 24.4 120 118 122 nan 80 78 82 nan]%float
    [Questionnaire.mk (IdInt 1) 2 1 2 2 2 2 1 2 2]%float
    [Mortality.mk (IdInt 1) 0 nan]%float.

(** What the derivation can raise: never a [MergeError]. *)
Definition arithmetic_failure (e : Failure) : Prop :=
  e = ZeroDivisionError \/ e = OverflowError \/ e = ComplexPower.

(** The first row of the dietary source, in input order, whose
    normalized identifier is [i]. *)
Definition first_dietary (dfs : Inputs) (i : string) : option Dietary.row :=
  find (fun x => String.eqb (clean_id (Dietary.SEQN_new x)) i) (dietary dfs).

(** The sex a dietary code stands for. *)
Definition sex_label (v : float) : option string :=
  if (v =? 1)%float then Some "Hombre"
  else if (v =? 2)%float then Some "Mujer"
  else None.

(** The demographic rows that line 170 retains. *)
Definition kept_demographic (dfs : Inputs) : list Demographic.row :=
  filter (fun a => negb (Py.startswith (clean_id (Demographic.SEQN_new a)) "I-"))
    (demographic dfs).

(** Two dietary records under the identifier "5", the second one written
    with a no-break space after it, as the anchor row is. *)
Definition two_fives_inputs : Inputs :=
  mkInputs
    [Demographic.mk (IdStr ("5" ++ Py.no_break_space)) 3 4 1 1 25000.56 24000.44 1 120]%float
    [Dietary.mk (IdStr "5") 50 2;
     Dietary.mk (IdStr ("5" ++ Py.no_break_space)) 61 1]%float
    [Response.mk (IdInt 5) 0.9 12.5 150 70.5 170 24.4 120 118 122 nan 80 78 82 nan]%float
    [Questionnaire.mk (IdInt 5) 2 1 2 2 2 2 1 2 2]%float
    [Mortality.mk (IdInt 5) 0 nan]%float.

(** The same two dietary records, the first one without a sex code. *)
Definition unsexed_fives_inputs : Inputs :=
  mkInputs
    (demographic two_fives_inputs)
    [Dietary.mk (IdStr "5") 50 nan;
     Dietary.mk (IdStr ("5" ++ Py.no_break_space)) 61 1]%float
    (response two_fives_inputs) (questionnaire two_fives_inputs)
    (mortality two_fives_inputs).

(** Two subjects; the second was not examined, so that the ratio of her
    row is missing at derivation time (the only dietary record is that of
    a subject 9). *)
Definition imputed_ratio_inputs : Inputs :=
  mkInputs
    [Demographic.mk (IdInt 1) 3 4 1 1 25000.56 24000.44 1 120;
     Demographic.mk (IdInt 2) 4 5 6 1 30000.25 29000.75 1 122]%float
    [Dietary.mk (IdInt 9) 34 1]%float
    [Response.mk (IdInt 1) 0.9 900 150 70.5 170 24.4 120 118 122 nan 80 78 82 nan]%float
    [Questionnaire.mk (IdInt 1) 2 1 2 2 2 2 1 2 2;
     Questionnaire.mk (IdInt 2) 1 1 2 2 2 9 2 1 2]%float
    [Mortality.mk (IdInt 1) 0 nan;
     Mortality.mk (IdInt 2) 1 1]%float.

(* ================================================================== *)
(** * Notions on the outcome and the rows of a run *)

(** What lines 170-196 make of a retained row [r] of the derived frame
    [d]. *)
Definition final_rel (d : DataFrame) (r r' : Row) : Prop :=
  (forall col, txt r' col
               = fillna_txt (strip_blank (txt r col)) (sentinel col)) /\
  (forall col, num r' col
               = fillna_num (num r col)
                   (F.round1 (median (map (fun x => num x col) (exclude d))))).

(** The linked frame of lines 123-129 when the merges pass. *)
Definition linked (dfs : Inputs) : DataFrame :=
  map (linked_row dfs) (df_demographic (demographic dfs)).

(** The argument of the row-wise [apply] of line 148. *)
Definition row_eGFR (pw : PlatformPow) (x : Row) : result float :=
  calc_egfr pw (num x creatinina_serica) (num x edad_anos) (txt x sexo).

(** The identifiers of the four validated sources are pairwise
    distinct. *)
Definition distinct_ids (dfs : Inputs) : Prop :=
  NoDup (ids_demographic dfs) /\ NoDup (ids_response dfs) /\
  NoDup (ids_questionnaire dfs) /\ NoDup (ids_mortality dfs).

(** A retained subject with no dietary record, and a subject of the
    excluded sub-cohort, a woman of 50 whose serum creatinine was
    recorded as 0. *)
Definition excluded_zero_creatinine_inputs : Inputs :=
  mkInputs
    [Demographic.mk (IdStr "C-1") 3 4 1 1 25000.56 24000.44 1 120;
     Demographic.mk (IdStr "I-2") 1 2 5 2 18000.5 17000.5 2 121]%float
    [Dietary.mk (IdStr "I-2") 50 2]%float
    [Response.mk (IdStr "C-1") 0.9 12.5 150 70.5 170 24.4 120 118 122 nan 80 78 82 nan;
     Response.mk (IdStr "I-2") 0 400 90 80 165 29.4 140 138 nan nan 90 88 nan nan]%float
    [Questionnaire.mk (IdStr "C-1") 2 1 2 2 2 2 1 2 2]%float
    [Mortality.mk (IdStr "C-1") 0 nan]%float.

(** Two subjects whose dietary records carry no usable sex code. *)
Definition no_sex_inputs : Inputs :=
  mkInputs
    [Demographic.mk (IdStr "C-1") 3 4 1 1 25000.56 24000.44 1 120;
     Demographic.mk (IdStr "C-2") 1 2 5 2 18000.5 17000.5 2 121]%float
    [Dietary.mk (IdStr "C-1") 50 nan; Dietary.mk (IdStr "C-2") 61 3]%float
    [Response.mk (IdStr "C-1") 0.9 12.5 150 70.5 170 24.4 120 118 122 nan 80 78 82 nan;
     Response.mk (IdStr "C-2") 1.1 400 90 80 165 29.4 140 138 nan nan 90 88 nan nan]%float
    [Questionnaire.mk (IdStr "C-1") 2 1 2 2 2 2 1 2 2]%float
    [Mortality.mk (IdStr "C-1") 0 nan]%float.

(** The labels a text column can take from the recode tables and the
    stage derivations. *)
Definition labels (c : TxtCol) : list string :=
  (map snd (table_of reco c ++ table_of reco_2 c ++ table_of reco_3 c
            ++ table_of reco_4 c)
   ++ (if TxtCol_beq c categoria_ACR then ["A1"; "A2"; "A3"] else [])
   ++ (if TxtCol_beq c categoria_eGFR
       then ["G1"; "G2"; "G3a"; "G3b"; "G4"; "G5"] else []))%list.

(* ================================================================== *)
(** * More of Python's [str] *)

Module PyStr.

(** [s[n:]] for [0 <= n]. *)
Fixpoint drop (n : nat) (s : string) : string :=
  match n, s with
  | O, _ => s
  | S n', String _ s' => drop n' s'
  | S _, EmptyString => EmptyString
  end.


(** [s.endswith(p)] *)
Definition endswith (s p : string) : bool :=
  let n := String.length s in
  let m := String.length p in
  (m <=? n)%nat && String.eqb (drop (n - m) s) p.

(** [s.rfind(c)] for a one-character [c]: the index of its last
    occurrence, or -1. *)
Fixpoint rfind (s : string) (c : ascii) : Z :=
  match s with
  | EmptyString => -1
  | String a s' =>
      let i := rfind s' c in
      if (0 <=? i)%Z then (i + 1)%Z
      else if Ascii.eqb a c then 0%Z else (-1)%Z
  end.

(** [s.replace(old, new)] for a non-empty [old]: the occurrences are
    found from the left and do not overlap; [skip] counts the characters
    of an occurrence still to be passed over. *)
Fixpoint replace_from (old new : string) (skip : nat) (s : string) : string :=
  match s with
  | EmptyString => EmptyString
  | String c s' =>
      match skip with
      | S k => replace_from old new k s'
      | O =>
          if String.prefix old s
          then new ++ replace_from old new (String.length old - 1) s'
          else String c (replace_from old new O s')
      end
  end.

Definition replace (s old new : string) : string := replace_from old new 0 s.

(** [sep.join(l)] *)
Fixpoint join (sep : string) (l : list string) : string :=
  match l with
  | [] => EmptyString
  | [x] => x
  | x :: l' => x ++ sep ++ join sep l'
  end.

(** [s.count(c)] for a one-character [c]. *)
Fixpoint count (s : string) (c : ascii) : nat :=
  match s with
  | EmptyString => O
  | String a s' => (if Ascii.eqb a c then 1 else 0) + count s' c
  end.

(** [x or y] on strings, [x] optional: [None] and the empty string are
    false. *)
Definition or_else (x : option string) (y : string) : string :=
  match x with
  | Some s => if String.eqb s "" then y else s
  | None => y
  end.

End PyStr.

(* ================================================================== *)
(** * Exports ([save_to_file]) *)

(** What the API layer raises. *)
Inductive Exn :=
| ValueError (msg : string)
| HTTPException (status_code : Z) (detail : string).

(** A file under [OUTPUT_PATH]: a CSV, or a workbook with one sheet. *)
Inductive FileBody :=
| CsvBody (df : DataFrame)
| XlsxBody (sheet_name : string) (df : DataFrame).

(** The files written under [OUTPUT_PATH], the latest first, by the name
    given relative to it. *)
Definition Disk := list (string * FileBody).

(** [filename if filename.endswith(ext) else f"{filename}{ext}"] *)
Definition out_name (filename ext : string) : string :=
  if PyStr.endswith filename ext then filename else filename ++ ext.

(** Lines 212-225; the result is the new state of [OUTPUT_PATH] and the
    name of [out] relative to it. *)
Definition save_to_file (disk : Disk) (df : DataFrame) (filename fmt : string)
  : Exn + Disk * string :=
  if String.eqb fmt "csv" then
    let out := out_name filename ".csv" in
    inr ((out, CsvBody df) :: disk, out)
  else if String.eqb fmt "xlsx" then
    let out := out_name filename ".xlsx" in
    inr ((out, XlsxBody "DataFrame" df) :: disk, out)
  else inl (ValueError "Formato no soportado (usa 'csv' o 'xlsx').").

(* ================================================================== *)
(** * File names ([_ext_of], [_read_df]) *)





Section FileNames.

(** [str.lower], on the whole of Unicode, is a parameter. *)
Variable lower : string -> string.




End FileNames.


(* ================================================================== *)
(** * The JSON window ([get_dataset], [get_dataset_select], [etl_preview]) *)

(** A bound of a slice brought into [0 .. len], as Python does for a
    step of one: a negative bound counts from the end. *)
Definition slice_bound (len i : Z) : Z :=
  if (i <? 0)%Z then Z.max 0 (i + len) else Z.min i len.

(** [df.iloc[start:stop]] on the rows of a frame. *)
Definition iloc {A : Type} (df : list A) (start stop : Z) : list A :=
  let len := Z.of_nat (List.length df) in
  let a := slice_bound len start in
  let b := slice_bound len stop in
  firstn (Z.to_nat (b - a)) (skipn (Z.to_nat a) df).

(** [chunk = min(limit, MAX_JSON_ROWS)] and
    [view = df.iloc[offset: offset + chunk]]. *)
Definition json_window {A : Type} (MAX_JSON_ROWS limit offset : Z)
  (df : list A) : list A :=
  let chunk := Z.min limit MAX_JSON_ROWS in
  iloc df offset (offset + chunk).

(* ================================================================== *)
(** * Download names ([etl_download]) *)

(** [Literal["csv", "xlsx"]] *)
Inductive Format := format_csv | format_xlsx.

(** [PurePath.name] of [OUTPUT_PATH / s], for a name [s] that does not
    end with "/" and has no "." or ".." component: what follows its last
    "/". *)
Definition path_name (s : string) : string :=
  PyStr.drop (Z.to_nat (PyStr.rfind s "/" + 1)) s.

(** Lines 289-336, once [build_merged_dataframe] has returned [df]: the
    new state of [OUTPUT_PATH] and the [filename] of the
    [Content-Disposition] header. *)
Definition etl_download (DEFAULT_DOWNLOAD_NAME : string) (disk : Disk)
  (df : DataFrame) (format : Format) (filename : option string)
  (persist : bool) : Exn + Disk * string :=
  let base :=
    PyStr.replace (PyStr.or_else filename DEFAULT_DOWNLOAD_NAME) ".csv" "" in
  match format with
  | format_csv =>
      if persist then
        match save_to_file disk df base "csv" with
        | inl e => inl e
        | inr (disk', _) => inr (disk', base ++ ".csv")
        end
      else inr (disk, base ++ ".csv")
  | format_xlsx =>
      if persist then
        match save_to_file disk df base "xlsx" with
        | inl e => inl e
        | inr (disk', saved_path) => inr (disk', path_name saved_path)
        end
      else inr (disk, base ++ ".xlsx")
  end.

(* ================================================================== *)
(** * The streamed CSV ([etl_download], [format=csv]) *)

(** The names of the columns, as lines 160-168 write them. *)
Definition col_name (c : Col) : string :=
  match c with
  | T id => "id"
  | N edad_anos => "edad_años"
  | T sexo => "sexo"
  | T grupo_etnico => "grupo_etnico"
  | N unidad_muestral_psu => "unidad_muestral_psu"
  | N estrato_muestral => "estrato_muestral"
  | N peso_muestral_entrevista => "peso_muestral_entrevista"
  | N peso_muestral_examen => "peso_muestral_examen"
  | T DM => "DM"
  | N peso_kg => "peso(kg)"
  | N altura_cm => "altura(cm)"
  | N IMC => "IMC"
  | N creatinina_urinaria => "creatinina_urinaria(g/L)"
  | N albumina_urinaria => "albumina_urinaria(mg/L)"
  | N ACR => "ACR"
  | T categoria_ACR => "categoria_ACR"
  | T mortalidad => "mortalidad"
  | N TAS_1 => "TAS-1"
  | N TAD_1 => "TAD-1"
  | N TAS_2 => "TAS-2"
  | N TAD_2 => "TAD-2"
  | N TAS_3 => "TAS-3"
  | N TAD_3 => "TAD-3"
  | T HTA => "HTA"
  | T estado_civil => "estado_civil"
  | N eGFR => "eGFR"
  | T categoria_eGFR => "categoria_eGFR"
  | N creatinina_serica => "creatinina_serica(mg/dL)"
  | T IC => "IC"
  | T EC => "EC"
  | T ACV => "ACV"
  | T nivel_educativo => "nivel_educativo"
  | T CA => "CA"
  | T pais_nacimiento => "pais_nacimiento"
  | T actividad_fisica_moderada => "actividad_fisica_moderada"
  | T actividad_fisica_vigorosa => "actividad_fisica_vigorosa"
  | T consumo_alcohol => "consumo_alcohol"
  | T causa_muerte => "causa_muerte"
  | N TAS_4 => "TAS-4"
  | N TAD_4 => "TAD-4"
  end.

(** The line feed. *)
Definition newline : string := String (ascii_of_nat 10) EmptyString.

(** The number of commas of a line: one less than the number of fields a
    CSV reader finds in an unquoted line. *)
Definition commas (line : string) : nat := PyStr.count line ",".

Section Streaming.

(** Python's [str] on a float, a parameter. *)
Variable str_float : float -> string.

(** ["" if (x is None) else str(x)] on a cell: a float, a string, or the
    missing value [pd.NA] of a string column. *)
Definition str_cell (row : Row) (c : Col) : string :=
  match c with
  | N k => str_float (num row k)
  | T c =>
      match txt row c with
      | Some s => s
      | None => "<NA>"
      end
  end.

(** Lines 309-314: the header, then one line per row, nothing quoted. *)
Definition generate (columns : list Col) (df : DataFrame) : list string :=
  (PyStr.join "," (map col_name columns) ++ newline)
  :: map (fun row => PyStr.join "," (map (str_cell row) columns) ++ newline)
       df.

End Streaming.

(** A [str] on floats for the examples: the three special values
    apart, every float reads "0.0". *)
Definition str_float_example (x : float) : string :=
  if is_nan x then "nan"
  else if is_infinity x then (if get_sign x then "-inf" else "inf")
  else "0.0".

(** One subject of the ethnic group 5, with no dietary record of his
    own. *)
Definition other_race_inputs : Inputs :=
  mkInputs
    [Demographic.mk (IdInt 1) 5 4 1 1 25000.56 24000.44 1 120]%float
    [Dietary.mk (IdInt 9) 34 1]%float
    [Response.mk (IdInt 1) 0.9 12.5 150 70.5 170 24.4 120 118 122 nan 80 78 82 nan]%float
    [Questionnaire.mk (IdInt 1) 2 1 2 2 2 2 1 2 2]%float
    [Mortality.mk (IdInt 1) 0 nan]%float.

(* ================================================================== *)
(** * Facts on binary64 comparisons and missing values *)

Module FloatFacts.

Ltac fold_cmp :=
  repeat match goal with
  | |- context [Pos.compare_cont Eq ?a ?b] =>
      change (Pos.compare_cont Eq a b) with (Pos.compare a b)
  end.

Ltac cmp_cases :=
  fold_cmp;
  repeat match goal with
  | |- context [(?a ?= ?b)%Z] => destruct (Z.compare_spec a b)
  | |- context [(?a ?= ?b)%positive] => destruct (Pos.compare_spec a b)
  end.

Ltac sf_order :=
  simpl; try reflexivity; try discriminate;
  cmp_cases; simpl; try reflexivity; try discriminate; intros;
  solve [lia | congruence | subst; lia].

Ltac sf_cases x y z :=
  destruct x as [[]|[]| |[] ? ?], y as [[]|[]| |[] ? ?],
           z as [[]|[]| |[] ? ?].

Lemma SFcompare_refl (x : spec_float) :
  x <> S754_nan -> SFcompare x x = Some Eq.
Proof.
  destruct x as [s|s| |s m e]; simpl; intros H; try congruence.
  - destruct s; reflexivity.
  - destruct s; cmp_cases; simpl; try reflexivity; lia.
Qed.

Lemma SFltb_leb_trans (x y z : spec_float) :
  SFltb x y = true -> SFleb y z = true -> SFltb x z = true.
Proof. unfold SFltb, SFleb. sf_cases x y z; sf_order. Qed.

Lemma SFleb_ltb_trans (x y z : spec_float) :
  SFleb x y = true -> SFltb y z = true -> SFltb x z = true.
Proof. unfold SFltb, SFleb. sf_cases x y z; sf_order. Qed.

Lemma SFleb_trans (x y z : spec_float) :
  SFleb x y = true -> SFleb y z = true -> SFleb x z = true.
Proof. unfold SFleb. sf_cases x y z; sf_order. Qed.

Lemma SFltb_negb_leb (x y : spec_float) :
  x <> S754_nan -> y <> S754_nan -> SFltb x y = negb (SFleb y x).
Proof.
  unfold SFltb, SFleb.
  destruct x as [[]|[]| |[] ? ?], y as [[]|[]| |[] ? ?]; simpl;
    intros Hx Hy; try congruence; try reflexivity;
    cmp_cases; simpl; try reflexivity; lia.
Qed.

Local Open Scope float_scope.

Lemma is_nan_true (x : float) : is_nan x = true -> x = nan.
Proof.
  unfold is_nan. rewrite eqb_spec. intros H.
  apply Prim2SF_inj. change (Prim2SF nan) with S754_nan.
  destruct (Prim2SF x) eqn:E; try reflexivity;
    unfold SFeqb in H; rewrite SFcompare_refl in H by discriminate;
    discriminate.
Qed.

Lemma is_nan_false (x : float) : is_nan x = false -> Prim2SF x <> S754_nan.
Proof.
  unfold is_nan. rewrite eqb_spec. intros H E. rewrite E in H. discriminate.
Qed.

Lemma ltb_leb_trans (x y z : float) :
  (x <? y) = true -> (y <=? z) = true -> (x <? z) = true.
Proof. rewrite !ltb_spec, leb_spec. apply SFltb_leb_trans. Qed.

Lemma leb_ltb_trans (x y z : float) :
  (x <=? y) = true -> (y <? z) = true -> (x <? z) = true.
Proof. rewrite !ltb_spec, leb_spec. apply SFleb_ltb_trans. Qed.

Lemma leb_trans (x y z : float) :
  (x <=? y) = true -> (y <=? z) = true -> (x <=? z) = true.
Proof. rewrite !leb_spec. apply SFleb_trans. Qed.

Lemma ltb_negb_leb (x y : float) :
  is_nan x = false -> is_nan y = false -> (x <? y) = negb (y <=? x).
Proof.
  intros Hx Hy. rewrite ltb_spec, leb_spec.
  apply SFltb_negb_leb; now apply is_nan_false.
Qed.

Lemma leb_negb_ltb (x y : float) :
  is_nan x = false -> is_nan y = false -> (x <=? y) = negb (y <? x).
Proof.
  intros Hx Hy. rewrite (ltb_negb_leb y x Hy Hx). now rewrite negb_involutive.
Qed.

Lemma ltb_leb (x y : float) : (x <? y) = true -> (x <=? y) = true.
Proof.
  rewrite ltb_spec, leb_spec. unfold SFltb, SFleb.
  destruct (SFcompare _ _) as [[]|]; easy.
Qed.

End FloatFacts.

(* ================================================================== *)
(** * Row-wise readings of the column assignments *)

Lemma num_set_txt (r : Row) (c : TxtCol) (v : option string) (k : NumCol) :
  num (set_txt r c v) k = num r k.
Proof. reflexivity. Qed.

Lemma txt_set_txt_same (r : Row) (c : TxtCol) (v : option string) :
  txt (set_txt r c v) c = v.
Proof. destruct c; reflexivity. Qed.

Section Tiers.

Local Open Scope float_scope.
Import FloatFacts.

Lemma nan_compare (c : float) :
  (nan <? c) = false /\ (c <? nan) = false /\
  (nan <=? c) = false /\ (c <=? nan) = false.
Proof.
  rewrite !ltb_spec, !leb_spec. change (Prim2SF nan) with S754_nan.
  unfold SFltb, SFleb. destruct (Prim2SF c); repeat split; reflexivity.
Qed.

(** The masks of lines 136-138 on one score. *)
Lemma ACR_masks (x : float) :
  ((x <? 30) = false /\ (30 <=? x) = false /\
   (x <=? 300) = false /\ (300 <? x) = false /\ is_nan x = true)
  \/ ((x <? 30) = true /\ (30 <=? x) = false /\
      (x <=? 300) = true /\ (300 <? x) = false /\ is_nan x = false)
  \/ ((x <? 30) = false /\ (30 <=? x) = true /\
      (x <=? 300) = true /\ (300 <? x) = false /\ is_nan x = false)
  \/ ((x <? 30) = false /\ (30 <=? x) = true /\
      (x <=? 300) = false /\ (300 <? x) = true /\ is_nan x = false).
Proof.
  destruct (is_nan x) eqn:N.
  - apply is_nan_true in N. subst x. left.
    destruct (nan_compare 30) as (? & ? & ? & ?).
    destruct (nan_compare 300) as (? & ? & ? & ?). now repeat split.
  - right.
    rewrite (ltb_negb_leb x 30 N eq_refl), (leb_negb_ltb x 300 N eq_refl).
    destruct (30 <=? x) eqn:B1, (300 <? x) eqn:B2; simpl; auto 10.
    exfalso.
    assert (H : (30 <=? x) = true)
      by (apply ltb_leb, (leb_ltb_trans 30 300 x); [reflexivity | exact B2]).
    congruence.
Qed.

Lemma categoria_ACR_row (t : DataFrame) :
  map (fun r => txt r categoria_ACR) (derive_categoria_ACR t)
  = map (fun r => tier_ACR (num r ACR)) t.
Proof.
  unfold derive_categoria_ACR, loc_assign, assign_txt.
  rewrite !map_map. apply map_ext. intros r. unfold tier_ACR, F.gtb, F.geb.
  destruct (ACR_masks (num r ACR)) as [H|[H|[H|H]]];
    destruct H as (H1 & H2 & H3 & H4 & _);
    cbn [num set_txt]; rewrite ?H1, ?H2, ?H3, ?H4; cbn [num set_txt andb];
    rewrite ?H1, ?H2, ?H3, ?H4; cbn [num set_txt andb txt];
    rewrite ?H1, ?H2, ?H3, ?H4; reflexivity.
Qed.

(** The comparisons of lines 153-158 on one score: all false on a
    missing score; otherwise [x < c] is the negation of [c <= x] and a
    higher threshold passed implies the lower ones. *)
Lemma eGFR_masks (x : float) :
  (is_nan x = true /\
   forall c, (x <? c) = false /\ (c <=? x) = false)
  \/ (is_nan x = false /\
      (forall c, is_nan c = false -> (x <? c) = negb (c <=? x)) /\
      ((90 <=? x) = true -> (60 <=? x) = true) /\
      ((60 <=? x) = true -> (45 <=? x) = true) /\
      ((45 <=? x) = true -> (30 <=? x) = true) /\
      ((30 <=? x) = true -> (15 <=? x) = true)).
Proof.
  destruct (is_nan x) eqn:N.
  - apply is_nan_true in N. subst x. left. split; [reflexivity|].
    intros c. destruct (nan_compare c) as (? & ? & ? & ?). now split.
  - right. split; [reflexivity|]. split.
    + intros c Hc. now apply ltb_negb_leb.
    + repeat split; apply leb_trans; reflexivity.
Qed.

Lemma categoria_eGFR_row (t : DataFrame) :
  map (fun r => txt r categoria_eGFR) (derive_categoria_eGFR t)
  = map (fun r => tier_eGFR (num r eGFR)) t.
Proof.
  unfold derive_categoria_eGFR, loc_assign, assign_txt.
  rewrite !map_map. apply map_ext. intros r. unfold tier_eGFR, F.gtb, F.geb.
  destruct (eGFR_masks (num r eGFR)) as [[_ H]|(_ & L & M1 & M2 & M3 & M4)].
  - destruct (H 15) as [A1 B1], (H 30) as [A2 B2], (H 45) as [A3 B3],
      (H 60) as [A4 B4], (H 90) as [A5 B5].
    cbn [num set_txt]; rewrite ?A1, ?A2, ?A3, ?A4, ?A5, ?B1, ?B2, ?B3, ?B4, ?B5.
    repeat (cbn [num set_txt andb txt];
            rewrite ?A1, ?A2, ?A3, ?A4, ?A5, ?B1, ?B2, ?B3, ?B4, ?B5).
    reflexivity.
  - pose proof (L 15 eq_refl) as A1. pose proof (L 30 eq_refl) as A2.
    pose proof (L 45 eq_refl) as A3. pose proof (L 60 eq_refl) as A4.
    pose proof (L 90 eq_refl) as A5. clear L.
    destruct (90 <=? num r eGFR) eqn:B5, (60 <=? num r eGFR) eqn:B4,
      (45 <=? num r eGFR) eqn:B3, (30 <=? num r eGFR) eqn:B2,
      (15 <=? num r eGFR) eqn:B1;
      try (specialize (M1 eq_refl); discriminate);
      try (specialize (M2 eq_refl); discriminate);
      try (specialize (M3 eq_refl); discriminate);
      try (specialize (M4 eq_refl); discriminate);
      cbn [negb] in *;
      repeat (cbn [num set_txt andb txt];
              rewrite ?A1, ?A2, ?A3, ?A4, ?A5, ?B1, ?B2, ?B3, ?B4, ?B5);
      reflexivity.
Qed.

End Tiers.

(** * Python strings: [strip] is idempotent *)

Module PyFacts.
Import Py.

Section StripFacts.

Variable s1 : ascii -> bool.
Variable s2 : ascii -> ascii -> bool.
Variable s3 : ascii -> ascii -> ascii -> bool.

Lemma lstrip_with_fixed (l : list ascii) :
  starts_with_space s1 s2 s3 l = false -> lstrip_with s1 s2 s3 l = l.
Proof.
  destruct l as [|c1 [|c2 [|c3 l]]]; simpl; try reflexivity.
  - now rewrite orb_false_r; intros ->.
  - rewrite orb_false_r. intros H. apply orb_false_iff in H as [-> ->].
    reflexivity.
  - intros H. apply orb_false_iff in H as [-> H].
    apply orb_false_iff in H as [-> ->]. reflexivity.
Qed.

(** What is left is a suffix, and does not start with a removed
    character. *)
Lemma lstrip_with_spec (n : nat) (l : list ascii) :
  (List.length l <= n)%nat ->
  starts_with_space s1 s2 s3 (lstrip_with s1 s2 s3 l) = false /\
  exists w, l = (w ++ lstrip_with s1 s2 s3 l)%list.
Proof.
  revert l. induction n as [|n IH]; intros l Hl.
  { destruct l; [|simpl in Hl; lia]. split; [reflexivity|now exists []]. }
  destruct l as [|c1 l1]; [split; [reflexivity|now exists []]|].
  simpl in Hl. simpl lstrip_with.
  destruct (s1 c1) eqn:E1.
  { destruct (IH l1 ltac:(lia)) as [H [w Hw]]. split; [exact H|].
    exists (c1 :: w). simpl. now rewrite <- Hw. }
  destruct l1 as [|c2 l2].
  { split; [simpl; now rewrite E1|now exists []]. }
  simpl in Hl. destruct (s2 c1 c2) eqn:E2.
  { destruct (IH l2 ltac:(lia)) as [H [w Hw]]. split; [exact H|].
    exists (c1 :: c2 :: w). simpl. now rewrite <- Hw. }
  destruct l2 as [|c3 l3].
  { split; [simpl; now rewrite E1, E2|now exists []]. }
  simpl in Hl. destruct (s3 c1 c2 c3) eqn:E3.
  { destruct (IH l3 ltac:(lia)) as [H [w Hw]]. split; [exact H|].
    exists (c1 :: c2 :: c3 :: w). simpl. now rewrite <- Hw. }
  split; [simpl; now rewrite E1, E2, E3|now exists []].
Qed.

Lemma lstrip_with_head (l : list ascii) :
  starts_with_space s1 s2 s3 (lstrip_with s1 s2 s3 l) = false.
Proof. exact (proj1 (lstrip_with_spec _ l (le_n _))). Qed.

Lemma lstrip_with_suffix (l : list ascii) :
  exists w, l = (w ++ lstrip_with s1 s2 s3 l)%list.
Proof. exact (proj2 (lstrip_with_spec _ l (le_n _))). Qed.

Lemma lstrip_with_idem (l : list ascii) :
  lstrip_with s1 s2 s3 (lstrip_with s1 s2 s3 l) = lstrip_with s1 s2 s3 l.
Proof. apply lstrip_with_fixed, lstrip_with_head. Qed.

(** A list that does not start with a removed character has no prefix
    that does. *)
Lemma starts_with_space_prefix (b w : list ascii) :
  starts_with_space s1 s2 s3 (b ++ w) = false ->
  starts_with_space s1 s2 s3 b = false.
Proof.
  destruct b as [|c1 [|c2 [|c3 b]]]; simpl; try reflexivity.
  - rewrite orb_false_r. intros H. now apply orb_false_iff in H as [H _].
  - rewrite orb_false_r. intros H. apply orb_false_iff in H as [-> H].
    destruct w; simpl in *; [now rewrite orb_false_r in H|].
    now apply orb_false_iff in H as [-> _].
  - auto.
Qed.

End StripFacts.

Lemma rstrip_chars_prefix (l : list ascii) :
  exists w, l = (rstrip_chars l ++ w)%list.
Proof.
  unfold rstrip_chars.
  destruct (lstrip_with_suffix is_space (fun c2 c1 => is_space2 c1 c2)
              (fun c3 c2 c1 => is_space3 c1 c2 c3) (rev l)) as [w H].
  exists (rev w). rewrite <- rev_app_distr, <- H. now rewrite rev_involutive.
Qed.

Lemma rstrip_chars_idem (l : list ascii) :
  rstrip_chars (rstrip_chars l) = rstrip_chars l.
Proof.
  unfold rstrip_chars. now rewrite rev_involutive, lstrip_with_idem.
Qed.

Lemma strip_chars_idem (l : list ascii) :
  let s := rstrip_chars (lstrip_chars l) in
  rstrip_chars (lstrip_chars s) = s.
Proof.
  cbv zeta.
  assert (F : lstrip_chars (rstrip_chars (lstrip_chars l))
              = rstrip_chars (lstrip_chars l)).
  { apply lstrip_with_fixed.
    destruct (rstrip_chars_prefix (lstrip_chars l)) as [w H].
    apply (starts_with_space_prefix _ _ _ _ w). rewrite <- H.
    apply lstrip_with_head. }
  rewrite F. apply rstrip_chars_idem.
Qed.

Lemma strip_idem (s : string) : strip (strip s) = strip s.
Proof.
  unfold strip. rewrite list_ascii_of_string_of_list_ascii.
  now rewrite strip_chars_idem.
Qed.

(** The no-break space is removed on both sides, like the space. *)
Example strip_no_break_space :
  strip (no_break_space ++ " I-7" ++ no_break_space) = "I-7"
  /\ strip ("5" ++ no_break_space) = "5".
Proof. split; reflexivity. Qed.

End PyFacts.

Section KeyFacts.

Lemma key_eqb_eq (a b : option string) : key_eqb a b = true <-> a = b.
Proof.
  destruct a as [x|], b as [y|]; simpl; split; intros H;
    try discriminate; try reflexivity.
  - apply String.eqb_eq in H. now subst.
  - injection H as ->. apply String.eqb_refl.
Qed.

Lemma key_eqb_refl (a : option string) : key_eqb a a = true.
Proof. now apply key_eqb_eq. Qed.

Lemma mem_key_In (k : option string) (ks : list (option string)) :
  mem_key k ks = true <-> In k ks.
Proof.
  unfold mem_key. rewrite existsb_exists. split.
  - intros (x & Hx & E). apply key_eqb_eq in E. now subst.
  - intros H. exists k. split; [exact H | apply key_eqb_refl].
Qed.

Lemma mem_key_false (k : option string) (ks : list (option string)) :
  mem_key k ks = false <-> ~ In k ks.
Proof.
  rewrite <- mem_key_In. destruct (mem_key k ks); split; congruence.
Qed.

Lemma is_unique_NoDup (ks : list (option string)) :
  is_unique ks = true <-> NoDup ks.
Proof.
  induction ks as [|k ks IH]; simpl.
  - split; [constructor | reflexivity].
  - rewrite andb_true_iff, negb_true_iff, mem_key_false, IH. split.
    + intros [H1 H2]. now constructor.
    + intros H. inversion H; subst. now split.
Qed.

Lemma is_unique_Some (l : list string) :
  is_unique (map Some l) = true <-> NoDup l.
Proof.
  rewrite is_unique_NoDup. split.
  - apply NoDup_map_inv.
  - intros H. apply Finite.Injective_map_NoDup; [|exact H].
    intros x y E. now injection E.
Qed.

Lemma filter_absent (R : DataFrame) (k : option string) :
  mem_key k (map key R) = false ->
  filter (fun r => key_eqb (key r) k) R = [].
Proof.
  induction R as [|r R IH]; simpl; [reflexivity|].
  intros H. apply orb_false_iff in H as [H1 H2].
  assert (E : key_eqb (key r) k = false).
  { destruct (key_eqb (key r) k) eqn:E; [|reflexivity].
    apply key_eqb_eq in E. rewrite E, key_eqb_refl in H1. discriminate. }
  rewrite E. now apply IH.
Qed.

Lemma filter_unique (R : DataFrame) (k : option string) :
  is_unique (map key R) = true ->
  filter (fun r => key_eqb (key r) k) R
  = match lookup R k with Some r => [r] | None => [] end.
Proof.
  unfold lookup.
  induction R as [|r R IH]; simpl; [reflexivity|].
  intros H. apply andb_true_iff in H as [H1 H2].
  apply negb_true_iff in H1.
  destruct (key_eqb (key r) k) eqn:E.
  - apply key_eqb_eq in E. rewrite E in H1.
    now rewrite (filter_absent R k H1).
  - now apply IH.
Qed.

Lemma key_merge_row (cols : list Col) (l : Row) (m : option Row) :
  key (merge_row cols l m) = key l.
Proof. reflexivity. Qed.

Lemma left_join_unique (cols : list Col) (L R : DataFrame) :
  is_unique (map key R) = true ->
  left_join cols L R = map (fun l => merge_row cols l (lookup R (key l))) L.
Proof.
  intros H. unfold left_join.
  match goal with |- flat_map ?g L = _ => set (f := g) end.
  assert (Hf : forall l, f l = [merge_row cols l (lookup R (key l))]).
  { intros l. unfold f. rewrite (filter_unique R (key l) H).
    destruct (lookup R (key l)); reflexivity. }
  clearbody f.
  induction L as [|l L IH]; simpl; [reflexivity|].
  now rewrite Hf, IH.
Qed.

Lemma keys_left_join (cols : list Col) (L R : DataFrame) :
  is_unique (map key R) = true ->
  map key (left_join cols L R) = map key L.
Proof.
  intros H. rewrite (left_join_unique cols L R H), map_map.
  apply map_ext. reflexivity.
Qed.

(** [drop_duplicates]: distinct keys, each with its first row. *)
Lemma drop_duplicates_from_keys (seen : list (option string)) (t : DataFrame) :
  NoDup (map key (drop_duplicates_from seen t)) /\
  forall k, In k (map key (drop_duplicates_from seen t)) ->
            ~ In k seen /\ In k (map key t).
Proof.
  revert seen. induction t as [|r t IH]; intros seen; simpl.
  - split; [constructor | intros k []].
  - destruct (mem_key (key r) seen) eqn:E.
    + destruct (IH seen) as [H1 H2]. split; [exact H1|].
      intros k Hk. destruct (H2 k Hk). auto.
    + destruct (IH (key r :: seen)) as [H1 H2]. split.
      * simpl. constructor; [|exact H1].
        intros Hin. destruct (H2 _ Hin) as [Hn _]. apply Hn. now left.
      * simpl. intros k [<-|Hk].
        -- split; [now apply mem_key_false | now left].
        -- destruct (H2 k Hk) as [Hn Hi]. split; [|now right].
           intros Hs. apply Hn. now right.
Qed.

Lemma drop_duplicates_unique (t : DataFrame) :
  is_unique (map key (drop_duplicates t)) = true.
Proof. apply is_unique_NoDup, drop_duplicates_from_keys. Qed.

Lemma lookup_drop_duplicates_from (seen : list (option string))
  (t : DataFrame) (k : option string) :
  lookup (drop_duplicates_from seen t) k
  = if mem_key k seen then None else lookup t k.
Proof.
  unfold lookup. revert seen. induction t as [|r t IH]; intros seen; simpl.
  - now destruct (mem_key k seen).
  - destruct (mem_key (key r) seen) eqn:E.
    + rewrite IH. destruct (key_eqb (key r) k) eqn:K; [|reflexivity].
      apply key_eqb_eq in K. rewrite <- K, E. reflexivity.
    + simpl. destruct (key_eqb (key r) k) eqn:K.
      * apply key_eqb_eq in K. rewrite <- K, E. reflexivity.
      * rewrite IH. simpl.
        assert (K' : key_eqb k (key r) = false).
        { destruct (key_eqb k (key r)) eqn:K'; [|reflexivity].
          apply key_eqb_eq in K'. rewrite K', key_eqb_refl in K.
          discriminate. }
        now rewrite K'.
Qed.

Lemma lookup_drop_duplicates (t : DataFrame) (k : option string) :
  lookup (drop_duplicates t) k = lookup t k.
Proof. apply (lookup_drop_duplicates_from [] t k). Qed.

End KeyFacts.

Lemma keys_map_merge_row (cols : list Col) (g : Row -> option Row)
  (L : DataFrame) :
  map key (map (fun l => merge_row cols l (g l)) L) = map key L.
Proof. rewrite map_map. apply map_ext. reflexivity. Qed.

Lemma merge_unique (step : MergeStep) (cols : list Col) (L R : DataFrame) :
  is_unique (map key L) = true -> is_unique (map key R) = true ->
  merge step cols L R
  = Ok (map (fun l => merge_row cols l (lookup R (key l))) L).
Proof.
  intros HL HR. unfold merge. rewrite HL, HR.
  now rewrite (left_join_unique cols L R HR).
Qed.

Lemma merge_right_dup (step : MergeStep) (cols : list Col) (L R : DataFrame) :
  is_unique (map key L) = true -> is_unique (map key R) = false ->
  merge step cols L R = Raise (MergeError step NotUniqueRight).
Proof. intros HL HR. unfold merge. now rewrite HL, HR. Qed.

(** The four merges, decided by the uniqueness of the keys. *)
Lemma df_merge_spec (dfs : Inputs) :
  let uD := is_unique (map key (df_demographic (demographic dfs))) in
  let uR := is_unique (map key (df_response (response dfs))) in
  let uQ := is_unique (map key (df_questionnaire (questionnaire dfs))) in
  let uM := is_unique (map key (df_mortality (mortality dfs))) in
  df_merge dfs =
  match uD, uR with
  | false, false => Raise (MergeError StepResponse NotUniqueBoth)
  | false, true => Raise (MergeError StepResponse NotUniqueLeft)
  | true, false => Raise (MergeError StepResponse NotUniqueRight)
  | true, true =>
      if negb uQ then Raise (MergeError StepQuestionnaire NotUniqueRight)
      else if negb uM then Raise (MergeError StepMortality NotUniqueRight)
      else Ok (map (linked_row dfs) (df_demographic (demographic dfs)))
  end.
Proof.
  intros uD uR uQ uM. unfold df_merge.
  destruct uD eqn:ED, uR eqn:ER; subst uD uR;
    try (unfold merge at 1; rewrite ED, ER; reflexivity).
  rewrite (merge_unique _ _ _ _ ED ER). cbn [bind].
  match goal with |- context [merge _ _ ?m _] => set (m1 := m) in * end.
  assert (K1 : map key m1 = map key (df_demographic (demographic dfs)))
    by apply keys_map_merge_row.
  destruct uQ eqn:EQ; subst uQ; cbn [negb].
  2:{ rewrite merge_right_dup; [reflexivity | now rewrite K1 | exact EQ]. }
  rewrite merge_unique; [|now rewrite K1 | exact EQ]. cbn [bind].
  match goal with |- context [merge _ _ ?m _] => set (m2 := m) in * end.
  assert (K2 : map key m2 = map key m1) by apply keys_map_merge_row.
  destruct uM eqn:EM; subst uM; cbn [negb].
  2:{ rewrite merge_right_dup; [reflexivity | now rewrite K2, K1 | exact EM]. }
  rewrite merge_unique; [|now rewrite K2, K1 | exact EM]. cbn [bind].
  match goal with |- context [merge _ _ ?m _] => set (m3 := m) in * end.
  assert (K3 : map key m3 = map key m2) by apply keys_map_merge_row.
  rewrite merge_unique;
    [|now rewrite K3, K2, K1 | apply drop_duplicates_unique].
  subst m3 m2 m1. rewrite !map_map. reflexivity.
Qed.

Section ListFacts.

Context {A B : Type}.

Lemma Forall2_map_right (P : A -> B -> Prop) (f : A -> B) (l : list A) :
  (forall a, In a l -> P a (f a)) -> Forall2 P l (map f l).
Proof.
  induction l as [|a l IH]; simpl; intros H; constructor.
  - apply H. now left.
  - apply IH. intros x Hx. apply H. now right.
Qed.

Lemma mapM_Forall2 (f : A -> result B) (l : list A) (l' : list B) :
  mapM f l = Ok l' <-> Forall2 (fun a b => f a = Ok b) l l'.
Proof.
  revert l'. induction l as [|a l IH]; intros l'; simpl.
  - split.
    + intros H. injection H as <-. constructor.
    + intros H. now inversion H.
  - destruct (f a) as [b|e] eqn:E; simpl.
    + destruct (mapM f l) as [bs|e'] eqn:E'; simpl.
      * split.
        -- intros H. injection H as <-. constructor; [exact E|].
           now apply IH.
        -- intros H. inversion H; subst. f_equal.
           assert (b = y) by congruence. subst y. f_equal.
           assert (Ok bs = Ok l'0) by (now apply IH). congruence.
      * split; [discriminate|].
        intros H. inversion H; subst.
        assert (Raise e' = Ok l'0) by (now apply IH). discriminate.
    + split; [discriminate|]. intros H. inversion H; subst. congruence.
Qed.

Lemma fold_left_map {C : Type} (f : A -> C -> A) (cols : list C) (t : list A) :
  fold_left (fun t' c => map (fun r => f r c) t') cols t
  = map (fun r => fold_left f cols r) t.
Proof.
  revert t. induction cols as [|c cols IH]; intros t; simpl.
  - now rewrite map_id.
  - now rewrite IH, map_map.
Qed.

End ListFacts.

(** ** The reconciler, row by row *)

Lemma fill_str_columns_rows (t : DataFrame) :
  fill_str_columns t = map (fun r => fold_left fill_str_row str_columns r) t.
Proof. apply (fold_left_map fill_str_row). Qed.

Lemma fill_float_columns_rows (t : DataFrame) :
  fill_float_columns t
  = map (fun r => fold_left (fill_float_row (median_ t)) float_columns r) t.
Proof. apply (fold_left_map (fill_float_row (median_ t))). Qed.

Lemma txt_fill_str_row (r : Row) (col : TxtCol) :
  txt (fold_left fill_str_row str_columns r) col
  = fillna_txt (strip_blank (txt r col)) (sentinel col).
Proof. destruct col; reflexivity. Qed.

Lemma num_fill_str_row (r : Row) (col : NumCol) :
  num (fold_left fill_str_row str_columns r) col = num r col.
Proof. reflexivity. Qed.

Lemma num_fill_float_row (m : NumCol -> float) (r : Row) (col : NumCol) :
  num (fold_left (fill_float_row m) float_columns r) col
  = fillna_num (num r col) (m col).
Proof. destruct col; reflexivity. Qed.

Lemma txt_fill_float_row (m : NumCol -> float) (r : Row) (col : TxtCol) :
  txt (fold_left (fill_float_row m) float_columns r) col = txt r col.
Proof. reflexivity. Qed.

Lemma num_project_row (r : Row) (col : NumCol) :
  num (project_row cols_existentes r) col = num r col.
Proof. destruct col; reflexivity. Qed.

Lemma txt_project_row (r : Row) (col : TxtCol) :
  txt (project_row cols_existentes r) col = txt r col.
Proof. destruct col; reflexivity. Qed.

(** The medians of line 194 are those of the numeric columns after the
    exclusion. *)
Lemma median_prefill (t : DataFrame) (col : NumCol) :
  median_ (fill_str_columns (project cols_existentes t)) col
  = F.round1 (median (map (fun r => num r col) t)).
Proof.
  unfold median_. rewrite fill_str_columns_rows. unfold project.
  rewrite !map_map. f_equal. f_equal. apply map_ext. intros r.
  rewrite num_fill_str_row. apply (num_project_row r col).
Qed.

(** Every row of the result is a retained row, filled in. *)
Lemma reconcile_rows (d : DataFrame) :
  Forall2
    (fun r r' =>
       (forall col, txt r' col
                    = fillna_txt (strip_blank (txt r col)) (sentinel col)) /\
       (forall col, num r' col
                    = fillna_num (num r col)
                        (F.round1 (median (map (fun x => num x col) (exclude d))))))
    (exclude d) (reconcile d).
Proof.
  unfold reconcile. rewrite fill_float_columns_rows.
  set (m := median_ _).
  assert (Hm : forall col,
             m col = F.round1 (median (map (fun x => num x col) (exclude d))))
    by (intros col; apply median_prefill).
  clearbody m. rewrite fill_str_columns_rows. unfold project.
  rewrite !map_map. apply Forall2_map_right. intros r _. split; intros col.
  - rewrite txt_fill_float_row, txt_fill_str_row.
    do 2 f_equal. exact (txt_project_row r col).
  - rewrite num_fill_float_row, num_fill_str_row, Hm.
    f_equal. exact (num_project_row r col).
Qed.

Section ColumnFacts.

Lemma txt_loc_assign_other (mask : Row -> bool) (c : TxtCol) (v : string)
  (t : DataFrame) (c' : TxtCol) :
  TxtCol_beq c' c = false ->
  map (fun r => txt r c') (loc_assign mask c v t) = map (fun r => txt r c') t.
Proof.
  intros H. unfold loc_assign. rewrite map_map. apply map_ext. intros r.
  destruct (mask r); [|reflexivity]. simpl. now rewrite H.
Qed.

Lemma num_loc_assign (mask : Row -> bool) (c : TxtCol) (v : string)
  (t : DataFrame) (k : NumCol) :
  map (fun r => num r k) (loc_assign mask c v t) = map (fun r => num r k) t.
Proof.
  unfold loc_assign. rewrite map_map. apply map_ext. intros r.
  now destruct (mask r).
Qed.

Lemma txt_assign_txt_other (c : TxtCol) (f : Row -> option string)
  (t : DataFrame) (c' : TxtCol) :
  TxtCol_beq c' c = false ->
  map (fun r => txt r c') (assign_txt c f t) = map (fun r => txt r c') t.
Proof.
  intros H. unfold assign_txt. rewrite map_map. apply map_ext. intros r.
  simpl. now rewrite H.
Qed.

Lemma num_assign_txt (c : TxtCol) (f : Row -> option string)
  (t : DataFrame) (k : NumCol) :
  map (fun r => num r k) (assign_txt c f t) = map (fun r => num r k) t.
Proof. unfold assign_txt. now rewrite map_map. Qed.

Lemma num_assign_num_other (k : NumCol) (f : Row -> float)
  (t : DataFrame) (k' : NumCol) :
  NumCol_beq k' k = false ->
  map (fun r => num r k') (assign_num k f t) = map (fun r => num r k') t.
Proof.
  intros H. unfold assign_num. rewrite map_map. apply map_ext. intros r.
  simpl. now rewrite H.
Qed.

Lemma txt_assign_num (k : NumCol) (f : Row -> float)
  (t : DataFrame) (c : TxtCol) :
  map (fun r => txt r c) (assign_num k f t) = map (fun r => txt r c) t.
Proof. unfold assign_num. now rewrite map_map. Qed.

Lemma map_eq_Forall2 {A B C : Type} (f : A -> C) (g : B -> C)
  (l : list A) (l' : list B) :
  map f l = map g l' <-> Forall2 (fun a b => f a = g b) l l'.
Proof.
  revert l'. induction l as [|a l IH]; intros [|b l']; simpl; split;
    intros H.
  - constructor.
  - reflexivity.
  - discriminate.
  - inversion H.
  - discriminate.
  - inversion H.
  - injection H as H1 H2. constructor; [exact H1 | now apply IH].
  - inversion H; subst. f_equal; [assumption | now apply IH].
Qed.

Lemma map_eq_Forall {A C : Type} (f g : A -> C) (l : list A) :
  map f l = map g l <-> Forall (fun a => f a = g a) l.
Proof.
  induction l as [|a l IH]; simpl; split; intros H.
  - constructor.
  - reflexivity.
  - injection H as H1 H2. constructor; [exact H1 | now apply IH].
  - inversion H; subst. f_equal; [assumption | now apply IH].
Qed.

End ColumnFacts.

(** ** The derivation, column by column *)

Section DeriveFacts.

Local Open Scope float_scope.
Variable platform_pow : PlatformPow.

Lemma derive_ACR_rows (t : DataFrame) :
  Forall2
    (fun r r' =>
       num r' creatinina_urinaria = F.round1 (num r creatinina_urinaria * 0.01)
       /\ num r' ACR
          = F.round1 (num r albumina_urinaria / num r' creatinina_urinaria)
       /\ (forall c, txt r' c = txt r c)
       /\ (forall k, NumCol_beq k creatinina_urinaria = false ->
                     NumCol_beq k ACR = false -> num r' k = num r k))
    t (derive_ACR t).
Proof.
  unfold derive_ACR, assign_num. rewrite map_map.
  apply Forall2_map_right. intros r _. repeat split.
  intros k H1 H2. simpl. now rewrite H1, H2.
Qed.

Lemma derive_eGFR_rows (t t' : DataFrame) :
  derive_eGFR platform_pow t = Ok t' ->
  Forall2
    (fun r r' =>
       (exists e,
           calc_egfr platform_pow (num r creatinina_serica)
             (num r edad_anos) (txt r sexo) = Ok e
           /\ num r' eGFR = F.round1 e)
       /\ (forall c, txt r' c = txt r c)
       /\ (forall k, NumCol_beq k eGFR = false -> num r' k = num r k))
    t t'.
Proof.
  unfold derive_eGFR. intros H. apply mapM_Forall2 in H.
  eapply Forall2_impl; [|exact H].
  intros r r' E. cbv beta in E.
  destruct (calc_egfr _ _ _ _) as [e|]; [|discriminate].
  injection E as <-. repeat split.
  - exists e. split; reflexivity.
  - intros k Hk. simpl. now rewrite Hk.
Qed.

End DeriveFacts.

Section PipelineFacts.

Variable pw : PlatformPow.

Lemma run_transformations_derived (dfs : Inputs) (t : DataFrame) :
  run_transformations pw dfs = Ok t <->
  exists d, derived pw dfs = Ok d /\ t = reconcile d.
Proof.
  unfold run_transformations, derived.
  destruct (df_merge dfs) as [m|e]; simpl.
  - destruct (derive pw m) as [d|e]; simpl.
    + split.
      * intros H. injection H as <-. now exists d.
      * intros (d' & H & ->). now injection H as <-.
    + split; [discriminate|]. now intros (d' & H & _).
  - split; [discriminate|]. now intros (d' & H & _).
Qed.

Lemma keys_df_demographic (dfs : Inputs) :
  map key (df_demographic (demographic dfs)) = map Some (ids_demographic dfs).
Proof. unfold df_demographic, ids_demographic. now rewrite !map_map. Qed.

Lemma keys_df_response (dfs : Inputs) :
  map key (df_response (response dfs)) = map Some (ids_response dfs).
Proof. unfold df_response, ids_response. now rewrite !map_map. Qed.

Lemma keys_df_questionnaire (dfs : Inputs) :
  map key (df_questionnaire (questionnaire dfs))
  = map Some (ids_questionnaire dfs).
Proof. unfold df_questionnaire, ids_questionnaire. now rewrite !map_map. Qed.

Lemma keys_df_mortality (dfs : Inputs) :
  map key (df_mortality (mortality dfs)) = map Some (ids_mortality dfs).
Proof. unfold df_mortality, ids_mortality. now rewrite !map_map. Qed.

Lemma df_merge_Ok (dfs : Inputs) (m : DataFrame) :
  df_merge dfs = Ok m ->
  NoDup (ids_demographic dfs) /\ NoDup (ids_response dfs) /\
  NoDup (ids_questionnaire dfs) /\ NoDup (ids_mortality dfs) /\
  m = map (linked_row dfs) (df_demographic (demographic dfs)).
Proof.
  rewrite df_merge_spec. cbv zeta.
  rewrite keys_df_demographic, keys_df_response, keys_df_questionnaire,
    keys_df_mortality.
  destruct (is_unique (map Some (ids_demographic dfs))) eqn:ED,
    (is_unique (map Some (ids_response dfs))) eqn:ER; try discriminate.
  destruct (is_unique (map Some (ids_questionnaire dfs))) eqn:EQ;
    [|discriminate].
  destruct (is_unique (map Some (ids_mortality dfs))) eqn:EM;
    [|discriminate].
  simpl. intros H. injection H as <-.
  apply is_unique_Some in ED, ER, EQ, EM. auto.
Qed.

Lemma keys_linked (dfs : Inputs) :
  map key (map (linked_row dfs) (df_demographic (demographic dfs)))
  = map Some (ids_demographic dfs).
Proof.
  rewrite <- keys_df_demographic, map_map. apply map_ext. reflexivity.
Qed.

Lemma keys_derive (m d : DataFrame) :
  derive pw m = Ok d -> map key d = map key m.
Proof.
  unfold derive. destruct (derive_eGFR pw _) as [t'|] eqn:E; [|discriminate].
  simpl. intros H. injection H as <-.
  apply derive_eGFR_rows in E.
  unfold derive_categoria_eGFR, key.
  rewrite !txt_loc_assign_other, txt_assign_txt_other by reflexivity.
  transitivity (map (fun r => txt r id)
                  (derive_categoria_ACR (derive_ACR m))).
  - symmetry. apply map_eq_Forall2.
    eapply Forall2_impl; [|exact E]. intros r r' (_ & H & _).
    symmetry. apply H.
  - unfold derive_categoria_ACR, derive_ACR.
    rewrite !txt_loc_assign_other, txt_assign_txt_other by reflexivity.
    now rewrite !txt_assign_num.
Qed.

Lemma keys_derived (dfs : Inputs) (d : DataFrame) :
  derived pw dfs = Ok d ->
  NoDup (ids_demographic dfs) /\ map key d = map Some (ids_demographic dfs).
Proof.
  unfold derived. destruct (df_merge dfs) as [m|] eqn:E; [|discriminate].
  simpl. intros H. apply df_merge_Ok in E as (ND & _ & _ & _ & ->).
  split; [exact ND|]. rewrite (keys_derive _ _ H). apply keys_linked.
Qed.

End PipelineFacts.

Section Completeness.

Variable pw : PlatformPow.

Lemma clean_id_stripped (c : IdCell) : Py.strip (clean_id c) = clean_id c.
Proof. apply PyFacts.strip_idem. Qed.

Lemma keys_exclude (d : DataFrame) (ids : list string) :
  map key d = map Some ids ->
  map key (exclude d)
  = map Some (filter (fun i => negb (Py.startswith i "I-")) ids).
Proof.
  unfold exclude. revert ids.
  induction d as [|r d IH]; intros [|i ids]; cbn [map filter];
    try discriminate.
  - reflexivity.
  - intros H. injection H as H1 H2. unfold excluded at 1.
    unfold key in H1. rewrite H1.
    destruct (Py.startswith i "I-"); cbn [negb map];
      [|unfold key at 1; rewrite H1; f_equal]; now apply IH.
Qed.

Lemma run_ids (dfs : Inputs) (t : DataFrame) :
  run_transformations pw dfs = Ok t ->
  NoDup (ids_demographic dfs) /\
  map (fun r => txt r id) t = map (fun i => Some (written_id i)) (kept_ids dfs).
Proof.
  intros H. apply run_transformations_derived in H as (d & Hd & ->).
  apply keys_derived in Hd as [ND K]. split; [exact ND|].
  pose proof (keys_exclude d _ K) as KE. fold (kept_ids dfs) in KE.
  assert (S : Forall (fun i => Py.strip i = i) (kept_ids dfs)).
  { apply Forall_forall. intros i Hi. apply filter_In in Hi as [Hi _].
    unfold ids_demographic in Hi. apply in_map_iff in Hi as (r & <- & _).
    apply clean_id_stripped. }
  pose proof (reconcile_rows d) as R.
  revert KE S R. generalize (kept_ids dfs) (exclude d) (reconcile d).
  intros ids p t KE S R. revert ids KE S.
  induction R as [|r r' p' t' [Hr _] R IH]; intros [|i ids] KE S;
    simpl in *; try discriminate; [reflexivity|].
  injection KE as K1 K2. inversion S as [|? ? S1 S2]; subst.
  f_equal; [|now apply IH].
  rewrite Hr. unfold key in K1. rewrite K1. unfold strip_blank, written_id.
  rewrite S1. now destruct (String.eqb i "").
Qed.

End Completeness.

(** ** C1 *)

(** C1, counterexample.  A demographic row whose identifier is blank
    (" ") has the normalized identifier "", which does not start with
    "I-"; the returned table has one row, and its identifier reads
    "Sin categoria": no row carries the identifier "". *)
Lemma C1_blank_identifier_is_relabelled :
  In "" (ids_demographic blank_id_inputs) /\
  Py.startswith "" "I-" = false /\
  forall pw, exists t,
    run_transformations pw blank_id_inputs = Ok t /\
    map (fun r => txt r id) t = [Some "Sin categoria"].
Proof.
  split; [now left|]. split; [reflexivity|].
  intros pw. eexists. split; reflexivity.
Qed.

(** C1, amended.  Whenever [run_transformations] returns a table, the
    normalized demographic identifiers are pairwise distinct, the table
    has exactly one row per demographic row whose normalized identifier
    does not start with "I-", in the same order, that row carrying this
    identifier when it is not empty, and no row of the table has an
    identifier starting with "I-".  When no normalized demographic
    identifier is empty, the identifier column is exactly the list of the
    retained identifiers. *)
Theorem C1_left_join_completeness
  (pw : PlatformPow) (dfs : Inputs) (t : DataFrame) :
  run_transformations pw dfs = Ok t ->
  NoDup (ids_demographic dfs) /\
  Forall2 (fun i r => i <> "" -> txt r id = Some i) (kept_ids dfs) t /\
  Forall (fun r => excluded r = false) t /\
  (~ In "" (ids_demographic dfs) ->
   map (fun r => txt r id) t = map Some (kept_ids dfs)).
Proof.
  intros H. apply run_ids in H as [ND K]. split; [exact ND|].
  assert (W : forall i, i <> "" -> written_id i = i).
  { intros i Hi. unfold written_id. destruct (String.eqb i "") eqn:E;
      [|reflexivity]. now apply String.eqb_eq in E. }
  repeat split.
  - symmetry in K. apply map_eq_Forall2 in K.
    eapply Forall2_impl; [|exact K]. cbv beta. intros i r E Hi.
    now rewrite <- E, (W i Hi).
  - apply Forall_forall. intros r Hr.
    apply (in_map (fun r => txt r id)) in Hr. rewrite K in Hr.
    apply in_map_iff in Hr as (i & E & Hi).
    unfold excluded. rewrite <- E. apply filter_In in Hi as [_ Hi].
    unfold written_id. destruct (String.eqb i ""); [reflexivity|].
    now apply negb_true_iff.
  - intros Hn. rewrite K. apply map_ext_in. intros i Hi. f_equal. apply W.
    intros ->. apply Hn. now apply filter_In in Hi as [Hi _].
Qed.

(** C1, on a cohort whose excluded subject has an identifier written
    between no-break spaces. *)
Lemma C1_left_join_completeness_witness :
  let t := returned (run_transformations no_platform_pow padded_cohort_inputs) in
  NoDup (ids_demographic padded_cohort_inputs) /\
  Forall2 (fun i r => i <> "" -> txt r id = Some i) (kept_ids padded_cohort_inputs) t /\
  Forall (fun r => excluded r = false) t /\
  (~ In "" (ids_demographic padded_cohort_inputs) ->
   map (fun r => txt r id) t = map Some (kept_ids padded_cohort_inputs)).
Proof.
  exact (C1_left_join_completeness no_platform_pow padded_cohort_inputs _ eq_refl).
Defined.

(** The identifier between no-break spaces is normalized to "I-7", and
    its row is dropped. *)
Example padded_identifier_excluded :
  ids_demographic padded_cohort_inputs = ["C-1"; "I-7"; "C-2"]
  /\ kept_ids padded_cohort_inputs = ["C-1"; "C-2"]
  /\ map (fun r => txt r id)
       (returned (run_transformations no_platform_pow padded_cohort_inputs))
     = [Some "C-1"; Some "C-2"].
Proof. repeat split; reflexivity. Qed.

(** ** C2 *)

(** C2.  If two rows of the demographic, response, questionnaire or
    mortality source have the same normalized identifier,
    [run_transformations] raises pandas' [MergeError] and returns no
    table; the error is raised by the first merge one of whose sides has
    a duplicate: the response merge for the demographic and response
    sources, the questionnaire (mortality) merge when the sources before
    it have distinct identifiers. *)
Theorem C2_duplicate_identifier_raises
  (pw : PlatformPow) (dfs : Inputs) :
  ~ NoDup (ids_demographic dfs) \/ ~ NoDup (ids_response dfs) \/
  ~ NoDup (ids_questionnaire dfs) \/ ~ NoDup (ids_mortality dfs) ->
  exists step side,
    run_transformations pw dfs = Raise (MergeError step side) /\
    (~ NoDup (ids_demographic dfs) \/ ~ NoDup (ids_response dfs) ->
     step = StepResponse) /\
    (NoDup (ids_demographic dfs) -> NoDup (ids_response dfs) ->
     ~ NoDup (ids_questionnaire dfs) ->
     step = StepQuestionnaire /\ side = NotUniqueRight) /\
    (NoDup (ids_demographic dfs) -> NoDup (ids_response dfs) ->
     NoDup (ids_questionnaire dfs) ->
     step = StepMortality /\ side = NotUniqueRight).
Proof.
  intros H. unfold run_transformations. rewrite df_merge_spec. cbv zeta.
  rewrite keys_df_demographic, keys_df_response, keys_df_questionnaire,
    keys_df_mortality.
  assert (U : forall l, is_unique (map Some l) = false -> ~ NoDup l).
  { intros l E N. apply is_unique_Some in N. congruence. }
  assert (V : forall l, is_unique (map Some l) = true -> NoDup l)
    by (intros l; apply is_unique_Some).
  destruct (is_unique (map Some (ids_demographic dfs))) eqn:ED;
    [apply V in ED | apply U in ED];
    (destruct (is_unique (map Some (ids_response dfs))) eqn:ER;
     [apply V in ER | apply U in ER]).
  2-4: do 2 eexists; (split; [reflexivity|]);
       repeat split; intros; try reflexivity; contradiction.
  destruct (is_unique (map Some (ids_questionnaire dfs))) eqn:EQ;
    [apply V in EQ | apply U in EQ].
  2:{ do 2 eexists. split; [reflexivity|].
      repeat split; intros; try reflexivity; try contradiction.
      destruct H0; contradiction. }
  destruct (is_unique (map Some (ids_mortality dfs))) eqn:EM;
    [apply V in EM | apply U in EM].
  - destruct H as [H|[H|[H|H]]]; contradiction.
  - do 2 eexists. split; [reflexivity|].
    repeat split; intros; try reflexivity; try contradiction.
    destruct H0; contradiction.
Qed.

(** C2, on two demographic rows both normalized to "5", the second one
    written with a no-break space. *)
Lemma C2_duplicate_identifier_raises_witness :
  exists step side,
    run_transformations no_platform_pow duplicate_inputs
    = Raise (MergeError step side) /\
    (~ NoDup (ids_demographic duplicate_inputs) \/
     ~ NoDup (ids_response duplicate_inputs) -> step = StepResponse) /\
    (NoDup (ids_demographic duplicate_inputs) ->
     NoDup (ids_response duplicate_inputs) ->
     ~ NoDup (ids_questionnaire duplicate_inputs) ->
     step = StepQuestionnaire /\ side = NotUniqueRight) /\
    (NoDup (ids_demographic duplicate_inputs) ->
     NoDup (ids_response duplicate_inputs) ->
     NoDup (ids_questionnaire duplicate_inputs) ->
     step = StepMortality /\ side = NotUniqueRight).
Proof.
  apply (C2_duplicate_identifier_raises no_platform_pow duplicate_inputs).
  left. intros H. apply is_unique_Some in H. discriminate H.
Defined.

(** The two identifiers, "5" and "5" followed by a no-break space, are
    one after normalization, and the first merge fails on its left
    side. *)
Example no_break_space_duplicate :
  ids_demographic duplicate_inputs = ["5"; "5"]
  /\ forall pw,
       run_transformations pw duplicate_inputs
       = Raise (MergeError StepResponse NotUniqueLeft).
Proof. split; reflexivity. Qed.

Section ListFacts2.

Context {A B : Type}.

Lemma Forall2_map_left {C : Type} (P : C -> B -> Prop) (f : A -> C)
  (l : list A) (l' : list B) :
  Forall2 (fun a b => P (f a) b) l l' -> Forall2 P (map f l) l'.
Proof. induction 1; simpl; constructor; assumption. Qed.

Lemma Forall2_In_right (P : A -> B -> Prop) (l : list A) (l' : list B) (b : B) :
  Forall2 P l l' -> In b l' -> exists a, In a l /\ P a b.
Proof.
  induction 1 as [|a b' l l' H _ IH]; simpl; [intros []|].
  intros [<-|Hb].
  - exists a. split; [now left | exact H].
  - destruct (IH Hb) as (a' & Ha & Hp). exists a'. split; [now right | exact Hp].
Qed.

End ListFacts2.

Lemma sentinel_not_empty (col : TxtCol) : sentinel col <> "".
Proof. destruct col; discriminate. Qed.

Lemma fillna_txt_filled (v : option string) (col : TxtCol) :
  exists s, fillna_txt (strip_blank v) (sentinel col) = Some s /\ s <> "".
Proof.
  destruct v as [s|]; simpl.
  - destruct (String.eqb (Py.strip s) "") eqn:E; simpl.
    + exists (sentinel col). split; [reflexivity | apply sentinel_not_empty].
    + exists (Py.strip s). split; [reflexivity|].
      intros H. rewrite H in E. discriminate.
  - exists (sentinel col). split; [reflexivity | apply sentinel_not_empty].
Qed.

Lemma prefill_rows (d : DataFrame) :
  Forall2
    (fun r r' =>
       (forall col, txt r' col
                    = fillna_txt (strip_blank (txt r col)) (sentinel col)) /\
       (forall col, num r' col
                    = fillna_num (num r col)
                        (F.round1 (median (map (fun x => num x col) (prefill d))))))
    (prefill d) (reconcile d).
Proof.
  unfold prefill, project. apply Forall2_map_left.
  eapply Forall2_impl; [|apply reconcile_rows].
  intros r r' [Ht Hn]. split; intros col.
  - rewrite Ht. do 2 f_equal. symmetry. exact (txt_project_row r col).
  - rewrite Hn, map_map. f_equal.
    + symmetry. exact (num_project_row r col).
    + do 2 f_equal. apply map_ext. intros x. symmetry.
      exact (num_project_row x col).
Qed.

(** ** C3 *)

(** C3, counterexample.  Nobody in the sample has a fourth systolic
    reading: the column TAS-4 has no median, and the returned table keeps
    a missing value in it. *)
Lemma C3_column_without_values_stays_missing :
  map Response.BPXSY4 (response single_subject_inputs) = [nan] /\
  forall pw, exists t,
    run_transformations pw single_subject_inputs = Ok t /\
    map (fun r => is_nan (num r TAS_4)) t = [true].
Proof.
  split; [reflexivity|]. intros pw. eexists. split; reflexivity.
Qed.

(** C3, amended.  Whenever [run_transformations] returns a table, its
    rows are those of the post-exclusion, post-projection frame, in
    order, where every text cell is trimmed and, when missing or empty,
    replaced by the sentinel of its column, and every missing numeric
    cell is replaced by the median of its column over that frame, rounded
    to 1 decimal.  No text cell of the table is missing or empty, and no
    cell of a numeric column is missing when that rounded median is not
    itself missing. *)
Theorem C3_total_fill_in
  (pw : PlatformPow) (dfs : Inputs) (t : DataFrame) :
  run_transformations pw dfs = Ok t ->
  exists d,
    derived pw dfs = Ok d /\
    let median_of col := F.round1 (median (map (fun x => num x col) (prefill d))) in
    Forall2
      (fun r r' =>
         (forall col, txt r' col
                      = fillna_txt (strip_blank (txt r col)) (sentinel col)) /\
         (forall col, num r' col
                      = if is_nan (num r col) then median_of col else num r col))
      (prefill d) t /\
    (forall r' col, In r' t -> exists s, txt r' col = Some s /\ s <> "") /\
    (forall r' col, In r' t -> is_nan (median_of col) = false ->
                    is_nan (num r' col) = false).
Proof.
  intros H. apply run_transformations_derived in H as (d & Hd & ->).
  exists d. split; [exact Hd|]. cbv zeta.
  pose proof (prefill_rows d) as R. split; [exact R|]. split.
  - intros r' col Hr.
    destruct (Forall2_In_right _ _ _ _ R Hr) as (r & _ & Ht & _).
    rewrite Ht. apply fillna_txt_filled.
  - intros r' col Hr Hm.
    destruct (Forall2_In_right _ _ _ _ R Hr) as (r & _ & _ & Hn).
    rewrite Hn. unfold fillna_num.
    destruct (is_nan (num r col)) eqn:E; [exact Hm | exact E].
Qed.

(** C3, on the three-subject cohort. *)
Lemma C3_total_fill_in_witness :
  let t := returned (run_transformations no_platform_pow cohort_inputs) in
  exists d,
    derived no_platform_pow cohort_inputs = Ok d /\
    let median_of col := F.round1 (median (map (fun x => num x col) (prefill d))) in
    Forall2
      (fun r r' =>
         (forall col, txt r' col
                      = fillna_txt (strip_blank (txt r col)) (sentinel col)) /\
         (forall col, num r' col
                      = if is_nan (num r col) then median_of col else num r col))
      (prefill d) t /\
    (forall r' col, In r' t -> exists s, txt r' col = Some s /\ s <> "") /\
    (forall r' col, In r' t -> is_nan (median_of col) = false ->
                    is_nan (num r' col) = false).
Proof.
  exact (C3_total_fill_in no_platform_pow cohort_inputs _ eq_refl).
Defined.

Section Frames.

Lemma Forall2_and {A B : Type} (P Q : A -> B -> Prop) (l : list A) (l' : list B) :
  Forall2 P l l' -> Forall2 Q l l' -> Forall2 (fun a b => P a b /\ Q a b) l l'.
Proof.
  induction 1; intros H'; inversion H'; subst; constructor; auto.
Qed.

Lemma Forall2_compose {A B C : Type} (P : A -> B -> Prop) (Q : B -> C -> Prop)
  (l1 : list A) (l2 : list B) (l3 : list C) :
  Forall2 P l1 l2 -> Forall2 Q l2 l3 ->
  Forall2 (fun a c => exists b, P a b /\ Q b c) l1 l3.
Proof.
  intros H. revert l3. induction H as [|a b l1 l2 Hab _ IH]; intros l3 H';
    inversion H'; subst; constructor; eauto.
Qed.

Lemma NumCol_beq_neq (k k' : NumCol) : k <> k' -> NumCol_beq k k' = false.
Proof.
  intros H. destruct (NumCol_beq k k') eqn:E; [|reflexivity].
  exfalso. apply H. now apply internal_NumCol_dec_bl.
Qed.

Lemma TxtCol_beq_neq (c c' : TxtCol) : c <> c' -> TxtCol_beq c c' = false.
Proof.
  intros H. destruct (TxtCol_beq c c') eqn:E; [|reflexivity].
  exfalso. apply H. now apply internal_TxtCol_dec_bl.
Qed.

Lemma same_but_loc_assign (mask : Row -> bool) (c : TxtCol) (v : string)
  (t : DataFrame) :
  Forall2 (same_but [] [c]) t (loc_assign mask c v t).
Proof.
  apply Forall2_map_right. intros r _. split; intros x Hx.
  - now destruct (mask r).
  - destruct (mask r); [|reflexivity]. simpl.
    rewrite TxtCol_beq_neq; [reflexivity|]. intros ->. apply Hx. now left.
Qed.

Lemma same_but_assign_txt (c : TxtCol) (f : Row -> option string)
  (t : DataFrame) :
  Forall2 (same_but [] [c]) t (assign_txt c f t).
Proof.
  apply Forall2_map_right. intros r _. split; intros x Hx; [reflexivity|].
  simpl. rewrite TxtCol_beq_neq; [reflexivity|]. intros ->. apply Hx. now left.
Qed.

Lemma same_but_assign_num (k : NumCol) (f : Row -> float) (t : DataFrame) :
  Forall2 (same_but [k] []) t (assign_num k f t).
Proof.
  apply Forall2_map_right. intros r _. split; intros x Hx; [|reflexivity].
  simpl. rewrite NumCol_beq_neq; [reflexivity|]. intros ->. apply Hx. now left.
Qed.

Lemma same_but_trans (ks ks' : list NumCol) (cs cs' : list TxtCol)
  (t1 t2 t3 : DataFrame) :
  Forall2 (same_but ks cs) t1 t2 -> Forall2 (same_but ks' cs') t2 t3 ->
  Forall2 (same_but (ks ++ ks') (cs ++ cs')) t1 t3.
Proof.
  intros H1 H2. eapply Forall2_impl; [|exact (Forall2_compose _ _ _ _ _ H1 H2)].
  intros a c (b & [N1 T1] & [N2 T2]). split; intros x Hx.
  - rewrite N2, N1; [reflexivity| |]; intros Hin; apply Hx, in_or_app; auto.
  - rewrite T2, T1; [reflexivity| |]; intros Hin; apply Hx, in_or_app; auto.
Qed.

Lemma same_but_derive_categoria_ACR (t : DataFrame) :
  Forall2 (same_but [] [categoria_ACR]) t (derive_categoria_ACR t).
Proof.
  unfold derive_categoria_ACR.
  eapply Forall2_impl;
    [|exact (same_but_trans _ _ _ _ _ _ _
               (same_but_trans _ _ _ _ _ _ _
                  (same_but_trans _ _ _ _ _ _ _
                     (same_but_assign_txt _ _ _) (same_but_loc_assign _ _ _ _))
                  (same_but_loc_assign _ _ _ _))
               (same_but_loc_assign _ _ _ _))].
  intros a b [Hn Ht]. split; intros x Hx.
  - apply Hn. intros [].
  - apply Ht. simpl. intros [<-|[<-|[<-|[<-|[]]]]]; apply Hx; now left.
Qed.

Lemma same_but_derive_categoria_eGFR (t : DataFrame) :
  Forall2 (same_but [] [categoria_eGFR]) t (derive_categoria_eGFR t).
Proof.
  unfold derive_categoria_eGFR.
  eapply Forall2_impl;
    [|exact (same_but_trans _ _ _ _ _ _ _
              (same_but_trans _ _ _ _ _ _ _
               (same_but_trans _ _ _ _ _ _ _
                (same_but_trans _ _ _ _ _ _ _
                 (same_but_trans _ _ _ _ _ _ _
                  (same_but_trans _ _ _ _ _ _ _
                     (same_but_assign_txt _ _ _) (same_but_loc_assign _ _ _ _))
                  (same_but_loc_assign _ _ _ _))
                 (same_but_loc_assign _ _ _ _))
                (same_but_loc_assign _ _ _ _))
               (same_but_loc_assign _ _ _ _))
              (same_but_loc_assign _ _ _ _))].
  intros a b [Hn Ht]. split; intros x Hx.
  - apply Hn. intros [].
  - apply Ht. simpl.
    intros [<-|[<-|[<-|[<-|[<-|[<-|[<-|[]]]]]]]]; apply Hx; now left.
Qed.

End Frames.

Lemma derive_rows (pw : PlatformPow) (m d : DataFrame) :
  derive pw m = Ok d -> Forall2 (derive_rel pw) m d.
Proof.
  unfold derive.
  destruct (derive_eGFR pw _) as [tC|] eqn:E; [|discriminate].
  simpl. intros H. injection H as <-.
  set (tA := derive_ACR m) in *. set (tB := derive_categoria_ACR tA) in *.
  pose proof (derive_ACR_rows m) as HA. fold tA in HA.
  pose proof (same_but_derive_categoria_ACR tA) as HB. fold tB in HB.
  pose proof (proj1 (map_eq_Forall2 _ _ _ _)
                (eq_sym (categoria_ACR_row tA))) as HB'.
  fold tB in HB'.
  pose proof (derive_eGFR_rows pw tB tC E) as HC.
  pose proof (same_but_derive_categoria_eGFR tC) as HD.
  pose proof (proj1 (map_eq_Forall2 _ _ _ _)
                (eq_sym (categoria_eGFR_row tC))) as HD'.
  pose proof (Forall2_compose _ _ _ _ _ HA
                (Forall2_compose _ _ _ _ _ (Forall2_and _ _ _ _ HB HB')
                   (Forall2_compose _ _ _ _ _ HC (Forall2_and _ _ _ _ HD HD'))))
    as R.
  eapply Forall2_impl; [|exact R]. clear.
  intros r r' (a & (A1 & A2 & A3 & A4) & b & ([B1 B2] & B3) & c &
                 ((e & C1 & C2) & C3 & C4) & [D1 D2] & D3).
  cbv beta in *.
  assert (Kcu : num r' creatinina_urinaria = num a creatinina_urinaria).
  { rewrite D1, C4, B1; [reflexivity| intros [] | reflexivity | intros []]. }
  assert (Kacr : num r' ACR = num a ACR).
  { rewrite D1, C4, B1; [reflexivity| intros [] | reflexivity | intros []]. }
  assert (Kegfr : num r' eGFR = num c eGFR) by (apply D1; intros []).
  unfold derive_rel. repeat split.
  - now rewrite Kcu.
  - now rewrite Kacr, Kcu.
  - rewrite Kacr, D2, C3; [symmetry; exact B3|].
    intros [H|[]]; discriminate H.
  - exists e. split; [|now rewrite Kegfr].
    rewrite <- C1. rewrite !B1, !B2, !A3, !A4;
      try reflexivity; try solve [intros []];
      try solve [intros [H|[]]; discriminate H].
  - rewrite Kegfr. symmetry. exact D3.
  - intros k Hk. rewrite D1, C4, B1, A4; try reflexivity; try solve [intros []].
    + apply NumCol_beq_neq. intros ->. apply Hk. simpl. auto.
    + apply NumCol_beq_neq. intros ->. apply Hk. simpl. auto.
    + apply NumCol_beq_neq. intros ->. apply Hk. simpl. auto.
  - intros x Hx. rewrite D2, C3, B2, A3; try reflexivity.
    + intros [<-|[]]. apply Hx. simpl. auto.
    + intros [<-|[]]. apply Hx. simpl. auto.
Qed.

Module DivFacts.
Import FloatFacts.
Local Open Scope float_scope.

Lemma SF2Prim_inf (x : float) (s : bool) :
  Prim2SF x = S754_infinity s -> x = if s then neg_infinity else infinity.
Proof. intros H. apply Prim2SF_inj. rewrite H. now destruct s. Qed.

Lemma SF_nan (x : float) : Prim2SF x = S754_nan -> x = nan.
Proof. intros H. apply Prim2SF_inj. now rewrite H. Qed.

Lemma div_nan_l (y : float) : nan / y = nan.
Proof. apply SF_nan. rewrite div_spec. reflexivity. Qed.

Lemma div_nan_r (x : float) : x / nan = nan.
Proof.
  apply SF_nan. rewrite div_spec. change (Prim2SF nan) with S754_nan.
  now destruct (Prim2SF x).
Qed.

Lemma is_zero_spec (x : float) :
  is_zero x = true -> exists s, Prim2SF x = S754_zero s.
Proof.
  unfold is_zero. rewrite eqb_spec. change (Prim2SF zero) with (S754_zero false).
  unfold SFeqb. destruct (Prim2SF x) as [s|[]| |[] m e]; simpl; try discriminate.
  intros _. now exists s.
Qed.

Lemma is_zero_false_spec (x : float) :
  is_zero x = false -> forall s, Prim2SF x <> S754_zero s.
Proof.
  unfold is_zero. rewrite eqb_spec. change (Prim2SF zero) with (S754_zero false).
  intros H s E. rewrite E in H. discriminate.
Qed.

(** Zero divided by zero is missing. *)
Lemma div_zero_zero (a d : float) :
  is_zero a = true -> is_zero d = true -> a / d = nan.
Proof.
  intros Ha Hd. apply is_zero_spec in Ha as [sa Ha], Hd as [sd Hd].
  apply SF_nan. rewrite div_spec, Ha, Hd. reflexivity.
Qed.

(** Anything else divided by zero is an infinity. *)
Lemma div_by_zero (a d : float) :
  is_nan a = false -> is_zero a = false -> is_zero d = true ->
  a / d = infinity \/ a / d = neg_infinity.
Proof.
  intros Hn Ha Hd. apply is_zero_spec in Hd as [sd Hd].
  apply is_nan_false in Hn. pose proof (is_zero_false_spec a Ha) as Hz.
  assert (E : exists s, Prim2SF (a / d) = S754_infinity s).
  { rewrite div_spec, Hd. unfold SF64div, SFdiv.
    destruct (Prim2SF a) as [sa|sa| |sa ma ea]; try congruence; eauto.
  }
  destruct E as [[] E]; apply SF2Prim_inf in E; auto.
Qed.

End DivFacts.

(** ** C4 *)

(** C4, counterexample.  With an albumin of 12.5 and a urinary creatinine
    of 3, the creatinine rescales to 0.0 and the ratio is +infinity, which
    is not a missing value (and falls in tier A3). *)
Lemma C4_zero_denominator_gives_infinity :
  map (fun r => (num r creatinina_urinaria, num r ACR, txt r categoria_ACR))
    (derive_categoria_ACR (derive_ACR [dilute_urine_row]))
  = [(0%float, infinity, Some "A3")]
  /\ is_nan infinity = false.
Proof. split; reflexivity. Qed.

(** C4, amended.  For every row of the merged frame the urinary
    creatinine is multiplied by 0.01 and rounded to 1 decimal, and the
    ratio is the albumin divided by this rescaled creatinine, rounded to
    1 decimal; no error is raised.  The ratio is missing when either
    operand is missing, and when the albumin and the rescaled creatinine
    are both zero; when the rescaled creatinine is zero and the albumin is
    neither missing nor zero, the ratio is an infinity. *)
Theorem C4_ratio_derivation (t : DataFrame) :
  Forall2
    (fun r r' =>
       let alb := num r albumina_urinaria in
       let creat := F.round1 (num r creatinina_urinaria * 0.01)%float in
       num r' creatinina_urinaria = creat /\
       num r' albumina_urinaria = alb /\
       num r' ACR = F.round1 (alb / creat)%float /\
       (is_nan alb = true \/ is_nan (num r creatinina_urinaria) = true ->
        is_nan (num r' ACR) = true) /\
       (is_zero creat = true -> is_zero alb = true ->
        is_nan (num r' ACR) = true) /\
       (is_zero creat = true -> is_nan alb = false -> is_zero alb = false ->
        is_infinity (num r' ACR) = true))
    t (derive_ACR t).
Proof.
  eapply Forall2_impl; [|apply derive_ACR_rows].
  intros r r' (H1 & H2 & _ & H4). cbv zeta.
  rewrite H1 in H2. rewrite H2.
  split; [exact H1|]. split; [now apply H4|]. split; [reflexivity|].
  repeat split.
  - intros [Hn|Hn]; apply FloatFacts.is_nan_true in Hn; rewrite Hn.
    + now rewrite DivFacts.div_nan_l.
    + change (F.round1 (nan * 0.01)%float) with nan.
      now rewrite DivFacts.div_nan_r.
  - intros Hc Ha. now rewrite (DivFacts.div_zero_zero _ _ Ha Hc).
  - intros Hc Hn Ha.
    destruct (DivFacts.div_by_zero _ _ Hn Ha Hc) as [E|E]; now rewrite E.
Qed.

(** C4, on the dilute sample. *)
Lemma C4_ratio_derivation_witness :
  Forall2
    (fun r r' =>
       let alb := num r albumina_urinaria in
       let creat := F.round1 (num r creatinina_urinaria * 0.01)%float in
       num r' creatinina_urinaria = creat /\
       num r' albumina_urinaria = alb /\
       num r' ACR = F.round1 (alb / creat)%float /\
       (is_nan alb = true \/ is_nan (num r creatinina_urinaria) = true ->
        is_nan (num r' ACR) = true) /\
       (is_zero creat = true -> is_zero alb = true ->
        is_nan (num r' ACR) = true) /\
       (is_zero creat = true -> is_nan alb = false -> is_zero alb = false ->
        is_infinity (num r' ACR) = true))
    [dilute_urine_row] (derive_ACR [dilute_urine_row]).
Proof. exact (C4_ratio_derivation [dilute_urine_row]). Defined.

(** ** C5 *)

(** C5.  The stage written by lines 135-138 is the three-tier function
    [tier_ACR] of the row's ratio, which these lines leave unchanged:
    a ratio below 30 gives "A1", from 30 to 300 "A2", above 300 "A3", and
    a missing ratio gives a missing stage; 25 gives "A1", 30 and 300 give
    "A2", 301 gives "A3". *)
Theorem C5_categoria_ACR_three_tiers :
  (forall t,
      map (fun r => txt r categoria_ACR) (derive_categoria_ACR t)
      = map (fun r => tier_ACR (num r ACR)) t
      /\ map (fun r => num r ACR) (derive_categoria_ACR t)
         = map (fun r => num r ACR) t) /\
  (forall x, (x <? 30)%float = true -> tier_ACR x = Some "A1") /\
  (forall x, (30 <=? x)%float = true -> (x <=? 300)%float = true ->
             tier_ACR x = Some "A2") /\
  (forall x, (300 <? x)%float = true -> tier_ACR x = Some "A3") /\
  (forall x, is_nan x = true -> tier_ACR x = None) /\
  tier_ACR 25 = Some "A1" /\ tier_ACR 30 = Some "A2" /\
  tier_ACR 300 = Some "A2" /\ tier_ACR 301 = Some "A3".
Proof.
  split.
  { intros t. split; [apply categoria_ACR_row|].
    unfold derive_categoria_ACR.
    now rewrite !num_loc_assign, num_assign_txt. }
  repeat split; try reflexivity; intros x;
    destruct (ACR_masks x) as [H|[H|[H|H]]];
    destruct H as (H1 & H2 & H3 & H4 & H5); unfold tier_ACR;
    rewrite ?H1, ?H2, ?H3, ?H4; simpl; congruence.
Qed.

(** C5, at the ratio 25. *)
Lemma C5_categoria_ACR_three_tiers_witness : tier_ACR 25 = Some "A1".
Proof.
  destruct C5_categoria_ACR_three_tiers as (_ & H & _).
  exact (H 25%float eq_refl).
Defined.

(** ** C7 *)

(** C7.  The stage written by lines 152-158 is the six-tier function
    [tier_eGFR] of the row's filtration score, which these lines leave
    unchanged: at least 90 gives "G1", [60,90) "G2", [45,60) "G3a",
    [30,45) "G3b", [15,30) "G4", below 15 "G5", and a missing score gives a
    missing stage; 90 gives "G1", 89.9 "G2", 44.9 "G3b", 14.9 "G5". *)
Theorem C7_categoria_eGFR_six_tiers :
  (forall t,
      map (fun r => txt r categoria_eGFR) (derive_categoria_eGFR t)
      = map (fun r => tier_eGFR (num r eGFR)) t
      /\ map (fun r => num r eGFR) (derive_categoria_eGFR t)
         = map (fun r => num r eGFR) t) /\
  (forall x, (90 <=? x)%float = true -> tier_eGFR x = Some "G1") /\
  (forall x, (60 <=? x)%float = true -> (x <? 90)%float = true ->
             tier_eGFR x = Some "G2") /\
  (forall x, (45 <=? x)%float = true -> (x <? 60)%float = true ->
             tier_eGFR x = Some "G3a") /\
  (forall x, (30 <=? x)%float = true -> (x <? 45)%float = true ->
             tier_eGFR x = Some "G3b") /\
  (forall x, (15 <=? x)%float = true -> (x <? 30)%float = true ->
             tier_eGFR x = Some "G4") /\
  (forall x, (x <? 15)%float = true -> tier_eGFR x = Some "G5") /\
  (forall x, is_nan x = true -> tier_eGFR x = None) /\
  tier_eGFR 90 = Some "G1" /\ tier_eGFR 89.9 = Some "G2" /\
  tier_eGFR 44.9 = Some "G3b" /\ tier_eGFR 14.9 = Some "G5".
Proof.
  split.
  { intros t. split; [apply categoria_eGFR_row|].
    unfold derive_categoria_eGFR.
    now rewrite !num_loc_assign, num_assign_txt. }
  repeat split; try reflexivity; intros x;
    (destruct (eGFR_masks x) as [[N H]|(N & L & M1 & M2 & M3 & M4)];
     [ destruct (H 15%float) as [A1 B1], (H 30%float) as [A2 B2],
         (H 45%float) as [A3 B3], (H 60%float) as [A4 B4],
         (H 90%float) as [A5 B5];
       unfold tier_eGFR; rewrite ?A1, ?A2, ?A3, ?A4, ?A5, ?B1, ?B2, ?B3, ?B4, ?B5;
       simpl; congruence
     | pose proof (L 15%float eq_refl) as A1;
       pose proof (L 30%float eq_refl) as A2;
       pose proof (L 45%float eq_refl) as A3;
       pose proof (L 60%float eq_refl) as A4;
       pose proof (L 90%float eq_refl) as A5; clear L;
       unfold tier_eGFR; rewrite ?A1, ?A2, ?A3, ?A4, ?A5;
       destruct (90 <=? x)%float eqn:B5, (60 <=? x)%float eqn:B4,
         (45 <=? x)%float eqn:B3, (30 <=? x)%float eqn:B2,
         (15 <=? x)%float eqn:B1; simpl; intros;
       try reflexivity; try discriminate; try congruence;
       try (specialize (M1 eq_refl); discriminate);
       try (specialize (M2 eq_refl); discriminate);
       try (specialize (M3 eq_refl); discriminate);
       try (specialize (M4 eq_refl); discriminate) ]).
Qed.

(** C7, at the score 89.9. *)
Lemma C7_categoria_eGFR_six_tiers_witness : tier_eGFR 89.9 = Some "G2".
Proof.
  destruct C7_categoria_eGFR_six_tiers as (_ & _ & H & _).
  exact (H 89.9%float eq_refl eq_refl).
Defined.

(** ** C6 *)

(** C6, counterexample.  The row of a woman (code 2) aged 50 with a serum
    creatinine of 0 has no missing operand and a recognized sex, but
    [0.0 ** -0.241] raises [ZeroDivisionError]: the run returns no table,
    hence no score, whatever the platform's [pow]. *)
Lemma C6_zero_creatinine_raises :
  map (fun r => (Response.LBXSCR r)) (response zero_creatinine_inputs) = [0%float]
  /\ map (fun r => (Dietary.RIDAGEYR r, Dietary.RIAGENDR r))
       (dietary zero_creatinine_inputs) = [(50%float, 2%float)]
  /\ forall pw,
       calc_egfr pw 0 50 (Some "Mujer") = Raise ZeroDivisionError
       /\ run_transformations pw zero_creatinine_inputs = Raise ZeroDivisionError.
Proof. repeat split. Qed.

(** C6, amended.  The sex label is "Hombre" for code 1, "Mujer" for code
    2 and missing for any other code.  For a woman (a man), with
    rate = creat / 0.7 (0.9): whenever Python's three exponentiations
    min(rate,1) ** -0.241 (-0.302), max(rate,1) ** -1.2 and 0.9938 ** age
    return floats, [calc_egfr] returns 142 times their product times 1.012
    (1.0); for any other or missing sex it returns the missing value
    without raising.  The score of a row of the derived frame is this
    result rounded to 1 decimal. *)
Theorem C6_filtration_score (pw : PlatformPow) :
  (forall v,
      map_codes (table_of reco_4 sexo) v
      = if (v =? 1)%float then Some "Hombre"
        else if (v =? 2)%float then Some "Mujer" else None) /\
  (forall creat age p1 p2 p3,
      float_pow pw (py_min (creat / 0.7) 1) (-0.241) = Ok p1 ->
      float_pow pw (py_max (creat / 0.7) 1) (-1.2) = Ok p2 ->
      float_pow pw 0.9938 age = Ok p3 ->
      calc_egfr pw creat age (Some "Mujer")
      = Ok (142 * p1 * p2 * p3 * 1.012))%float /\
  (forall creat age p1 p2 p3,
      float_pow pw (py_min (creat / 0.9) 1) (-0.302) = Ok p1 ->
      float_pow pw (py_max (creat / 0.9) 1) (-1.2) = Ok p2 ->
      float_pow pw 0.9938 age = Ok p3 ->
      calc_egfr pw creat age (Some "Hombre")
      = Ok (142 * p1 * p2 * p3 * 1.0))%float /\
  (forall creat age gender,
      gender <> Some "Mujer" -> gender <> Some "Hombre" ->
      calc_egfr pw creat age gender = Ok nan) /\
  (forall m d,
      derive pw m = Ok d ->
      Forall2
        (fun r r' =>
           exists e,
             calc_egfr pw (num r creatinina_serica) (num r edad_anos)
               (txt r sexo) = Ok e
             /\ num r' eGFR = F.round1 e) m d).
Proof.
  split; [|split; [|split; [|split]]].
  - intros v. unfold map_codes. simpl.
    destruct (v =? 1)%float; [reflexivity|]. now destruct (v =? 2)%float.
  - intros creat age p1 p2 p3 H1 H2 H3. unfold calc_egfr. simpl.
    now rewrite H1, H2, H3.
  - intros creat age p1 p2 p3 H1 H2 H3. unfold calc_egfr. simpl.
    now rewrite H1, H2, H3.
  - intros creat age gender HM HH. unfold calc_egfr.
    destruct (key_eqb gender (Some "Mujer")) eqn:E1;
      [apply key_eqb_eq in E1; contradiction|].
    destruct (key_eqb gender (Some "Hombre")) eqn:E2;
      [apply key_eqb_eq in E2; contradiction|].
    reflexivity.
  - intros m d H. eapply Forall2_impl; [|exact (derive_rows pw m d H)].
    intros r r' (_ & _ & _ & He & _). exact He.
Qed.

(** C6, on a woman whose creatinine equals kappa, at age 0: every
    exponentiation is one of CPython's exact cases. *)
Lemma C6_filtration_score_witness :
  calc_egfr no_platform_pow 0.7 0 (Some "Mujer")
  = Ok (142 * 1 * 1 * 1 * 1.012)%float.
Proof.
  destruct (C6_filtration_score no_platform_pow) as (_ & H & _).
  exact (H 0.7 0 1 1 1 eq_refl eq_refl eq_refl)%float.
Defined.

Section Failures.

Variable pw : PlatformPow.

Lemma float_pow_failure (v w : float) (e : Failure) :
  float_pow pw v w = Raise e -> arithmetic_failure e.
Proof.
  unfold float_pow, arithmetic_failure.
  repeat match goal with
         | |- context [if ?b then _ else _] => destruct b
         | |- context [match pw ?a ?b with _ => _ end] => destruct (pw a b)
         end;
    intros H; try discriminate H; injection H as <-; auto.
Qed.

Lemma calc_egfr_failure (creat age : float) (gender : option string)
  (e : Failure) :
  calc_egfr pw creat age gender = Raise e -> arithmetic_failure e.
Proof.
  unfold calc_egfr.
  destruct (if key_eqb gender (Some "Mujer") then _ else _)
    as [[[kappa alpha] factor]|]; [|discriminate].
  destruct (float_pow pw (py_min _ _) alpha) as [p1|e1] eqn:E1; simpl.
  2:{ intros H. injection H as <-. exact (float_pow_failure _ _ _ E1). }
  destruct (float_pow pw (py_max _ _) _) as [p2|e2] eqn:E2; simpl.
  2:{ intros H. injection H as <-. exact (float_pow_failure _ _ _ E2). }
  destruct (float_pow pw _ age) as [p3|e3] eqn:E3; simpl.
  2:{ intros H. injection H as <-. exact (float_pow_failure _ _ _ E3). }
  discriminate.
Qed.

Lemma derive_eGFR_failure (t : DataFrame) (e : Failure) :
  derive_eGFR pw t = Raise e -> arithmetic_failure e.
Proof.
  unfold derive_eGFR. induction t as [|x t IH]; simpl; [discriminate|].
  destruct (calc_egfr pw _ _ _) as [v|e'] eqn:C; simpl.
  - destruct (mapM _ t) as [bs|e'']; simpl; [discriminate|].
    intros H. injection H as <-. now apply IH.
  - intros H. injection H as <-. exact (calc_egfr_failure _ _ _ _ C).
Qed.

Lemma derive_failure (m : DataFrame) (e : Failure) :
  derive pw m = Raise e -> arithmetic_failure e.
Proof.
  unfold derive. destruct (derive_eGFR pw _) as [t'|e'] eqn:E; simpl;
    [discriminate|].
  intros H. injection H as <-. exact (derive_eGFR_failure _ _ E).
Qed.

End Failures.

(** ** C8 *)

Section DietaryFacts.

Lemma keys_df_dietary (dfs : Inputs) :
  map key (df_dietary (dietary dfs)) = map Some (ids_dietary dfs).
Proof. unfold df_dietary, ids_dietary. now rewrite !map_map. Qed.

Lemma sex_label_codes (v : float) :
  map_codes (table_of reco_4 sexo) v = sex_label v.
Proof.
  unfold map_codes, sex_label. simpl.
  destruct (v =? 1)%float; [reflexivity|].
  destruct (v =? 2)%float; reflexivity.
Qed.

Lemma lookup_In (t : DataFrame) (k : option string) :
  (exists r, lookup t k = Some r) <-> In k (map key t).
Proof.
  unfold lookup. split.
  - intros [r H]. apply find_some in H as [H K].
    apply key_eqb_eq in K. subst k. now apply in_map.
  - intros H. apply in_map_iff in H as (r & <- & H).
    destruct (find (fun x => key_eqb (key x) (key r)) t) as [x|] eqn:E;
      [eauto|].
    apply (find_none _ _ E) in H. now rewrite key_eqb_refl in H.
Qed.

(** The row of the dietary frame found under an identifier is the one
    made from the first source row with this identifier. *)
Lemma lookup_df_dietary (t : list Dietary.row) (i : string) :
  match find (fun x => String.eqb (clean_id (Dietary.SEQN_new x)) i) t with
  | Some x =>
      exists r, lookup (df_dietary t) (Some i) = Some r /\
                key r = Some i /\
                num r edad_anos = Dietary.RIDAGEYR x /\
                txt r sexo = sex_label (Dietary.RIAGENDR x)
  | None => lookup (df_dietary t) (Some i) = None
  end.
Proof.
  unfold lookup. induction t as [|x t IH]; simpl; [reflexivity|].
  destruct (String.eqb (clean_id (Dietary.SEQN_new x)) i) eqn:E; [|exact IH].
  apply String.eqb_eq in E. eexists. split; [reflexivity|].
  unfold key. simpl. rewrite E, sex_label_codes. auto.
Qed.

Lemma Forall2_filter {A B : Type} (R : A -> B -> Prop)
  (f : A -> bool) (g : B -> bool) (l : list A) (l' : list B) :
  Forall2 R l l' -> (forall a b, R a b -> f a = g b) ->
  Forall2 R (filter f l) (filter g l').
Proof.
  intros H E. induction H as [|a b l l' Hab _ IH]; simpl; [constructor|].
  rewrite (E a b Hab). destruct (g b); [constructor|]; assumption.
Qed.

(** The age and the sex of a linked row, from the dietary source. *)
Lemma linked_dietary (dfs : Inputs) :
  Forall2
    (fun a l =>
       txt l id = Some (clean_id (Demographic.SEQN_new a)) /\
       match first_dietary dfs (clean_id (Demographic.SEQN_new a)) with
       | Some x => num l edad_anos = Dietary.RIDAGEYR x
                   /\ txt l sexo = sex_label (Dietary.RIAGENDR x)
       | None => num l edad_anos = nan /\ txt l sexo = None
       end)
    (demographic dfs)
    (map (linked_row dfs) (df_demographic (demographic dfs))).
Proof.
  unfold df_demographic. rewrite map_map. apply Forall2_map_right.
  intros a _. split; [reflexivity|].
  unfold linked_row. rewrite lookup_drop_duplicates.
  match goal with
  | |- context [lookup (df_dietary _) (key ?l)] =>
      change (key l) with (Some (clean_id (Demographic.SEQN_new a)))
  end.
  unfold first_dietary.
  pose proof (lookup_df_dietary (dietary dfs)
                (clean_id (Demographic.SEQN_new a))) as L.
  destruct (find _ (dietary dfs)) as [x|].
  - destruct L as (r & -> & _ & Hn & Ht). split; [exact Hn|exact Ht].
  - rewrite L. split; reflexivity.
Qed.

End DietaryFacts.

(** C8.  The dietary frame kept by [drop_duplicates] has pairwise
    distinct identifiers, which are those of the dietary source; under
    each of them it has exactly one row, made from the first row of the
    source, in input order, with this normalized identifier.  The dietary
    merge raises no cardinality error, in [df_merge] or in
    [run_transformations].  The age and the sex joined to the row of a
    demographic record are those of the first dietary row of the source
    with its identifier, and missing when there is none; in the returned
    table a retained subject keeps this age when it is not missing and
    this sex when the code is 1 or 2, and has the sex "No definido" when
    the source has no dietary row for him. *)
Theorem C8_dietary_first_occurrence (dfs : Inputs) :
  let kept := drop_duplicates (df_dietary (dietary dfs)) in
  NoDup (map key kept) /\
  (forall i, In (Some i) (map key kept) <-> In i (ids_dietary dfs)) /\
  (forall i x,
      first_dietary dfs i = Some x ->
      exists r,
        filter (fun r => key_eqb (key r) (Some i)) kept = [r] /\
        num r edad_anos = Dietary.RIDAGEYR x /\
        txt r sexo = sex_label (Dietary.RIAGENDR x)) /\
  (forall pw side,
      df_merge dfs <> Raise (MergeError StepDietary side) /\
      run_transformations pw dfs <> Raise (MergeError StepDietary side)) /\
  (forall m,
      df_merge dfs = Ok m ->
      Forall2
        (fun a r =>
           txt r id = Some (clean_id (Demographic.SEQN_new a)) /\
           match first_dietary dfs (clean_id (Demographic.SEQN_new a)) with
           | Some x => num r edad_anos = Dietary.RIDAGEYR x
                       /\ txt r sexo = sex_label (Dietary.RIAGENDR x)
           | None => num r edad_anos = nan /\ txt r sexo = None
           end)
        (demographic dfs) m) /\
  (forall pw t,
      run_transformations pw dfs = Ok t ->
      Forall2
        (fun a r =>
           match first_dietary dfs (clean_id (Demographic.SEQN_new a)) with
           | Some x =>
               (is_nan (Dietary.RIDAGEYR x) = false ->
                num r edad_anos = Dietary.RIDAGEYR x) /\
               (forall s, sex_label (Dietary.RIAGENDR x) = Some s ->
                          txt r sexo = Some s)
           | None => txt r sexo = Some "No definido"
           end)
        (kept_demographic dfs) t).
Proof.
  cbv zeta. split; [|split; [|split; [|split; [|split]]]].
  - apply is_unique_NoDup, drop_duplicates_unique.
  - intros i. rewrite <- lookup_In, lookup_drop_duplicates, lookup_In,
      keys_df_dietary. split.
    + intros H. apply in_map_iff in H as (j & E & H). now injection E as <-.
    + apply in_map.
  - intros i x H.
    rewrite (filter_unique _ _ (drop_duplicates_unique _)),
      lookup_drop_duplicates.
    pose proof (lookup_df_dietary (dietary dfs) i) as L.
    unfold first_dietary in H. rewrite H in L.
    destruct L as (r & -> & _ & Hn & Ht). eauto.
  - intros pw side.
    assert (D : df_merge dfs <> Raise (MergeError StepDietary side)).
    { rewrite df_merge_spec. cbv zeta.
      repeat match goal with
             | |- context [is_unique ?l] => destruct (is_unique l)
             end; simpl; discriminate. }
    split; [exact D|]. unfold run_transformations.
    destruct (df_merge dfs) as [m|e] eqn:E; simpl; [|congruence].
    destruct (derive pw m) as [d|e] eqn:E'; simpl; [discriminate|].
    intros H. injection H as ->.
    destruct (derive_failure pw m _ E') as [F|[F|F]]; discriminate F.
  - intros m H. apply df_merge_Ok in H as (_ & _ & _ & _ & ->).
    apply linked_dietary.
  - intros pw t H. apply run_transformations_derived in H as (d & Hd & ->).
    unfold derived in Hd.
    destruct (df_merge dfs) as [m|] eqn:E; [|discriminate Hd]. simpl in Hd.
    apply df_merge_Ok in E as (_ & _ & _ & _ & ->).
    pose proof (Forall2_compose _ _ _ _ _ (linked_dietary dfs)
                  (derive_rows pw _ _ Hd)) as R.
    assert (R' : Forall2
                   (fun a r =>
                      txt r id = Some (clean_id (Demographic.SEQN_new a)) /\
                      match first_dietary dfs
                              (clean_id (Demographic.SEQN_new a)) with
                      | Some x => num r edad_anos = Dietary.RIDAGEYR x
                                  /\ txt r sexo = sex_label (Dietary.RIAGENDR x)
                      | None => num r edad_anos = nan /\ txt r sexo = None
                      end)
                   (kept_demographic dfs) (exclude d)).
    { apply Forall2_filter.
      - eapply Forall2_impl; [|exact R].
        intros a r (l & [Hid Hl] & (_ & _ & _ & _ & _ & Sn & St)).
        rewrite (Sn edad_anos), (St id), (St sexo);
          try (intros [X|[X|[X|[]]]]; discriminate X);
          try (intros [X|[X|[]]]; discriminate X).
        split; assumption.
      - intros a r [Hid _]. unfold excluded. now rewrite Hid. }
    pose proof (Forall2_compose _ _ _ _ _ R' (reconcile_rows d)) as F.
    eapply Forall2_impl; [|exact F].
    intros a r' (r & [_ Hr] & [Ft Fn]).
    destruct (first_dietary dfs (clean_id (Demographic.SEQN_new a))) as [x|].
    + destruct Hr as [Hn Hs]. split.
      * intros N. rewrite (Fn edad_anos), Hn. unfold fillna_num.
        now rewrite N.
      * intros s Hx. rewrite (Ft sexo), Hs, Hx. unfold sex_label in Hx.
        destruct (Dietary.RIAGENDR x =? 1)%float;
          [injection Hx as <-; reflexivity|].
        destruct (Dietary.RIAGENDR x =? 2)%float;
          [injection Hx as <-; reflexivity|discriminate Hx].
    + destruct Hr as [_ Hs]. rewrite (Ft sexo), Hs. reflexivity.
Qed.

(** C8, on two dietary rows both normalized to "5": the first one, a
    woman of 50, is the one kept and joined. *)
Lemma C8_dietary_first_occurrence_witness :
  first_dietary two_fives_inputs "5"
  = Some (Dietary.mk (IdStr "5") 50 2)%float /\
  exists r,
    filter (fun r => key_eqb (key r) (Some "5"))
      (drop_duplicates (df_dietary (dietary two_fives_inputs))) = [r] /\
    num r edad_anos = 50%float /\
    txt r sexo = sex_label 2.
Proof.
  split; [reflexivity|].
  destruct (C8_dietary_first_occurrence two_fives_inputs) as (_ & _ & H & _).
  exact (H "5" _ eq_refl).
Defined.

(** The first of the two records is the one that is kept and joined. *)
Example dietary_two_fives :
  ids_dietary two_fives_inputs = ["5"; "5"]
  /\ map (fun r => (txt r id, num r edad_anos, txt r sexo))
       (drop_duplicates (df_dietary (dietary two_fives_inputs)))
     = [(Some "5", 50%float, Some "Mujer")]
  /\ map (fun r => (txt r id, num r edad_anos, txt r sexo))
       (returned (df_merge two_fives_inputs))
     = [(Some "5", 50%float, Some "Mujer")].
Proof. repeat split; reflexivity. Qed.

(** In the returned table too: the age is that of the first record, and
    the sex, which this record does not give, is not taken from the
    second one. *)
Example dietary_first_row_in_table :
  map (fun r => (txt r id, num r edad_anos, txt r sexo))
    (returned (run_transformations no_platform_pow unsexed_fives_inputs))
  = [(Some "5", 50%float, Some "No definido")].
Proof. reflexivity. Qed.

(** ** C9 *)

(** C9.  The marital status code goes through two substitutions in a
    row, {6:1, 5:12, 3:2, 4:2} and then {12:3}: 5 ends at 3 (through 12),
    3 and 4 at 2, 6 at 1, a raw 12 at 3 too, and every other code is
    kept; the label is then read in the table of [estado_civil], whose
    keys are 1, 2, 3, 77 and 99. *)
Theorem C9_estado_civil_two_pass :
  (forall v,
      estado_civil_codes v
      = replace [(12, 3)] (replace [(6, 1); (5, 12); (3, 2); (4, 2)] v))%float /\
  (forall v,
      estado_civil_codes v
      = if v =? 6 then 1 else if v =? 5 then 3 else if v =? 3 then 2
        else if v =? 4 then 2 else if v =? 12 then 3 else v)%float /\
  (replace [(6, 1); (5, 12); (3, 2); (4, 2)] 5 = 12)%float /\
  (map estado_civil_codes [5; 3; 4; 6; 12] = [3; 2; 2; 1; 3])%float /\
  (forall t,
      map (fun r => txt r estado_civil) (df_demographic t)
      = map (fun r => map_codes (table_of reco estado_civil)
                        (estado_civil_codes (Demographic.DMDMARTL r))) t) /\
  (table_of reco estado_civil
   = [(1, "Casado/Viviendo con pareja"); (2, "Viudo/Divorciado/Separado");
      (3, "Nunca casado"); (77, "Negado"); (99, "No sé")])%float /\
  (map (fun v => map_codes (table_of reco estado_civil) (estado_civil_codes v))
     [5; 12; 3; 4; 6]
   = [Some "Nunca casado"; Some "Nunca casado";
      Some "Viudo/Divorciado/Separado"; Some "Viudo/Divorciado/Separado";
      Some "Casado/Viviendo con pareja"])%float.
Proof.
  repeat split.
  - intros v. unfold estado_civil_codes, replace. cbn [find fst snd].
    destruct (v =? 6)%float; [reflexivity|].
    destruct (v =? 5)%float; [reflexivity|].
    destruct (v =? 3)%float; [reflexivity|].
    destruct (v =? 4)%float; [reflexivity|].
    now destruct (v =? 12)%float.
  - intros t. unfold df_demographic. now rewrite map_map.
Qed.

(** ** C10 *)

Lemma Forall2_Forall_right {A B : Type} (P : A -> B -> Prop) (Q : B -> Prop)
  (l : list A) (l' : list B) :
  Forall2 P l l' -> (forall a b, P a b -> Q b) -> Forall Q l'.
Proof. induction 1; intros H'; constructor; eauto. Qed.

Lemma Forall2_with_left {A B : Type} (P : A -> B -> Prop) (Q : A -> Prop)
  (l : list A) (l' : list B) :
  Forall2 P l l' -> Forall Q l -> Forall2 (fun a b => P a b /\ Q a) l l'.
Proof.
  induction 1; intros H'; inversion H'; subst; constructor; auto.
Qed.

Lemma derived_stages (pw : PlatformPow) (dfs : Inputs) (d : DataFrame) :
  derived pw dfs = Ok d ->
  Forall (fun r => txt r categoria_ACR = tier_ACR (num r ACR)
                   /\ txt r categoria_eGFR = tier_eGFR (num r eGFR)) d.
Proof.
  unfold derived. destruct (df_merge dfs) as [m|]; [|discriminate]. simpl.
  intros H. apply derive_rows in H.
  apply (Forall2_Forall_right _ _ _ _ H).
  intros a b (_ & _ & H1 & _ & H2 & _). now split.
Qed.

(** C10.  For every retained row of the derived frame whose ratio is
    missing, the final table has the stage "A1(por media)" and, as ratio,
    the rounded median of the retained ratios; likewise "G1(por media)"
    for a missing filtration score.  The label does not follow the tier
    of the filled score: on [imputed_ratio_inputs] the second row is
    labelled "A1(por media)" while its filled ratio, 600, is in tier
    A3. *)
Theorem C10_category_sentinels :
  (forall pw dfs d,
      derived pw dfs = Ok d ->
      Forall2
        (fun r r' =>
           (is_nan (num r ACR) = true ->
            txt r' categoria_ACR = Some "A1(por media)" /\
            num r' ACR
            = F.round1 (median (map (fun x => num x ACR) (exclude d)))) /\
           (is_nan (num r eGFR) = true ->
            txt r' categoria_eGFR = Some "G1(por media)" /\
            num r' eGFR
            = F.round1 (median (map (fun x => num x eGFR) (exclude d)))))
        (exclude d) (reconcile d)) /\
  (forall pw, exists t,
      run_transformations pw imputed_ratio_inputs = Ok t /\
      map (fun r => (txt r categoria_ACR, num r ACR, tier_ACR (num r ACR))) t
      = [(Some "A3", 600%float, Some "A3");
         (Some "A1(por media)", 600%float, Some "A3")]).
Proof.
  split.
  - intros pw dfs d H. apply derived_stages in H.
    assert (S : Forall (fun r => txt r categoria_ACR = tier_ACR (num r ACR)
                                 /\ txt r categoria_eGFR = tier_eGFR (num r eGFR))
                  (exclude d)).
    { apply Forall_forall. intros r Hr. apply filter_In in Hr as [Hr _].
      revert r Hr. now apply Forall_forall. }
    clear H.
    eapply Forall2_impl;
      [|exact (Forall2_with_left _ _ _ _ (reconcile_rows d) S)].
    intros r r' [[Ht Hn] [S1 S2]]. split; intros E.
    + rewrite Ht, Hn, S1. unfold fillna_num. rewrite E.
      apply FloatFacts.is_nan_true in E. rewrite E. now split.
    + rewrite Ht, Hn, S2. unfold fillna_num. rewrite E.
      apply FloatFacts.is_nan_true in E. rewrite E. now split.
  - intros pw. eexists. split; reflexivity.
Qed.

(** C10, on the two subjects of [imputed_ratio_inputs]. *)
Lemma C10_category_sentinels_witness :
  let d := returned (derived no_platform_pow imputed_ratio_inputs) in
  Forall2
    (fun r r' =>
       (is_nan (num r ACR) = true ->
        txt r' categoria_ACR = Some "A1(por media)" /\
        num r' ACR
        = F.round1 (median (map (fun x => num x ACR) (exclude d)))) /\
       (is_nan (num r eGFR) = true ->
        txt r' categoria_eGFR = Some "G1(por media)" /\
        num r' eGFR
        = F.round1 (median (map (fun x => num x eGFR) (exclude d)))))
    (exclude d) (reconcile d).
Proof.
  exact (proj1 C10_category_sentinels no_platform_pow imputed_ratio_inputs _
           eq_refl).
Defined.

(* ================================================================== *)
(** * Outcomes of a run and cells of the returned table *)

Section RunRows.

Variable pw : PlatformPow.

Lemma derived_rows (dfs : Inputs) (d : DataFrame) :
  derived pw dfs = Ok d -> Forall2 (derive_rel pw) (linked dfs) d.
Proof.
  unfold derived. destruct (df_merge dfs) as [m|] eqn:E; [|discriminate].
  simpl. intros H. apply df_merge_Ok in E as (_ & _ & _ & _ & ->).
  now apply derive_rows.
Qed.

Lemma derive_rel_key (l r : Row) : derive_rel pw l r -> txt r id = txt l id.
Proof.
  intros (_ & _ & _ & _ & _ & _ & H). apply H.
  intros [E|[E|[]]]; discriminate E.
Qed.

Lemma run_stages (dfs : Inputs) (t : DataFrame) :
  run_transformations pw dfs = Ok t ->
  exists d,
    derived pw dfs = Ok d /\
    Forall2 (derive_rel pw) (exclude (linked dfs)) (exclude d) /\
    Forall2 (final_rel d) (exclude d) t.
Proof.
  intros H. apply run_transformations_derived in H as (d & Hd & ->).
  exists d. split; [exact Hd|].
  pose proof (derived_rows dfs d Hd) as R. split.
  - apply Forall2_filter; [exact R|]. intros a b Hab. unfold excluded.
    now rewrite (derive_rel_key a b Hab).
  - exact (reconcile_rows d).
Qed.

Lemma run_rows (dfs : Inputs) (t : DataFrame) :
  run_transformations pw dfs = Ok t ->
  exists d,
    derived pw dfs = Ok d /\
    Forall2 (fun l r' => exists r, In r (exclude d) /\ derive_rel pw l r
                                   /\ final_rel d r r')
      (exclude (linked dfs)) t.
Proof.
  intros H. destruct (run_stages dfs t H) as (d & Hd & R' & F).
  exists d. split; [exact Hd|].
  assert (I : Forall (fun r => In r (exclude d)) (exclude d))
    by (apply Forall_forall; auto).
  pose proof (Forall2_compose _ _ _ _ _ R'
                (Forall2_with_left _ _ _ _ F I)) as C.
  eapply Forall2_impl; [|exact C].
  intros l r' (r & Hlr & Hf & Hin). exists r.
  split; [exact Hin|split; [exact Hlr|exact Hf]].
Qed.

End RunRows.

Section FirstFailure.

Context {A B : Type}.

Lemma mapM_Ok (f : A -> result B) (l : list A) :
  (exists l', mapM f l = Ok l') <-> Forall (fun a => exists b, f a = Ok b) l.
Proof.
  split.
  - intros [l' H]. apply mapM_Forall2 in H.
    induction H as [|a b l l' Hab _ IH]; constructor; eauto.
  - induction 1 as [|a l [b Hb] _ [l' IH]]; simpl; [eauto|].
    rewrite Hb, IH. simpl. eauto.
Qed.

Lemma mapM_Raise (f : A -> result B) (l : list A) (e : Failure) :
  mapM f l = Raise e <->
  exists l1 a l2,
    l = (l1 ++ a :: l2)%list /\
    Forall (fun x => exists b, f x = Ok b) l1 /\ f a = Raise e.
Proof.
  split.
  - induction l as [|a l IH]; simpl; [discriminate|].
    destruct (f a) as [b|e'] eqn:Ea; simpl.
    + destruct (mapM f l) as [bs|e'] eqn:El; simpl; [discriminate|].
      intros H. injection H as ->.
      destruct (IH eq_refl) as (l1 & x & l2 & -> & H1 & H2).
      exists (a :: l1), x, l2. repeat split; eauto.
    + intros H. injection H as ->. exists [], a, l. repeat split; auto.
  - intros (l1 & a & l2 & -> & H1 & H2).
    induction H1 as [|x l1 [b Hb] _ IH]; simpl.
    + now rewrite H2.
    + now rewrite Hb, IH.
Qed.

End FirstFailure.

Section Outcome.

Variable pw : PlatformPow.

(** Lines 132-138 leave the operands of the filtration score alone. *)
Lemma row_eGFR_pre (t : DataFrame) :
  Forall2 (fun r r' => row_eGFR pw r' = row_eGFR pw r)
    t (derive_categoria_ACR (derive_ACR t)).
Proof.
  pose proof (Forall2_compose _ _ _ _ _ (derive_ACR_rows t)
                (same_but_derive_categoria_ACR (derive_ACR t))) as H.
  eapply Forall2_impl; [|exact H].
  intros r r' (x & (_ & _ & Ht & Hn) & (Sn & St)). unfold row_eGFR.
  rewrite (Sn creatinina_serica), (Sn edad_anos), (St sexo);
    try (intros [E|[]]; discriminate E); try (intros []).
  now rewrite Ht, !Hn.
Qed.

Lemma Forall2_Forall_iff {X Y : Type} (P : X -> Prop) (Q : Y -> Prop)
  (l : list X) (l' : list Y) :
  Forall2 (fun a b => P a <-> Q b) l l' -> Forall P l <-> Forall Q l'.
Proof.
  induction 1 as [|a b l l' Hab _ IH]; split; intros H;
    try constructor; inversion H; subst; try tauto.
Qed.

Lemma map_row_eGFR_pre (t : DataFrame) :
  map (row_eGFR pw) (derive_categoria_ACR (derive_ACR t)) = map (row_eGFR pw) t.
Proof.
  apply map_eq_Forall2.
  pose proof (row_eGFR_pre t) as H.
  induction H; constructor; auto.
Qed.

Lemma derive_eGFR_row (x : Row) :
  (forall e, (e' <- row_eGFR pw x ;; Ok (set_num x eGFR (F.round1 e')))%result
             = Raise e <-> row_eGFR pw x = Raise e) /\
  ((exists b, (e' <- row_eGFR pw x ;; Ok (set_num x eGFR (F.round1 e')))%result
              = Ok b) <-> exists b, row_eGFR pw x = Ok b).
Proof.
  destruct (row_eGFR pw x) as [v|e']; simpl; split.
  - intros e; split; discriminate.
  - split; eauto.
  - intros e; split; intros H; injection H as ->; reflexivity.
  - split; intros [b H]; discriminate H.
Qed.

Lemma derive_eGFR_Raise (t : DataFrame) (e : Failure) :
  derive_eGFR pw t = Raise e <-> mapM (row_eGFR pw) t = Raise e.
Proof.
  unfold derive_eGFR.
  split; intros H; apply mapM_Raise in H; apply mapM_Raise;
    destruct H as (l1 & a & l2 & E & H1 & H2); subst t; exists l1, a, l2;
    (split; [reflexivity|split]);
    try (eapply Forall_impl; [|exact H1]; intros x Hx;
         apply (derive_eGFR_row x); exact Hx);
    apply (derive_eGFR_row a); exact H2.
Qed.

Lemma derive_eGFR_Ok (t : DataFrame) :
  (exists t', derive_eGFR pw t = Ok t')
  <-> Forall (fun x => exists b, row_eGFR pw x = Ok b) t.
Proof.
  unfold derive_eGFR.
  split; intros H; [apply mapM_Ok in H|apply mapM_Ok];
    (eapply Forall_impl; [|exact H]); intros x Hx;
    apply (derive_eGFR_row x); exact Hx.
Qed.

Lemma derive_Raise (m : DataFrame) (e : Failure) :
  derive pw m = Raise e <-> mapM (row_eGFR pw) m = Raise e.
Proof.
  unfold derive.
  transitivity (derive_eGFR pw (derive_categoria_ACR (derive_ACR m)) = Raise e).
  { destruct (derive_eGFR pw _); simpl; split; intros H;
      try discriminate H; exact H. }
  rewrite derive_eGFR_Raise.
  assert (M : forall l l' : DataFrame,
             map (row_eGFR pw) l = map (row_eGFR pw) l' ->
             mapM (row_eGFR pw) l = mapM (row_eGFR pw) l').
  { induction l as [|a l IH]; destruct l' as [|a' l']; simpl;
      try discriminate; [reflexivity|].
    intros H. injection H as Ha Hl. now rewrite Ha, (IH _ Hl). }
  now rewrite (M _ _ (map_row_eGFR_pre m)).
Qed.

Lemma derive_Ok (m : DataFrame) :
  (exists d, derive pw m = Ok d)
  <-> Forall (fun x => exists b, row_eGFR pw x = Ok b) m.
Proof.
  transitivity (exists es, mapM (row_eGFR pw) m = Ok es);
    [|apply mapM_Ok].
  destruct (derive pw m) as [d|e] eqn:E.
  - destruct (mapM (row_eGFR pw) m) as [es|e'] eqn:E'.
    + split; eauto.
    + apply derive_Raise in E'. congruence.
  - apply derive_Raise in E. rewrite E.
    split; intros [x H]; discriminate H.
Qed.

Lemma df_merge_outcome (dfs : Inputs) :
  (distinct_ids dfs /\ df_merge dfs = Ok (linked dfs)) \/
  (~ distinct_ids dfs /\
   exists step side, df_merge dfs = Raise (MergeError step side)
                     /\ step <> StepDietary).
Proof.
  rewrite df_merge_spec. cbv zeta. unfold distinct_ids.
  rewrite keys_df_demographic, keys_df_response, keys_df_questionnaire,
    keys_df_mortality.
  pose proof (is_unique_Some (ids_demographic dfs)) as HD.
  pose proof (is_unique_Some (ids_response dfs)) as HR.
  pose proof (is_unique_Some (ids_questionnaire dfs)) as HQ.
  pose proof (is_unique_Some (ids_mortality dfs)) as HM.
  destruct (is_unique (map Some (ids_demographic dfs))),
    (is_unique (map Some (ids_response dfs))),
    (is_unique (map Some (ids_questionnaire dfs))),
    (is_unique (map Some (ids_mortality dfs))); simpl;
    try (left; repeat split; tauto);
    right; (split; [intros (D & R & Q & M);
                    try (apply HD in D; discriminate D);
                    try (apply HR in R; discriminate R);
                    try (apply HQ in Q; discriminate Q);
                    try (apply HM in M; discriminate M)
                   |do 2 eexists; split; [reflexivity|discriminate]]).
Qed.

Lemma run_outcome (dfs : Inputs) :
  (~ distinct_ids dfs /\
   exists step side, run_transformations pw dfs = Raise (MergeError step side)
                     /\ step <> StepDietary) \/
  (distinct_ids dfs /\
   run_transformations pw dfs
   = (d <- derive pw (linked dfs) ;; Ok (reconcile d))%result).
Proof.
  unfold run_transformations.
  destruct (df_merge_outcome dfs) as [[D E]|[D (step & side & E & S)]];
    rewrite E; simpl; [right; auto|left].
  split; [exact D|]. now exists step, side.
Qed.

End Outcome.

Section Arithmetic.

Import FloatFacts DivFacts.

Local Open Scope float_scope.

Variable pw : PlatformPow.

Lemma mul_nan_l (y : float) : nan * y = nan.
Proof. apply SF_nan. rewrite mul_spec. reflexivity. Qed.

Lemma mul_nan_r (x : float) : x * nan = nan.
Proof.
  apply SF_nan. rewrite mul_spec. change (Prim2SF nan) with S754_nan.
  now destruct (Prim2SF x).
Qed.

Lemma zero_cases (x : float) : is_zero x = true -> x = 0 \/ x = -0.
Proof.
  intros H. apply is_zero_spec in H as [[] H]; [right|left];
    apply Prim2SF_inj; rewrite H; reflexivity.
Qed.

Lemma recognised_sex (gender : option string) :
  (gender = Some "Mujer"%string \/ gender = Some "Hombre"%string) \/
  (key_eqb gender (Some "Mujer"%string) = false /\
   key_eqb gender (Some "Hombre"%string) = false).
Proof.
  destruct (key_eqb gender (Some "Mujer"%string)) eqn:E1.
  - apply key_eqb_eq in E1. auto.
  - destruct (key_eqb gender (Some "Hombre"%string)) eqn:E2; [|auto].
    apply key_eqb_eq in E2. auto.
Qed.

(** [0.0 ** alpha] with a negative [alpha]: the score of a subject of
    recognised sex whose serum creatinine is zero cannot be computed. *)
Lemma calc_egfr_zero_creatinine (creat age : float) (gender : option string) :
  is_zero creat = true ->
  gender = Some "Mujer"%string \/ gender = Some "Hombre"%string ->
  calc_egfr pw creat age gender = Raise ZeroDivisionError.
Proof.
  intros Z G. destruct (zero_cases creat Z) as [-> | ->], G as [-> | ->];
    reflexivity.
Qed.

Lemma calc_egfr_unrecognised (creat age : float) (gender : option string) :
  key_eqb gender (Some "Mujer"%string) = false ->
  key_eqb gender (Some "Hombre"%string) = false ->
  calc_egfr pw creat age gender = Ok nan.
Proof. intros E1 E2. unfold calc_egfr. now rewrite E1, E2. Qed.

Lemma float_pow_nan_base (w : float) :
  (w =? 0) = false -> float_pow pw nan w = Ok nan.
Proof. intros H. unfold float_pow. now rewrite H. Qed.

Lemma float_pow_nan_exponent (v : float) :
  is_nan v = false -> (v =? 1) = false -> float_pow pw v nan = Ok nan.
Proof.
  intros H1 H2. unfold float_pow. rewrite H1.
  change (nan =? 0) with false. change (is_nan nan) with true.
  cbv iota. now rewrite H2.
Qed.

(** A missing serum creatinine or a missing age gives a missing score
    whenever the score is computed at all. *)
Lemma calc_egfr_missing_operand (creat age e : float) (gender : option string) :
  calc_egfr pw creat age gender = Ok e ->
  is_nan creat = true \/ is_nan age = true -> e = nan.
Proof.
  intros H M.
  destruct (recognised_sex gender) as [G|[E1 E2]].
  2:{ rewrite (calc_egfr_unrecognised _ _ _ E1 E2) in H. now injection H. }
  unfold calc_egfr in H.
  assert (K : exists kappa alpha factor,
             (alpha =? 0) = false /\
             (p1 <- float_pow pw (py_min (creat / kappa) 1) alpha ;;
              p2 <- float_pow pw (py_max (creat / kappa) 1) (-1.200) ;;
              p3 <- float_pow pw 0.9938 age ;;
              Ok (142 * p1 * p2 * p3 * factor))%result = Ok e).
  { destruct G as [-> | ->]; do 3 eexists; (split; [|exact H]); reflexivity. }
  clear H. destruct K as (kappa & alpha & factor & A & H).
  destruct M as [M|M]; apply is_nan_true in M; subst.
  - rewrite div_nan_l in H.
    change (py_min nan 1) with nan in H. change (py_max nan 1) with nan in H.
    rewrite (float_pow_nan_base alpha A) in H.
    rewrite (float_pow_nan_base (-1.200) eq_refl) in H. simpl in H.
    destruct (float_pow pw 0.9938 age) as [p3|]; simpl in H; [|discriminate].
    injection H as <-.
    change (142 * nan * nan) with nan. now rewrite !mul_nan_l.
  - rewrite (float_pow_nan_exponent 0.9938 eq_refl eq_refl) in H.
    destruct (float_pow pw _ alpha) as [p1|]; simpl in H; [|discriminate].
    destruct (float_pow pw _ _) as [p2|]; simpl in H; [|discriminate].
    injection H as <-. now rewrite mul_nan_r, mul_nan_l.
Qed.

End Arithmetic.

Section RunOutcome.

Variable pw : PlatformPow.


Lemma run_Ok (dfs : Inputs) :
  (exists t, run_transformations pw dfs = Ok t) <->
  distinct_ids dfs /\
  Forall (fun x => exists b, row_eGFR pw x = Ok b) (linked dfs).
Proof.
  destruct (run_outcome pw dfs) as [(D & step & side & E & S)|[D E]];
    rewrite E.
  - split; [intros [t H]; discriminate H|tauto].
  - rewrite <- derive_Ok. split.
    + intros [t H]. split; [exact D|].
      destruct (derive pw (linked dfs)) as [d|]; [eauto|discriminate H].
    + intros [_ [d H]]. rewrite H. simpl. eauto.
Qed.


(** X3.  If some linked row, retained or not, has a recognised sex and a
    serum creatinine of zero, [run_transformations] returns no table. *)
Theorem X3_zero_creatinine_aborts (dfs : Inputs) (l : Row) :
  In l (linked dfs) ->
  txt l sexo = Some "Mujer" \/ txt l sexo = Some "Hombre" ->
  is_zero (num l creatinina_serica) = true ->
  exists e, run_transformations pw dfs = Raise e.
Proof.
  intros I G Z.
  destruct (run_transformations pw dfs) as [t|e] eqn:E; [|eauto].
  assert (H : exists t, run_transformations pw dfs = Ok t) by eauto.
  apply run_Ok in H as [_ H].
  rewrite Forall_forall in H. destruct (H l I) as [b Hb].
  unfold row_eGFR in Hb.
  rewrite (calc_egfr_zero_creatinine pw _ _ _ Z G) in Hb. discriminate Hb.
Qed.

End RunOutcome.


(** X3, on a subject of the excluded sub-cohort. *)
Lemma X3_zero_creatinine_aborts_witness :
  map excluded (linked excluded_zero_creatinine_inputs) = [false; true] /\
  exists e,
    run_transformations no_platform_pow excluded_zero_creatinine_inputs
    = Raise e.
Proof.
  split; [reflexivity|].
  apply (X3_zero_creatinine_aborts no_platform_pow
           excluded_zero_creatinine_inputs
           (nth 1 (linked excluded_zero_creatinine_inputs) (mkRow (fun _ => nan) (fun _ => None)))).
  - right. left. reflexivity.
  - left. reflexivity.
  - reflexivity.
Defined.

Section Cells.

Import FloatFacts DivFacts.

Local Open Scope float_scope.

Variable pw : PlatformPow.

Lemma run_cells (dfs : Inputs) (t : DataFrame) :
  run_transformations pw dfs = Ok t ->
  exists d,
    derived pw dfs = Ok d /\
    Forall2 (fun l r' => In l (linked dfs) /\
                         exists r, In r (exclude d) /\ derive_rel pw l r
                                   /\ final_rel d r r')
      (exclude (linked dfs)) t.
Proof.
  intros H. destruct (run_rows pw dfs t H) as (d & Hd & R).
  exists d. split; [exact Hd|].
  assert (I : Forall (fun l => In l (linked dfs)) (exclude (linked dfs))).
  { apply Forall_forall. intros l Hl. unfold exclude in Hl.
    now apply filter_In in Hl. }
  eapply Forall2_impl; [|exact (Forall2_with_left _ _ _ _ R I)].
  intros l r' [A B]. split; assumption.
Qed.

Lemma round1_nan : F.round1 nan = nan.
Proof. reflexivity. Qed.

Lemma median_all_nan (xs : list float) :
  Forall (fun x => is_nan x = true) xs -> median xs = nan.
Proof.
  intros H. unfold median.
  replace (filter (fun x => negb (is_nan x)) xs) with (@nil float);
    [reflexivity|].
  induction H as [|x xs Hx _ IH]; simpl; [reflexivity|]. now rewrite Hx.
Qed.

(** The sex joined to an anchor row is read from the first dietary row
    under its identifier. *)
Lemma linked_sexo (dfs : Inputs) (l0 : Row) :
  txt (linked_row dfs l0) sexo = None \/
  exists x, In x (dietary dfs) /\
            txt (linked_row dfs l0) sexo
            = map_codes (table_of reco_4 sexo) (Dietary.RIAGENDR x).
Proof.
  unfold linked_row. rewrite lookup_drop_duplicates.
  change (key (merge_row _ _ _)) with (key l0).
  destruct (lookup (df_dietary (dietary dfs)) (key l0)) as [x|] eqn:L;
    [|left; reflexivity].
  right. apply find_some in L as [L _].
  apply in_map_iff in L as (y & <- & Hy). exists y. split; [exact Hy|].
  reflexivity.
Qed.

End Cells.

Section Labels.

Import FloatFacts DivFacts.

Local Open Scope float_scope.

Variable pw : PlatformPow.

Lemma map_codes_In (d : RecodeMap) (v : float) (s : string) :
  map_codes d v = Some s -> In s (map snd d).
Proof.
  unfold map_codes. destruct (find _ d) as [kv|] eqn:E; [|discriminate].
  simpl. intros H. injection H as <-. apply find_some in E as [E _].
  now apply in_map.
Qed.

Lemma tier_ACR_labels (x : float) :
  (is_nan x = true /\ tier_ACR x = None) \/
  (is_nan x = false /\ exists s, tier_ACR x = Some s /\ In s ["A1"; "A2"; "A3"]%string).
Proof.
  unfold tier_ACR.
  destruct (ACR_masks x) as [H|[H|[H|H]]];
    destruct H as (H1 & H2 & H3 & H4 & H5); rewrite ?H1, ?H2, ?H3, ?H4, ?H5; simpl;
    [left; auto|right|right|right]; (split; [reflexivity|]);
    eexists; (split; [reflexivity|]); simpl; auto.
Qed.

Lemma tier_eGFR_labels (x : float) :
  (is_nan x = true /\ tier_eGFR x = None) \/
  (is_nan x = false /\
   exists s, tier_eGFR x = Some s
             /\ In s ["G1"; "G2"; "G3a"; "G3b"; "G4"; "G5"]%string).
Proof.
  unfold tier_eGFR.
  destruct (eGFR_masks x) as [[N H]|(N & H & H1 & H2 & H3 & H4)].
  - left. split; [exact N|].
    rewrite !(proj2 (H _)), (proj1 (H 15)). reflexivity.
  - right. split; [exact N|].
    rewrite (H 90 eq_refl), (H 60 eq_refl), (H 45 eq_refl), (H 30 eq_refl),
      (H 15 eq_refl).
    destruct (90 <=? x); simpl; [eexists; split; [reflexivity|simpl; auto]|].
    destruct (60 <=? x); simpl; [eexists; split; [reflexivity|simpl; auto]|].
    destruct (45 <=? x); simpl; [eexists; split; [reflexivity|simpl; auto]|].
    destruct (30 <=? x); simpl; [eexists; split; [reflexivity|simpl; auto]|].
    destruct (15 <=? x); simpl; eexists; (split; [reflexivity|simpl; auto 7]).
Qed.

(** Every label is trimmed and not empty: the fill leaves it as it is. *)
Lemma labels_kept (c : TxtCol) (s : string) :
  In s (labels c) -> strip_blank (Some s) = Some s.
Proof.
  intros H.
  assert (E : forallb (fun s => match strip_blank (Some s) with
                                | Some s' => String.eqb s' s
                                | None => false
                                end) (labels c) = true)
    by (destruct c; vm_compute; reflexivity).
  rewrite forallb_forall in E. specialize (E s H).
  destruct (strip_blank (Some s)) as [s'|]; [|discriminate E].
  apply String.eqb_eq in E. now subst.
Qed.

End Labels.

Section LinkedText.

Lemma labels_of_tables (c : TxtCol) (s : string) :
  In s (map snd (table_of reco c)) \/ In s (map snd (table_of reco_2 c)) \/
  In s (map snd (table_of reco_3 c)) \/ In s (map snd (table_of reco_4 c)) ->
  In s (labels c).
Proof.
  unfold labels. rewrite !map_app, !in_app_iff. tauto.
Qed.

Lemma map_codes_labels (c : TxtCol) (d : RecodeMap) (v : float) :
  d = table_of reco c \/ d = table_of reco_2 c \/
  d = table_of reco_3 c \/ d = table_of reco_4 c ->
  map_codes d v = None \/
  exists s, map_codes d v = Some s /\ In s (labels c).
Proof.
  intros H. destruct (map_codes d v) as [s|] eqn:E; [right|left; reflexivity].
  exists s. split; [reflexivity|]. apply map_codes_In in E.
  apply labels_of_tables.
  destruct H as [-> |[-> |[-> | ->]]]; auto.
Qed.

(** A text cell of a linked row, the identifier apart, is missing or a
    label of its column. *)
Lemma linked_txt (dfs : Inputs) (l : Row) (c : TxtCol) :
  In l (linked dfs) -> c <> id ->
  txt l c = None \/ exists s, txt l c = Some s /\ In s (labels c).
Proof.
  intros H C. apply in_map_iff in H as (l0 & <- & H).
  apply in_map_iff in H as (y & <- & _).
  unfold linked_row. rewrite lookup_drop_duplicates.
  destruct c; try (now elim C); cbn -[lookup map_codes table_of];
    try (left; reflexivity);
    try (apply map_codes_labels; auto);
    match goal with
    | |- context [lookup ?X ?k] =>
        destruct (lookup X k) as [x|] eqn:L; [|left; reflexivity];
        apply find_some in L as [L _];
        apply in_map_iff in L as (z & <- & _);
        cbn -[map_codes table_of]; apply map_codes_labels; auto
    end.
Qed.

End LinkedText.

Section Table.

Import FloatFacts DivFacts.

Local Open Scope float_scope.

Variable pw : PlatformPow.

Lemma fillna_num_present (v m : float) :
  is_nan v = false -> fillna_num v m = v.
Proof. intros H. unfold fillna_num. now rewrite H. Qed.

Lemma sentinel_stripped (c : TxtCol) : Py.strip (sentinel c) = sentinel c.
Proof. destruct c; reflexivity. Qed.

Lemma fill_txt_cases (v : option string) (c : TxtCol) :
  (strip_blank v = None /\
   fillna_txt (strip_blank v) (sentinel c) = Some (sentinel c)) \/
  (exists s, v = Some s /\ Py.strip s <> ""%string /\
             fillna_txt (strip_blank v) (sentinel c) = Some (Py.strip s)).
Proof.
  destruct v as [s|]; simpl; [|left; auto].
  destruct (String.eqb (Py.strip s) "") eqn:E; simpl; [left; auto|right].
  exists s. apply String.eqb_neq in E. auto.
Qed.

(** X4.  When the four validated sources have pairwise distinct
    identifiers and no dietary row carries the sex code 1 or 2,
    [run_transformations] returns a table whatever the platform's [pow]
    does; every row of it has the stage "G1(por media)" and a missing
    filtration score. *)
Theorem X4_no_recognised_sex (dfs : Inputs) :
  distinct_ids dfs ->
  Forall (fun x => (Dietary.RIAGENDR x =? 1) = false
                   /\ (Dietary.RIAGENDR x =? 2) = false) (dietary dfs) ->
  exists t,
    run_transformations pw dfs = Ok t /\
    Forall (fun r' => txt r' categoria_eGFR = Some "G1(por media)"%string
                      /\ is_nan (num r' eGFR) = true) t.
Proof.
  intros D S.
  assert (G : forall l, In l (linked dfs) -> row_eGFR pw l = Ok nan).
  { intros l Hl. apply in_map_iff in Hl as (l0 & <- & _).
    unfold row_eGFR.
    assert (E : txt (linked_row dfs l0) sexo = None).
    { destruct (linked_sexo dfs l0) as [E|(x & Hx & E)]; [exact E|].
      rewrite E. rewrite Forall_forall in S. destruct (S x Hx) as [S1 S2].
      unfold map_codes. simpl. now rewrite S1, S2. }
    rewrite E. reflexivity. }
  assert (R : exists t, run_transformations pw dfs = Ok t).
  { apply run_Ok. split; [exact D|]. apply Forall_forall.
    intros l Hl. rewrite (G l Hl). eauto. }
  destruct R as [t R]. exists t. split; [exact R|].
  destruct (run_stages pw dfs t R) as (d & _ & R1 & R2).
  assert (I : Forall (fun l => In l (linked dfs)) (exclude (linked dfs))).
  { apply Forall_forall. intros l Hl. unfold exclude in Hl.
    now apply filter_In in Hl. }
  assert (M : Forall (fun r => num r eGFR = nan
                               /\ txt r categoria_eGFR = None) (exclude d)).
  { eapply Forall2_Forall_right;
      [exact (Forall2_with_left _ _ _ _ R1 I)|].
    intros l r [(_ & _ & _ & (e & He & HG) & HC & _) Hl]. cbv beta in Hl.
    fold (row_eGFR pw l) in He. rewrite (G l Hl) in He. injection He as <-.
    rewrite HC, HG. split; reflexivity. }
  assert (Md : median (map (fun x => num x eGFR) (exclude d)) = nan).
  { apply median_all_nan. apply Forall_map.
    eapply Forall_impl; [|exact M]. intros r [-> _]. reflexivity. }
  eapply Forall2_Forall_right; [exact (Forall2_with_left _ _ _ _ R2 M)|].
  intros r r' [[Ft Fn] [Mn Mt]]. cbv beta in Mn, Mt.
  rewrite Ft, Fn, Mt, Mn, Md. split; reflexivity.
Qed.

(** X5.  In a returned table, a retained subject whose serum creatinine
    or age is missing, or whose sex is neither "Mujer" nor "Hombre", has
    the stage "G1(por media)"; one whose urinary albumin or urinary
    creatinine is missing has the stage "A1(por media)". *)
Theorem X5_missing_operand_stage (dfs : Inputs) (t : DataFrame) :
  run_transformations pw dfs = Ok t ->
  Forall2
    (fun l r' =>
       (is_nan (num l creatinina_serica) = true \/
        is_nan (num l edad_anos) = true \/
        (txt l sexo <> Some "Mujer"%string /\ txt l sexo <> Some "Hombre"%string) ->
        txt r' categoria_eGFR = Some "G1(por media)"%string) /\
       (is_nan (num l albumina_urinaria) = true \/
        is_nan (num l creatinina_urinaria) = true ->
        txt r' categoria_ACR = Some "A1(por media)"%string))
    (exclude (linked dfs)) t.
Proof.
  intros H. destruct (run_rows pw dfs t H) as (d & _ & R).
  eapply Forall2_impl; [|exact R].
  intros l r' (r & _ & (Hcu & Hacr & HcA & (e & He & HG) & HcG & _) & Ft & _).
  split; intros M.
  - assert (E : e = nan).
    { destruct M as [M|[M|[M1 M2]]].
      - apply (calc_egfr_missing_operand pw _ _ _ _ He). auto.
      - apply (calc_egfr_missing_operand pw _ _ _ _ He). auto.
      - destruct (recognised_sex (txt l sexo)) as [[G|G]|[E1 E2]];
          try contradiction.
        rewrite (calc_egfr_unrecognised pw _ _ _ E1 E2) in He.
        now injection He. }
    subst e. rewrite Ft, HcG, HG. reflexivity.
  - assert (E : num r ACR = nan).
    { rewrite Hacr. destruct M as [M|M]; apply is_nan_true in M.
      - now rewrite M, div_nan_l.
      - rewrite Hcu, M, mul_nan_l, round1_nan, div_nan_r. reflexivity. }
    rewrite Ft, HcA, E. reflexivity.
Qed.

(** X6.  In a returned table the stage of the ratio score is either the
    sentinel "A1(por media)" or the tier of the ratio the row carries,
    which is then not missing; likewise the stage of the filtration
    score is "G1(por media)" or the tier of the row's filtration score. *)
Theorem X6_stage_matches_score (dfs : Inputs) (t : DataFrame) :
  run_transformations pw dfs = Ok t ->
  Forall
    (fun r' =>
       (txt r' categoria_ACR = Some "A1(por media)"%string \/
        (is_nan (num r' ACR) = false /\
         txt r' categoria_ACR = tier_ACR (num r' ACR))) /\
       (txt r' categoria_eGFR = Some "G1(por media)"%string \/
        (is_nan (num r' eGFR) = false /\
         txt r' categoria_eGFR = tier_eGFR (num r' eGFR)))) t.
Proof.
  intros H. destruct (run_rows pw dfs t H) as (d & _ & R).
  eapply Forall2_Forall_right; [exact R|].
  intros l r' (r & _ & (_ & _ & HcA & _ & HcG & _) & Ft & Fn).
  rewrite (Ft categoria_ACR), (Ft categoria_eGFR), (Fn ACR), (Fn eGFR),
    HcA, HcG.
  split.
  - destruct (tier_ACR_labels (num r ACR)) as [[N E]|(N & s & E & I)].
    + left. rewrite E. reflexivity.
    + right. rewrite (fillna_num_present _ _ N). split; [exact N|].
      rewrite E. simpl in I.
      destruct I as [<-|[<-|[<-|[]]]]; reflexivity.
  - destruct (tier_eGFR_labels (num r eGFR)) as [[N E]|(N & s & E & I)].
    + left. rewrite E. reflexivity.
    + right. rewrite (fillna_num_present _ _ N). split; [exact N|].
      rewrite E. simpl in I.
      destruct I as [<-|[<-|[<-|[<-|[<-|[<-|[]]]]]]]; reflexivity.
Qed.

Lemma run_vocabulary (dfs : Inputs) (t : DataFrame) :
  run_transformations pw dfs = Ok t ->
  Forall
    (fun r' => forall c, c <> id ->
       exists s, txt r' c = Some s /\ (s = sentinel c \/ In s (labels c))) t.
Proof.
  intros H. destruct (run_cells pw dfs t H) as (d & _ & R).
  eapply Forall2_Forall_right; [exact R|].
  intros l r' (Hl & r & _ & (_ & _ & HcA & _ & HcG & _ & St) & Ft & _) c C.
  assert (V : txt r c = None \/ exists s, txt r c = Some s /\ In s (labels c)).
  { destruct (TxtCol_eq_dec c categoria_ACR) as [-> |CA].
    { rewrite HcA.
      destruct (tier_ACR_labels (num r ACR)) as [[_ E]|(_ & s & E & I)];
        [left; exact E|right]. exists s. split; [exact E|exact I]. }
    destruct (TxtCol_eq_dec c categoria_eGFR) as [-> |CG].
    { rewrite HcG.
      destruct (tier_eGFR_labels (num r eGFR)) as [[_ E]|(_ & s & E & I)];
        [left; exact E|right]. exists s. split; [exact E|exact I]. }
    rewrite (St c); [exact (linked_txt dfs l c Hl C)|].
    intros [E|[E|[]]]; congruence. }
  rewrite (Ft c). destruct V as [V|(s & V & I)]; rewrite V.
  - exists (sentinel c). split; [reflexivity|left; reflexivity].
  - rewrite (labels_kept c s I). exists s. split; [reflexivity|right; exact I].
Qed.

(** X7.  Every text cell of a returned table, the identifier apart, is
    the sentinel of its column or one of the labels of its column: a
    label of the column's recode table, or a tier for the two stage
    columns. *)
Theorem X7_closed_vocabulary (dfs : Inputs) (t : DataFrame) :
  run_transformations pw dfs = Ok t ->
  Forall
    (fun r' => forall c, c <> id ->
       exists s, txt r' c = Some s /\ (s = sentinel c \/ In s (labels c))) t.
Proof. exact (run_vocabulary dfs t). Qed.

(** X8.  A measurement that a retained linked row carries, in any
    numeric column other than the urinary creatinine, the ratio and the
    filtration score, is found unchanged in the returned table. *)
Theorem X8_measurements_kept (dfs : Inputs) (t : DataFrame) :
  run_transformations pw dfs = Ok t ->
  Forall2
    (fun l r' => forall k,
       ~ In k [creatinina_urinaria; ACR; eGFR] ->
       is_nan (num l k) = false -> num r' k = num l k)
    (exclude (linked dfs)) t.
Proof.
  intros H. destruct (run_rows pw dfs t H) as (d & _ & R).
  eapply Forall2_impl; [|exact R].
  intros l r' (r & _ & (_ & _ & _ & _ & _ & Sn & _) & _ & Fn) k K N.
  rewrite (Fn k), (Sn k K). now apply fillna_num_present.
Qed.

(** X9.  No text cell of a returned table starts or ends with white
    space: each one is its own [strip]. *)
Theorem X9_text_is_trimmed (dfs : Inputs) (t : DataFrame) :
  run_transformations pw dfs = Ok t ->
  Forall (fun r' => forall c s, txt r' c = Some s -> Py.strip s = s) t.
Proof.
  intros H. apply run_transformations_derived in H as (d & _ & ->).
  eapply Forall2_Forall_right; [exact (reconcile_rows d)|].
  intros r r' [Ft _] c s. rewrite (Ft c).
  destruct (fill_txt_cases (txt r c) c) as [[_ E]|(s0 & _ & _ & E)];
    rewrite E; intros Hs; injection Hs as <-.
  - apply sentinel_stripped.
  - apply PyFacts.strip_idem.
Qed.

(** X10.  A numeric column, other than the urinary creatinine, the ratio
    and the filtration score, that is missing in every retained linked
    row is missing in every row of the returned table. *)
Theorem X10_empty_column_stays_missing (dfs : Inputs) (t : DataFrame)
  (k : NumCol) :
  run_transformations pw dfs = Ok t ->
  ~ In k [creatinina_urinaria; ACR; eGFR] ->
  Forall (fun l => is_nan (num l k) = true) (exclude (linked dfs)) ->
  Forall (fun r' => is_nan (num r' k) = true) t.
Proof.
  intros H K M. destruct (run_stages pw dfs t H) as (d & _ & R1 & R2).
  assert (Md : Forall (fun r => num r k = nan) (exclude d)).
  { eapply Forall2_Forall_right;
      [exact (Forall2_with_left _ _ _ _ R1 M)|].
    intros l r [(_ & _ & _ & _ & _ & Sn & _) N]. cbv beta in N.
    rewrite (Sn k K). now apply is_nan_true. }
  assert (E : median (map (fun x => num x k) (exclude d)) = nan).
  { apply median_all_nan, Forall_map.
    eapply Forall_impl; [|exact Md]. intros r ->. reflexivity. }
  eapply Forall2_Forall_right; [exact (Forall2_with_left _ _ _ _ R2 Md)|].
  intros r r' [[_ Fn] N]. cbv beta in N. rewrite (Fn k), N, E. reflexivity.
Qed.

End Table.

Lemma distinct_ids_dec (dfs : Inputs) :
  is_unique (map Some (ids_demographic dfs)) = true ->
  is_unique (map Some (ids_response dfs)) = true ->
  is_unique (map Some (ids_questionnaire dfs)) = true ->
  is_unique (map Some (ids_mortality dfs)) = true ->
  distinct_ids dfs.
Proof.
  intros D R Q M. apply is_unique_Some in D, R, Q, M.
  repeat split; assumption.
Defined.

(** X4, on two subjects without a usable sex code. *)
Lemma X4_no_recognised_sex_witness :
  exists t,
    run_transformations no_platform_pow no_sex_inputs = Ok t /\
    Forall (fun r' => txt r' categoria_eGFR = Some "G1(por media)"
                      /\ is_nan (num r' eGFR) = true) t.
Proof.
  apply (X4_no_recognised_sex no_platform_pow no_sex_inputs).
  - apply distinct_ids_dec; reflexivity.
  - repeat constructor.
Defined.

(** X5, on the three-subject cohort. *)
Lemma X5_missing_operand_stage_witness :
  Forall2
    (fun l r' =>
       (is_nan (num l creatinina_serica) = true \/
        is_nan (num l edad_anos) = true \/
        (txt l sexo <> Some "Mujer" /\ txt l sexo <> Some "Hombre") ->
        txt r' categoria_eGFR = Some "G1(por media)") /\
       (is_nan (num l albumina_urinaria) = true \/
        is_nan (num l creatinina_urinaria) = true ->
        txt r' categoria_ACR = Some "A1(por media)"))
    (exclude (linked cohort_inputs))
    (returned (run_transformations no_platform_pow cohort_inputs)).
Proof.
  exact (X5_missing_operand_stage no_platform_pow cohort_inputs _ eq_refl).
Defined.

(** X6, on the three-subject cohort. *)
Lemma X6_stage_matches_score_witness :
  Forall
    (fun r' =>
       (txt r' categoria_ACR = Some "A1(por media)" \/
        (is_nan (num r' ACR) = false /\
         txt r' categoria_ACR = tier_ACR (num r' ACR))) /\
       (txt r' categoria_eGFR = Some "G1(por media)" \/
        (is_nan (num r' eGFR) = false /\
         txt r' categoria_eGFR = tier_eGFR (num r' eGFR))))
    (returned (run_transformations no_platform_pow cohort_inputs)).
Proof.
  exact (X6_stage_matches_score no_platform_pow cohort_inputs _ eq_refl).
Defined.

(** X7, on the three-subject cohort. *)
Lemma X7_closed_vocabulary_witness :
  Forall
    (fun r' => forall c, c <> id ->
       exists s, txt r' c = Some s /\ (s = sentinel c \/ In s (labels c)))
    (returned (run_transformations no_platform_pow cohort_inputs)).
Proof.
  exact (X7_closed_vocabulary no_platform_pow cohort_inputs _ eq_refl).
Defined.

(** X8, on the three-subject cohort. *)
Lemma X8_measurements_kept_witness :
  Forall2
    (fun l r' => forall k,
       ~ In k [creatinina_urinaria; ACR; eGFR] ->
       is_nan (num l k) = false -> num r' k = num l k)
    (exclude (linked cohort_inputs))
    (returned (run_transformations no_platform_pow cohort_inputs)).
Proof.
  exact (X8_measurements_kept no_platform_pow cohort_inputs _ eq_refl).
Defined.

(** X9, on the subject whose identifier is blank. *)
Lemma X9_text_is_trimmed_witness :
  Forall (fun r' => forall c s, txt r' c = Some s -> Py.strip s = s)
    (returned (run_transformations no_platform_pow blank_id_inputs)).
Proof.
  exact (X9_text_is_trimmed no_platform_pow blank_id_inputs _ eq_refl).
Defined.

(** X10, on the fourth systolic reading, which nobody has. *)
Lemma X10_empty_column_stays_missing_witness :
  Forall (fun r' => is_nan (num r' TAS_4) = true)
    (returned (run_transformations no_platform_pow single_subject_inputs)).
Proof.
  apply (X10_empty_column_stays_missing no_platform_pow single_subject_inputs
           _ TAS_4 eq_refl).
  - intros [E|[E|[E|[]]]]; discriminate E.
  - repeat constructor.
Defined.

(* ================================================================== *)
(** * Exports, file names, windows and downloads *)

Section StrFacts.

Import PyStr.

Lemma length_drop (n : nat) (s : string) :
  String.length (drop n s) = (String.length s - n)%nat.
Proof.
  revert s. induction n as [|n IH]; intros [|c s]; simpl; auto.
Qed.

Lemma drop_app (s p : string) : drop (String.length s) (s ++ p) = p.
Proof. induction s as [|c s IH]; simpl; auto. Qed.

Lemma length_app (s p : string) :
  String.length (s ++ p) = (String.length s + String.length p)%nat.
Proof. induction s as [|c s IH]; simpl; auto. Qed.

Lemma endswith_app (s p : string) : endswith (s ++ p) p = true.
Proof.
  unfold endswith. rewrite length_app.
  replace (String.length s + String.length p - String.length p)%nat
    with (String.length s) by lia.
  rewrite drop_app, String.eqb_refl.
  apply andb_true_iff. split; [apply Nat.leb_le; lia|reflexivity].
Qed.

Lemma out_name_ends (filename ext : string) :
  endswith (out_name filename ext) ext = true.
Proof.
  unfold out_name. destruct (endswith filename ext) eqn:E; [exact E|].
  apply endswith_app.
Qed.

Lemma out_name_idem (filename ext : string) :
  out_name (out_name filename ext) ext = out_name filename ext.
Proof.
  unfold out_name at 1. now rewrite out_name_ends.
Qed.

End StrFacts.

(** X11.  [save_to_file] accepts the formats "csv" and "xlsx" only: any
    other format raises [ValueError] and writes nothing.  For these two,
    the file written holds the frame, its name ends with the extension
    of the format, and saving again under the returned name returns that
    name unchanged. *)
Theorem X11_save_to_file_names
  (disk : Disk) (df : DataFrame) (filename fmt : string) :
  match save_to_file disk df filename fmt with
  | inr (disk', out) =>
      (fmt = "csv" \/ fmt = "xlsx") /\
      PyStr.endswith out ("." ++ fmt) = true /\
      (exists body, disk' = (out, body) :: disk /\
                    (body = CsvBody df \/ body = XlsxBody "DataFrame" df)) /\
      (forall disk2 df2,
          option_map snd
            (match save_to_file disk2 df2 out fmt with
             | inr x => Some x
             | inl _ => None
             end) = Some out)
  | inl e =>
      fmt <> "csv" /\ fmt <> "xlsx" /\
      e = ValueError "Formato no soportado (usa 'csv' o 'xlsx')."
  end.
Proof.
  unfold save_to_file.
  destruct (String.eqb fmt "csv") eqn:E1.
  { apply String.eqb_eq in E1. subst fmt. simpl.
    repeat split; auto.
    - apply out_name_ends.
    - eexists. split; [reflexivity|auto].
    - intros _ _. simpl. now rewrite out_name_idem. }
  destruct (String.eqb fmt "xlsx") eqn:E2.
  { apply String.eqb_eq in E2. subst fmt. simpl.
    repeat split; auto.
    - apply out_name_ends.
    - eexists. split; [reflexivity|auto].
    - intros _ _. simpl. now rewrite out_name_idem. }
  apply String.eqb_neq in E1, E2. auto.
Qed.

Section FileNameFacts.

Import PyStr.




End FileNameFacts.



Section Window.

Context {A : Type}.

Lemma iloc_forward (df : list A) (start n : Z) :
  (0 <= start)%Z -> (0 <= n)%Z ->
  iloc df start (start + n)
  = firstn (Z.to_nat n) (skipn (Z.to_nat start) df).
Proof.
  intros Hs Hn. unfold iloc, slice_bound.
  destruct (start <? 0)%Z eqn:E1; [apply Z.ltb_lt in E1; lia|].
  destruct (start + n <? 0)%Z eqn:E2; [apply Z.ltb_lt in E2; lia|].
  set (len := Z.of_nat (List.length df)).
  destruct (Z.le_gt_cases start len) as [L|L].
  - rewrite (Z.min_l start len L).
    destruct (Z.le_gt_cases (start + n) len) as [L'|L'].
    + rewrite (Z.min_l _ _ L'). f_equal. f_equal. lia.
    + rewrite (Z.min_r (start + n) len) by lia.
      rewrite !firstn_all2; try reflexivity;
        rewrite length_skipn; unfold len in *; lia.
  - rewrite (Z.min_r start len) by lia.
    rewrite (Z.min_r (start + n) len) by lia.
    rewrite !skipn_all2 by (unfold len in *; lia).
    now rewrite !firstn_nil.
Qed.

Lemma firstn_plus (l : list A) (n m : nat) :
  firstn (n + m) l = (firstn n l ++ firstn m (skipn n l))%list.
Proof.
  revert l. induction n as [|n IH]; intros [|x l]; simpl;
    try reflexivity; [now rewrite firstn_nil|].
  f_equal. apply IH.
Qed.

Lemma firstn_skipn_tile (df : list A) (a n m : nat) :
  (firstn n (skipn a df) ++ firstn m (skipn (a + n) df))%list
  = firstn (n + m) (skipn a df).
Proof.
  rewrite firstn_plus, skipn_skipn, (Nat.add_comm n a). reflexivity.
Qed.

End Window.

(** X13.  With a cap [MAX_JSON_ROWS] that is not negative, the JSON window
    at a valid [limit] and [offset] is made of the rows from [offset]
    on, at most [min(limit, MAX_JSON_ROWS)] of them, and the window that
    starts where one ends continues it: two windows in a row give the
    rows of a window twice as long. *)
Theorem X13_json_window_pages {A : Type}
  (MAX_JSON_ROWS limit offset : Z) (df : list A) :
  (0 <= MAX_JSON_ROWS)%Z -> (1 <= limit <= 1000000)%Z -> (0 <= offset)%Z ->
  let chunk := Z.min limit MAX_JSON_ROWS in
  json_window MAX_JSON_ROWS limit offset df
  = firstn (Z.to_nat chunk) (skipn (Z.to_nat offset) df) /\
  (Z.of_nat (List.length (json_window MAX_JSON_ROWS limit offset df))
   <= chunk)%Z /\
  (json_window MAX_JSON_ROWS limit offset df
   ++ json_window MAX_JSON_ROWS limit (offset + chunk) df)%list
  = firstn (Z.to_nat (2 * chunk)) (skipn (Z.to_nat offset) df).
Proof.
  intros HM HL HO chunk.
  assert (HC : (0 <= chunk)%Z) by (unfold chunk; lia).
  unfold json_window. fold chunk.
  rewrite !iloc_forward by lia.
  split; [reflexivity|]. split.
  - rewrite length_firstn. lia.
  - rewrite Z2Nat.inj_add by lia. rewrite firstn_skipn_tile.
    f_equal. lia.
Qed.

(** X14.  With a negative cap [MAX_JSON_ROWS], the JSON window at offset 0
    is not empty and not capped: it holds every row of the frame but the
    last [- MAX_JSON_ROWS], whatever [limit] is. *)
Theorem X14_json_window_negative_cap {A : Type}
  (MAX_JSON_ROWS limit : Z) (df : list A) :
  (MAX_JSON_ROWS < 0)%Z -> (1 <= limit <= 1000000)%Z ->
  json_window MAX_JSON_ROWS limit 0 df
  = firstn (List.length df - Z.to_nat (- MAX_JSON_ROWS)) df.
Proof.
  intros HM HL. unfold json_window, iloc, slice_bound.
  rewrite (Z.min_r limit MAX_JSON_ROWS) by lia.
  change (0 <? 0)%Z with false. cbv iota.
  destruct (0 + MAX_JSON_ROWS <? 0)%Z eqn:E; [|apply Z.ltb_ge in E; lia].
  rewrite Z.min_l by lia. simpl (Z.to_nat 0). simpl skipn.
  f_equal. lia.
Qed.

(** X13, on five rows with the cap 2 and the limit 100. *)
Lemma X13_json_window_pages_witness :
  let chunk := Z.min 100 2 in
  json_window 2 100 1 [10; 11; 12; 13; 14]%Z
  = firstn (Z.to_nat chunk) (skipn (Z.to_nat 1) [10; 11; 12; 13; 14]%Z) /\
  (Z.of_nat (List.length (json_window 2 100 1 [10; 11; 12; 13; 14]%Z))
   <= chunk)%Z /\
  (json_window 2 100 1 [10; 11; 12; 13; 14]%Z
   ++ json_window 2 100 (1 + chunk) [10; 11; 12; 13; 14]%Z)%list
  = firstn (Z.to_nat (2 * chunk)) (skipn (Z.to_nat 1) [10; 11; 12; 13; 14]%Z).
Proof.
  apply (X13_json_window_pages 2 100 1 [10; 11; 12; 13; 14]%Z); lia.
Defined.

(** X14, on five rows with the cap -1: four rows are returned. *)
Lemma X14_json_window_negative_cap_witness :
  json_window (-1) 100 0 [10; 11; 12; 13; 14]%Z
  = firstn (List.length [10; 11; 12; 13; 14]%Z - Z.to_nat (- -1))
      [10; 11; 12; 13; 14]%Z.
Proof.
  apply (X14_json_window_negative_cap (-1) 100 [10; 11; 12; 13; 14]%Z); lia.
Defined.

Section NameFacts.

Import PyStr.

Lemma count_app (s p : string) (c : ascii) :
  count (s ++ p) c = (count s c + count p c)%nat.
Proof. induction s as [|a s IH]; simpl; [reflexivity|]. rewrite IH. lia. Qed.

Lemma rfind_absent (s : string) (c : ascii) :
  count s c = O -> rfind s c = (-1)%Z.
Proof.
  induction s as [|a s IH]; simpl; [reflexivity|].
  destruct (Ascii.eqb a c); simpl; [discriminate|].
  intros H. now rewrite (IH H).
Qed.

Lemma path_name_plain (s : string) : count s "/" = O -> path_name s = s.
Proof. intros H. unfold path_name. now rewrite (rfind_absent _ _ H). Qed.

Lemma app_not_self (s p : string) : p <> EmptyString -> s ++ p <> s.
Proof.
  intros P E. apply (f_equal String.length) in E.
  rewrite length_app in E. destruct p; [now apply P|simpl in E; lia].
Qed.

Lemma out_name_plain (base ext : string) :
  ext <> EmptyString ->
  (out_name base ext = base ++ ext <-> endswith base ext = false).
Proof.
  intros P. unfold out_name. destruct (endswith base ext); split; auto.
  - intros E. symmetry in E. now apply app_not_self in E.
  - discriminate.
Qed.

End NameFacts.

(** X15.  For a download name without "/", [etl_download] with
    [format=xlsx] names the attachment differently with and without
    [persist]: with it, the name of the saved file, to which ".xlsx" is
    added only when it is not there yet; without it, the name with
    ".xlsx" added in any case.  The two agree exactly when the name does
    not end with ".xlsx" already.  Without [persist] nothing is
    written. *)
Theorem X15_xlsx_attachment_names
  (DEFAULT_DOWNLOAD_NAME : string) (disk : Disk) (df : DataFrame)
  (filename : option string) :
  let base :=
    PyStr.replace (PyStr.or_else filename DEFAULT_DOWNLOAD_NAME) ".csv" "" in
  PyStr.count base "/" = O ->
  etl_download DEFAULT_DOWNLOAD_NAME disk df format_xlsx filename true
  = inr ((out_name base ".xlsx", XlsxBody "DataFrame" df) :: disk,
         out_name base ".xlsx") /\
  etl_download DEFAULT_DOWNLOAD_NAME disk df format_xlsx filename false
  = inr (disk, base ++ ".xlsx") /\
  (out_name base ".xlsx" = base ++ ".xlsx"
   <-> PyStr.endswith base ".xlsx" = false).
Proof.
  intros base H. unfold etl_download. fold base. simpl.
  split; [|split; [reflexivity|apply out_name_plain; discriminate]].
  rewrite path_name_plain; [reflexivity|].
  unfold out_name. destruct (PyStr.endswith base ".xlsx"); [exact H|].
  rewrite count_app, H. reflexivity.
Qed.

(** X15, on a name that carries the extension already: the attachment
    is "informe.xlsx" with [persist] and "informe.xlsx.xlsx" without. *)
Lemma X15_xlsx_attachment_names_witness :
  etl_download "df_etl.csv" [] [] format_xlsx (Some "informe.xlsx") true
  = inr ([("informe.xlsx", XlsxBody "DataFrame" [])], "informe.xlsx") /\
  etl_download "df_etl.csv" [] [] format_xlsx (Some "informe.xlsx") false
  = inr ([], "informe.xlsx.xlsx") /\
  (out_name "informe.xlsx" ".xlsx" = "informe.xlsx" ++ ".xlsx"
   <-> PyStr.endswith "informe.xlsx" ".xlsx" = false).
Proof.
  exact (X15_xlsx_attachment_names "df_etl.csv" [] [] (Some "informe.xlsx")
           eq_refl).
Defined.

Section StreamingFacts.

Import PyStr.

Lemma commas_join (l : list string) :
  commas (join "," l)
  = (list_sum (map commas l) + (List.length l - 1))%nat.
Proof.
  induction l as [|x l IH]; [reflexivity|].
  destruct l as [|y l]; [simpl; lia|].
  change (join "," (x :: y :: l)) with (x ++ "," ++ join "," (y :: l)).
  unfold commas in *. rewrite !count_app, IH. simpl. lia.
Qed.

Lemma commas_app (s p : string) : commas (s ++ p) = (commas s + commas p)%nat.
Proof. apply count_app. Qed.

Lemma commas_labels (c : TxtCol) (s : string) :
  c <> id -> s = sentinel c \/ In s (labels c) ->
  commas s
  = if String.eqb s "Otra raza, incluida la multirracial" then 1%nat else O.
Proof.
  intros C H.
  assert (E : forallb
                (fun s => Nat.eqb (commas s)
                            (if String.eqb s "Otra raza, incluida la multirracial"
                             then 1 else 0))
                (sentinel c :: labels c) = true)
    by (destruct c; vm_compute; reflexivity).
  rewrite forallb_forall in E. apply Nat.eqb_eq, E.
  destruct H as [-> |H]; [left; reflexivity|right; exact H].
Qed.

Lemma other_race_only (c : TxtCol) (s : string) :
  c <> id -> c <> grupo_etnico -> s = sentinel c \/ In s (labels c) ->
  String.eqb s "Otra raza, incluida la multirracial" = false.
Proof.
  intros C G H.
  assert (E : forallb
                (fun s => negb (String.eqb s "Otra raza, incluida la multirracial"))
                (sentinel c :: labels c) = true)
    by (destruct c; try (now elim G); vm_compute; reflexivity).
  rewrite forallb_forall in E. apply negb_true_iff, E.
  destruct H as [-> |H]; [left; reflexivity|right; exact H].
Qed.

End StreamingFacts.

Lemma str_float_example_commas (x : float) :
  commas (str_float_example x) = O.
Proof.
  unfold str_float_example.
  destruct (is_nan x); [reflexivity|].
  destruct (is_infinity x); [|reflexivity].
  destruct (get_sign x); reflexivity.
Qed.

(** X16.  [etl_download] streams the returned table as CSV without
    quoting anything.  Whenever [str] writes no comma into a float, the
    header line has 39 commas, and the line of a row has 39 commas, plus
    those of its identifier, plus one when the ethnic group of the row
    is "Otra raza, incluida la multirracial": such a row always has one
    field more than the header. *)
Theorem X16_streamed_csv_fields
  (str_float : float -> string) (pw : PlatformPow) (dfs : Inputs)
  (t : DataFrame) :
  (forall x, commas (str_float x) = O) ->
  run_transformations pw dfs = Ok t ->
  exists header lines,
    generate str_float cols_existentes t = header :: lines /\
    commas header = 39%nat /\
    Forall2
      (fun row line =>
         commas line
         = (39 + commas (str_cell str_float row (T id))
            + (if key_eqb (txt row grupo_etnico)
                    (Some "Otra raza, incluida la multirracial")
               then 1 else 0))%nat)
      t lines.
Proof.
  intros F H. unfold generate. do 2 eexists. split; [reflexivity|].
  split; [vm_compute; reflexivity|].
  apply Forall2_map_right. intros row Hr.
  pose proof (run_vocabulary pw dfs t H) as V.
  rewrite Forall_forall in V. specialize (V row Hr).
  assert (C : forall c,
             commas (str_cell str_float row c)
             = match c with
               | N _ => O
               | T id => commas (str_cell str_float row (T id))
               | T grupo_etnico =>
                   if key_eqb (txt row grupo_etnico)
                        (Some "Otra raza, incluida la multirracial")
                   then 1%nat else O
               | T _ => O
               end).
  { intros [k|c]; [apply F|].
    destruct (TxtCol_eq_dec c id) as [-> |Ci]; [reflexivity|].
    destruct (V c Ci) as (s & E & L). simpl. rewrite E.
    rewrite (commas_labels c s Ci L).
    destruct (TxtCol_eq_dec c grupo_etnico) as [-> |Cg].
    - rewrite E. reflexivity.
    - rewrite (other_race_only c s Ci Cg L). destruct c; congruence. }
  rewrite commas_app, commas_join, map_map, (map_ext _ _ C).
  rewrite length_map. change (commas newline) with O.
  replace cols_existentes with columns_merge by (vm_compute; reflexivity).
  cbv beta iota delta [columns_merge map list_sum List.length fold_right].
  destruct (key_eqb _ _); lia.
Qed.

(** X16, on a subject of the ethnic group 5. *)
Lemma X16_streamed_csv_fields_witness :
  exists header lines,
    generate str_float_example cols_existentes
      (returned (run_transformations no_platform_pow other_race_inputs))
    = header :: lines /\
    commas header = 39%nat /\
    Forall2
      (fun row line =>
         commas line
         = (39 + commas (str_cell str_float_example row (T id))
            + (if key_eqb (txt row grupo_etnico)
                    (Some "Otra raza, incluida la multirracial")
               then 1 else 0))%nat)
      (returned (run_transformations no_platform_pow other_race_inputs)) lines.
Proof.
  exact (X16_streamed_csv_fields str_float_example no_platform_pow
           other_race_inputs _ str_float_example_commas eq_refl).
Defined.
